(** * dada_fildb: filterbank header codec, memory-mapped reader and page
      assembler, embedded from [dada_fildb/sigproc.py] and
      [dada_fildb/dada_fildb.py].

    The Python code is embedded shallowly: every function of the source
    becomes a Rocq function of the same name, exceptions become the
    [Raise] constructor of [result], the file object and the instance
    attributes are passed explicitly. *)

From Stdlib Require Import ZArith QArith Qround Lia List Bool Ascii String.
From Stdlib Require Import Strings.Byte.
From Stdlib Require Qcanon.
From stdpp Require Import base option list gmap.

Local Open Scope Z_scope.

(** ** The Python runtime, as far as the code uses it *)

Module Py.

(** Exceptions the embedded code can raise. [FuelExhausted] is not a
    Python exception: it marks the fuel bound of a loop model and is
    proved unreachable where a loop is bounded by its input. *)
Inductive exn : Type :=
| TypeError | ValueError | AttributeError | KeyError | IndexError
| StructError | UnicodeEncodeError | UnicodeDecodeError | OverflowError
| ZeroDivisionError | RuntimeError | OSError | FuelExhausted.

Inductive result (A : Type) : Type :=
| Ok (a : A)
| Raise (e : exn).
Arguments Ok {A} a.
Arguments Raise {A} e.

#[global] Instance result_ret : MRet result := fun A a => Ok a.
#[global] Instance result_bind : MBind result := fun A B f m =>
  match m with
  | Ok a => f a
  | Raise e => Raise e
  end.

Abbreviation bytes := (list byte).

#[global] Instance byte_eq_dec : EqDecision byte := Byte.byte_eq_dec.

Definition b2z (b : byte) : Z := Z.of_N (Byte.to_N b).

Definition z2b (z : Z) : byte :=
  match Byte.of_N (Z.to_N (z mod 256)) with
  | Some b => b
  | None => x00
  end.

(** A Python [str] is its sequence of Unicode code points. *)
Abbreviation pystr := (list Z).

Definition str (s : string) : pystr :=
  map (fun a => Z.of_N (N_of_ascii a)) (list_ascii_of_string s).

(** [b"..."] literals. *)
Definition blit (s : string) : bytes := list_byte_of_string s.

(** Run-time values of instance attributes. A [float] that travels
    through the header is kept as its IEEE-754 binary64 bit pattern. *)
Inductive value : Type :=
| VNone
| VInt (z : Z)
| VFloat (bits : Z)
| VStr (s : pystr)
| VBytes (b : bytes).

(** *** [str.encode()] and [bytes.decode()]: strict UTF-8 *)

Definition is_surrogate (c : Z) : bool := (0xD800 <=? c) && (c <=? 0xDFFF).

Definition utf8_encode_cp (c : Z) : result bytes :=
  if (c <? 0) || (0x10FFFF <? c) then Raise UnicodeEncodeError
  else if c <? 0x80 then Ok [z2b c]
  else if c <? 0x800 then Ok [z2b (0xC0 + c / 64); z2b (0x80 + c mod 64)]
  else if c <? 0x10000 then
    if is_surrogate c then Raise UnicodeEncodeError
    else Ok [z2b (0xE0 + c / 4096); z2b (0x80 + (c / 64) mod 64);
             z2b (0x80 + c mod 64)]
  else Ok [z2b (0xF0 + c / 262144); z2b (0x80 + (c / 4096) mod 64);
           z2b (0x80 + (c / 64) mod 64); z2b (0x80 + c mod 64)].

Fixpoint encode (s : pystr) : result bytes :=
  match s with
  | [] => Ok []
  | c :: s' =>
      bs ← utf8_encode_cp c;
      rest ← encode s';
      Ok (bs ++ rest)
  end.

Definition is_cont (b : byte) : bool := (0x80 <=? b2z b) && (b2z b <? 0xC0).

Definition cont (b : byte) : Z := b2z b - 0x80.

Fixpoint decode (bs : bytes) : result pystr :=
  match bs with
  | [] => Ok []
  | b0 :: t0 =>
      let n0 := b2z b0 in
      if n0 <? 0x80 then
        s ← decode t0; Ok (n0 :: s)
      else if n0 <? 0xC2 then Raise UnicodeDecodeError
      else if n0 <? 0xE0 then
        match t0 with
        | b1 :: t1 =>
            if is_cont b1 then
              s ← decode t1; Ok ((n0 - 0xC0) * 64 + cont b1 :: s)
            else Raise UnicodeDecodeError
        | _ => Raise UnicodeDecodeError
        end
      else if n0 <? 0xF0 then
        match t0 with
        | b1 :: b2 :: t2 =>
            let c := (n0 - 0xE0) * 4096 + cont b1 * 64 + cont b2 in
            if is_cont b1 && is_cont b2 && (0x800 <=? c)
               && negb (is_surrogate c) then
              s ← decode t2; Ok (c :: s)
            else Raise UnicodeDecodeError
        | _ => Raise UnicodeDecodeError
        end
      else if n0 <? 0xF5 then
        match t0 with
        | b1 :: b2 :: b3 :: t3 =>
            let c := (n0 - 0xF0) * 262144 + cont b1 * 4096
                     + cont b2 * 64 + cont b3 in
            if is_cont b1 && is_cont b2 && is_cont b3
               && (0x10000 <=? c) && (c <=? 0x10FFFF) then
              s ← decode t3; Ok (c :: s)
            else Raise UnicodeDecodeError
        | _ => Raise UnicodeDecodeError
        end
      else Raise UnicodeDecodeError
  end.

(** *** [str.upper()] and [in] on the ASCII range.
    Code points outside ASCII are left alone: no such code point
    upper-cases to ['F'] or ['T'], the only letters the code compares
    the result with. *)
Definition upper_cp (c : Z) : Z :=
  if (0x61 <=? c) && (c <=? 0x7A) then c - 32 else c.

Definition upper (s : pystr) : pystr := map upper_cp s.

Definition str_eqb (s t : pystr) : bool := bool_decide (s = t).

(** ['c' in s] for a one-character pattern. *)
Definition contains_char (c : Z) (s : pystr) : bool :=
  existsb (Z.eqb c) s.

(** *** Little-endian integers and the [struct] module.
    Native byte order is taken to be little-endian and the native sizes
    are those of the platforms the program runs on: [i] is 4 bytes, [d]
    is 8 bytes. *)

Fixpoint le_bytes (n : nat) (z : Z) : bytes :=
  match n with
  | O => []
  | S n' => z2b (z mod 256) :: le_bytes n' (z / 256)
  end.

Fixpoint le_value (bs : bytes) : Z :=
  match bs with
  | [] => 0
  | b :: t => b2z b + 256 * le_value t
  end.

(** [float(z)]: the binary64 pattern nearest to an integer, ties to
    even. *)
Definition float_bits_of_int (z : Z) : result Z :=
  if z =? 0 then Ok 0
  else
    let a := Z.abs z in
    let e := Z.log2 a in
    let sign := if z <? 0 then 2 ^ 63 else 0 in
    let '(m, e') :=
      if e <=? 52 then (a * 2 ^ (52 - e), e)
      else
        let sh := e - 52 in
        let q := a / 2 ^ sh in
        let r := a mod 2 ^ sh in
        let half := 2 ^ (sh - 1) in
        let q' := if (half <? r) || ((r =? half) && Z.odd q)
                  then q + 1 else q in
        if q' =? 2 ^ 53 then (2 ^ 52, e + 1) else (q', e) in
    if 1023 <? e' then Raise OverflowError
    else Ok (sign + (e' + 1023) * 2 ^ 52 + (m - 2 ^ 52)).

(** [s[0]] on a [str]. *)
Definition first_char (s : pystr) : result pystr :=
  match s with
  | c :: _ => Ok [c]
  | [] => Raise IndexError
  end.

Definition calcsize (fmt : pystr) : result Z :=
  if str_eqb fmt (str "i") then Ok 4
  else if str_eqb fmt (str "d") then Ok 8
  else Raise StructError.

(** [struct.pack(fmt, val)] for a one-character format. Formats other
    than [i] and [d] are never built from the field table. *)
Definition pack (fmt : pystr) (val : value) : result bytes :=
  if str_eqb fmt (str "i") then
    match val with
    | VInt z =>
        if (- 2 ^ 31 <=? z) && (z <? 2 ^ 31)
        then Ok (le_bytes 4 (z mod 2 ^ 32))
        else Raise StructError
    | _ => Raise StructError
    end
  else if str_eqb fmt (str "d") then
    match val with
    | VFloat bits => Ok (le_bytes 8 bits)
    | VInt z => bits ← float_bits_of_int z; Ok (le_bytes 8 bits)
    | _ => Raise StructError
    end
  else Raise StructError.

(** [struct.unpack(fmt, buf)[0]]. *)
Definition unpack (fmt : pystr) (buf : bytes) : result value :=
  size ← calcsize fmt;
  if negb (Z.of_nat (length buf) =? size) then Raise StructError
  else if str_eqb fmt (str "i") then
    let u := le_value buf in
    Ok (VInt (if u <? 2 ^ 31 then u else u - 2 ^ 32))
  else Ok (VFloat (le_value buf)).

(** *** Numbers in arithmetic: [int] and [float].
    A [float] taking part in arithmetic is modelled by the rational it
    stands for; the model is exact wherever the Python result is exactly
    representable, which is the case at every concrete input evaluated
    below. *)
Inductive num : Type :=
| PInt (z : Z)
| PFloat (q : Q).

Definition to_Q (n : num) : Q :=
  match n with
  | PInt z => inject_Z z
  | PFloat q => q
  end.

Definition mul (a b : num) : num :=
  match a, b with
  | PInt x, PInt y => PInt (x * y)
  | _, _ => PFloat (Qred (to_Q a * to_Q b))
  end.

Definition add (a b : num) : num :=
  match a, b with
  | PInt x, PInt y => PInt (x + y)
  | _, _ => PFloat (Qred (to_Q a + to_Q b))
  end.

Definition sub (a b : num) : num :=
  match a, b with
  | PInt x, PInt y => PInt (x - y)
  | _, _ => PFloat (Qred (to_Q a - to_Q b))
  end.

(** [a / b]: true division, always a [float]. *)
Definition truediv (a b : num) : result num :=
  if Qeq_bool (to_Q b) 0 then Raise ZeroDivisionError
  else Ok (PFloat (Qred (to_Q a / to_Q b))).

(** [int(x)]: truncation towards zero. *)
Definition int (a : num) : Z :=
  match a with
  | PInt z => z
  | PFloat q => Z.quot (Qnum q) (Zpos (Qden q))
  end.

(** [np.ceil(x)] followed by [int]. *)
Definition ceil (a : num) : Z :=
  match a with
  | PInt z => z
  | PFloat q => Qceiling q
  end.

(** [operator.index]: what a slice bound must satisfy. *)
Definition index (a : num) : result Z :=
  match a with
  | PInt z => Ok z
  | PFloat _ => Raise TypeError
  end.

(** [buf[lo:hi]] with the usual adjustment of negative and out-of-range
    bounds. *)
Definition adjust (len i : Z) : Z :=
  if i <? 0 then Z.max (i + len) 0 else Z.min i len.

Definition slice {A} (l : list A) (lo hi : Z) : list A :=
  let len := Z.of_nat (length l) in
  let lo' := adjust len lo in
  let hi' := adjust len hi in
  take (Z.to_nat (hi' - lo')) (drop (Z.to_nat lo') l).

(** *** Binary file objects opened for reading *)
Record file : Type := mkfile {
  fbytes : bytes;   (* the whole content, as [mmap] sees it *)
  funread : bytes   (* the bytes after the current position *)
}.

Definition open_rb (content : bytes) : file := mkfile content content.

(** [fp.read(n)]: up to [n] bytes, all of the rest when [n] is negative. *)
Definition read (fp : file) (n : Z) : bytes * file :=
  if n <? 0 then (funread fp, mkfile (fbytes fp) [])
  else (take (Z.to_nat n) (funread fp),
        mkfile (fbytes fp) (drop (Z.to_nat n) (funread fp))).

End Py.

(** ** numpy arrays, as far as the code uses them *)

Module Np.
Import Py.

Inductive dtype : Type := uint8 | uint16 | float32 | float64.

(** An array element. Unsigned samples are kept as their integer value;
    a [float32] sample is kept as its bit pattern. Widening either to
    [float32] or [float64] is exact, so a widened element is the same
    [scalar]; [SInt 0] is the [0.0] of [np.zeros]. *)
Inductive scalar : Type :=
| SInt (z : Z)
| SF32 (bits : Z).

Definition zero : scalar := SInt 0.

Definition itemsize (dt : dtype) : nat :=
  match dt with
  | uint8 => 1
  | uint16 => 2
  | float32 => 4
  | float64 => 8
  end%nat.

Definition scalar_of (dt : dtype) (item : bytes) : scalar :=
  match dt with
  | uint8 | uint16 => SInt (le_value item)
  | float32 | float64 => SF32 (le_value item)
  end.

(** [n] consecutive chunks of [k] elements. *)
Fixpoint chunks {A} (k n : nat) (l : list A) : list (list A) :=
  match n with
  | O => []
  | S n' => take k l :: chunks k n' (drop k l)
  end.

(** [np.frombuffer(buf, dtype=dt)]: a flat array. *)
Definition frombuffer (buf : bytes) (dt : dtype) : result (list scalar) :=
  if (length buf mod itemsize dt =? 0)%nat
  then Ok (map (scalar_of dt) (chunks (itemsize dt) (length buf / itemsize dt) buf))
  else Raise ValueError.

(** A two-dimensional array: its shape and its rows. *)
Record ndarray2 : Type := mk2 {
  dt2 : dtype;
  shape0 : nat;
  shape1 : nat;
  rows : list (list scalar)
}.


Definition cell (a : ndarray2) (i j : nat) : scalar :=
  nth j (nth i (rows a) []) zero.

(** [flat.reshape((-1, nifs, nchans))[:, 0, :]]. The reshape fails
    unless both given dimensions are positive and their product divides
    the size. *)
Definition reshape_first (dt : dtype) (flat : list scalar) (nifs nchans : Z)
  : result ndarray2 :=
  if (nifs <=? 0) || (nchans <=? 0) then Raise ValueError
  else
    let rec := Z.to_nat (nifs * nchans) in
    if negb (length flat mod rec =? 0)%nat then Raise ValueError
    else
      let n := (length flat / rec)%nat in
      Ok (mk2 dt n (Z.to_nat nchans)
              (map (take (Z.to_nat nchans)) (chunks rec n flat))).

(** [np.transpose(a)]. *)
Definition transpose (a : ndarray2) : ndarray2 :=
  mk2 (dt2 a) (shape1 a) (shape0 a)
      (map (fun j => map (fun i => cell a i j) (seq 0 (shape0 a)))
           (seq 0 (shape1 a))).

(** [a[::-1]]: the leading axis reversed. *)
Definition flip (a : ndarray2) : ndarray2 :=
  mk2 (dt2 a) (shape0 a) (shape1 a) (rev (rows a)).

(** [a.astype(dt)]. *)
Definition astype (dt : dtype) (a : ndarray2) : ndarray2 :=
  mk2 dt (shape0 a) (shape1 a) (rows a).

(** Broadcasting [a] to shape [(c, p)], as an assignment [dst[...] = a]
    does: every dimension of [a] is the target's or is 1. *)
Definition broadcast_to (c p : nat) (a : ndarray2)
  : result (list (list scalar)) :=
  if ((shape0 a =? c) || (shape0 a =? 1))%nat
     && ((shape1 a =? p) || (shape1 a =? 1))%nat
  then Ok (map (fun x =>
                  map (fun y => cell a (if (shape0 a =? 1)%nat then O else x)
                                       (if (shape1 a =? 1)%nat then O else y))
                      (seq 0 p))
               (seq 0 c))
  else Raise ValueError.

(** A three-dimensional array of [float64]. *)
Record ndarray3 : Type := mk3 {
  dim0 : nat;
  dim1 : nat;
  dim2 : nat;
  planes : list (list (list scalar))
}.

(** [flat.reshape((n0, n1, n2))]. *)
Definition reshape3 (flat : list scalar) (n0 n1 n2 : Z) : result ndarray3 :=
  if (n0 <? 0) || (n1 <? 0) || (n2 <? 0) then Raise ValueError
  else if negb (Z.of_nat (length flat) =? n0 * n1 * n2) then Raise ValueError
  else
    Ok (mk3 (Z.to_nat n0) (Z.to_nat n1) (Z.to_nat n2)
            (map (chunks (Z.to_nat n2) (Z.to_nat n1))
                 (chunks (Z.to_nat (n1 * n2)) (Z.to_nat n0) flat))).

(** [np.zeros((b, c, p))]. *)
Definition zeros (b c p : Z) : result ndarray3 :=
  if (b <? 0) || (c <? 0) || (p <? 0) then Raise ValueError
  else Ok (mk3 (Z.to_nat b) (Z.to_nat c) (Z.to_nat p)
               (replicate (Z.to_nat b)
                  (replicate (Z.to_nat c) (replicate (Z.to_nat p) zero)))).

(** [data[i] = a]. *)
Definition setitem (data : ndarray3) (i : nat) (a : ndarray2)
  : result ndarray3 :=
  plane ← broadcast_to (dim1 data) (dim2 data) a;
  Ok (mk3 (dim0 data) (dim1 data) (dim2 data) (<[i := plane]> (planes data))).

(** [data[i][:, :nsamp] = a]. *)
Definition setitem_head (data : ndarray3) (i nsamp : nat) (a : ndarray2)
  : result ndarray3 :=
  let w := Nat.min nsamp (dim2 data) in
  region ← broadcast_to (dim1 data) w a;
  let old := nth i (planes data) [] in
  let plane := zip_with (fun new row => new ++ drop w row) region old in
  Ok (mk3 (dim0 data) (dim1 data) (dim2 data) (<[i := plane]> (planes data))).

End Np.

(** ** [sigproc.py]: class [SigprocFile] *)

Module SigprocFile.
Import Py.

(** The class attribute [_type], an ordered dictionary. *)
Definition _type : list (pystr * pystr) :=
  [ (str "rawdatafile", str "string");
    (str "source_name", str "string");
    (str "machine_id", str "int");
    (str "barycentric", str "int");
    (str "pulsarcentric", str "int");
    (str "telescope_id", str "int");
    (str "src_raj", str "double");
    (str "src_dej", str "double");
    (str "az_start", str "double");
    (str "za_start", str "double");
    (str "data_type", str "int");
    (str "fch1", str "double");
    (str "foff", str "double");
    (str "nchans", str "int");
    (str "nbeams", str "int");
    (str "ibeam", str "int");
    (str "nbits", str "int");
    (str "tstart", str "double");
    (str "tsamp", str "double");
    (str "nifs", str "int") ].

(** [self._type.keys()]. *)
Definition keys : list pystr := map fst _type.

(** [self._type[name]]. *)
Definition type_of (name : pystr) : result pystr :=
  match List.find (fun kv => str_eqb (fst kv) name) _type with
  | Some kv => Ok (snd kv)
  | None => Raise KeyError
  end.

(** An instance: its header attributes by name, and the attributes
    [fp], [hdrbytes] and [_mmdata], each of which exists only once it has
    been assigned. *)
Record instance : Type := mk {
  attrs : gmap pystr value;
  fp : option file;
  hdrbytes : option Z;
  _mmdata : option bytes
}.

Definition setattr (self : instance) (k : pystr) (v : value) : instance :=
  mk (<[k := v]> (attrs self)) (fp self) (hdrbytes self) (_mmdata self).

Definition hasattr (self : instance) (k : pystr) : bool :=
  bool_decide (is_Some (attrs self !! k)).

Definition getattr (self : instance) (k : pystr) : result value :=
  match attrs self !! k with
  | Some v => Ok v
  | None => Raise AttributeError
  end.

Definition set_fp (self : instance) (f : file) : instance :=
  mk (attrs self) (Some f) (hdrbytes self) (_mmdata self).

Definition set_hdrbytes (self : instance) (n : Z) : instance :=
  mk (attrs self) (fp self) (Some n) (_mmdata self).

Definition set_mmdata (self : instance) (m : bytes) : instance :=
  mk (attrs self) (fp self) (hdrbytes self) (Some m).

(** [self.hdrbytes += n]. *)
Definition add_hdrbytes (self : instance) (n : Z) : result instance :=
  match hdrbytes self with
  | Some h => Ok (set_hdrbytes self (h + n))
  | None => Raise AttributeError
  end.

(** The header fields that take part in arithmetic are those of type
    [int]; the decoder leaves each of them an [int] or [None]. *)
Definition as_int (v : value) : result Z :=
  match v with
  | VInt z => Ok z
  | _ => Raise TypeError
  end.

(** *** Encoding. Each function returns the bytes it writes to [f], in
    the order it writes them. *)

Definition send_string (val : value) : result bytes :=
  match val with
  | VStr s =>
      val ← encode s;
      n ← pack (str "i") (VInt (Z.of_nat (length val)));
      Ok (n ++ val)
  | _ => Raise AttributeError
  end.

Definition send_num (name : pystr) (val : value) : result bytes :=
  b1 ← send_string (VStr name);
  ty ← type_of name;
  fmt ← first_char ty;
  b2 ← pack fmt val;
  Ok (b1 ++ b2).

Definition send (self : instance) (name : pystr) : result bytes :=
  if negb (hasattr self name) then Ok []
  else
    v ← getattr self name;
    match v with
    | VNone => Ok []
    | _ =>
        ty ← type_of name;
        if str_eqb ty (str "string") then
          b1 ← send_string (VStr name);
          b2 ← send_string v;
          Ok (b1 ++ b2)
        else send_num name v
    end.

Fixpoint send_all (self : instance) (ks : list pystr) : result bytes :=
  match ks with
  | [] => Ok []
  | k :: ks' =>
      b ← send self k;
      rest ← send_all self ks';
      Ok (b ++ rest)
  end.

Definition filterbank_header (self : instance) : result bytes :=
  b0 ← send_string (VStr (str "HEADER_START"));
  body ← send_all self keys;
  b1 ← send_string (VStr (str "HEADER_END"));
  Ok (b0 ++ body ++ b1).

(** *** Decoding *)

(** [get_string(fp)]: the string (or [None]), the count it reports, and
    the file object after the reads. *)
Definition get_string (fp : file) : result (value * Z * file) :=
  let '(b4, fp) := read fp 4 in
  v ← unpack (str "i") b4;
  nchar ← as_int v;
  if (nchar >? 80) || (nchar <? 1) then Ok (VNone, 0, fp)
  else
    let '(out, fp) := read fp nchar in
    Ok (VBytes out, nchar + 4, fp).

(** [s.decode()]. *)
Definition decode_value (s : value) : result pystr :=
  match s with
  | VBytes b => decode b
  | _ => Raise AttributeError
  end.

(** The [while True] loop of [read_header]. Every turn that does not
    raise reads at least the four bytes of a length prefix, so the
    number of unread bytes bounds the number of turns. *)
Fixpoint read_fields (fuel : nat) (self : instance) (fp : file)
  : result instance :=
  match fuel with
  | O => Raise FuelExhausted
  | S fuel' =>
      '(s, n, fp) ← get_string fp;
      s ← decode_value s;
      self ← add_hdrbytes self n;
      if str_eqb s (str "HEADER_END") then Ok (set_fp self fp)
      else
        ty ← type_of s;
        if str_eqb ty (str "string") then
          '(v, n, fp) ← get_string fp;
          self ← add_hdrbytes self n;
          read_fields fuel' (setattr self s v) fp
        else
          datatype ← first_char ty;
          datasize ← calcsize datatype;
          let '(b, fp) := read fp datasize in
          val ← unpack datatype b;
          self ← add_hdrbytes (setattr self s val) datasize;
          read_fields fuel' self fp
  end.

Definition value_eqb (a b : value) : bool :=
  match a, b with
  | VBytes x, VBytes y => bool_decide (x = y)
  | VNone, VNone => true
  | _, _ => false
  end.

Definition read_header (self : instance) : result instance :=
  match fp self with
  | None => Raise AttributeError
  | Some fp =>
      let self := set_hdrbytes self 0 in
      '(s, n, fp) ← get_string fp;
      if negb (value_eqb s (VBytes (blit "HEADER_START"))) then
        Ok (set_fp (set_hdrbytes self 0) fp)
      else
        self ← add_hdrbytes self n;
        read_fields (S (length (funread fp))) self fp
  end.

(** *** Construction. The file system is a finite map from the paths of
    regular files to their content. *)
Abbreviation filesystem := (gmap string bytes).

Definition blank : instance :=
  foldl (fun self k => setattr self k VNone) (mk ∅ None None None) keys.

Definition __init__ (fs : filesystem) (fname : string) : result instance :=
  let self := blank in
  match fs !! fname with
  | Some content =>
      if negb (length content =? 0)%nat then
        let self := set_fp self (open_rb content) in
        self ← read_header self;
        Ok (set_mmdata self content)
      else Ok self
  | None => Ok self
  end.

(** *** Geometry and data access *)

Definition dtype (self : instance) : result Np.dtype :=
  v ← getattr self (str "nbits");
  nbits ← as_int v;
  if nbits =? 8 then Ok Np.uint8
  else if nbits =? 16 then Ok Np.uint16
  else if nbits =? 32 then Ok Np.float32
  else Raise RuntimeError.

Definition bytes_per_spectrum (self : instance) : result num :=
  v ← getattr self (str "nbits");
  nbits ← as_int v;
  v ← getattr self (str "nchans");
  nchans ← as_int v;
  v ← getattr self (str "nifs");
  nifs ← as_int v;
  truediv (mul (mul (PInt nbits) (PInt nchans)) (PInt nifs)) (PInt 8).

Definition mmdata (self : instance) : result bytes :=
  match _mmdata self with
  | Some m => Ok m
  | None => Raise AttributeError
  end.

Definition get_hdrbytes (self : instance) : result Z :=
  match hdrbytes self with
  | Some h => Ok h
  | None => Raise AttributeError
  end.

Definition nspectra (self : instance) : result num :=
  m ← mmdata self;
  h ← get_hdrbytes self;
  bps ← bytes_per_spectrum self;
  truediv (sub (PInt (Z.of_nat (length m))) (PInt h)) bps.

Definition get_data (self : instance) (nstart nsamp : Z)
  : result Np.ndarray2 :=
  bps ← bytes_per_spectrum self;
  let bstart := mul (PInt nstart) bps in
  bps ← bytes_per_spectrum self;
  let nbytes := mul (PInt nsamp) bps in
  h ← get_hdrbytes self;
  let b0 := add (PInt h) bstart in
  let b1 := add b0 nbytes in
  m ← mmdata self;
  let buf := slice m (int b0) (int b1) in
  dt ← dtype self;
  flat ← Np.frombuffer buf dt;
  v ← getattr self (str "nifs");
  nifs ← as_int v;
  v ← getattr self (str "nchans");
  nchans ← as_int v;
  Np.reshape_first dt flat nifs nchans.

(** The body of the [for i in range(fac)] loop of [unpack], for one
    packed byte [d] and one [i]: [(d & mask) / 2 ** (i * nbits)]. *)
Definition unpack_sample (nbits i : Z) (d : Np.scalar) : Np.scalar :=
  match d with
  | Np.SInt v =>
      let mask := 2 ^ (nbits * i) * (2 ^ nbits - 1) in
      Np.SInt (Z.land v mask / 2 ^ (i * nbits))
  | Np.SF32 b => Np.SF32 b
  end.

(** [unpacked[..., i::fac] = ...] for every [i] in [range(fac)], on one
    row of packed bytes. *)
Definition unpack_row (nbits fac : Z) (row : list Np.scalar)
  : list Np.scalar :=
  flat_map (fun d => map (fun i => unpack_sample nbits (Z.of_nat i) d)
                         (seq 0 (Z.to_nat fac))) row.

(** [unpack] returns the two-dimensional block of [get_data] for 8 bits
    and more, and a three-dimensional block (records, subbands,
    channels) on the path for narrower samples. *)
Definition unpack (self : instance) (nstart nsamp : Z)
  : result (Np.ndarray2 + Np.ndarray3) :=
  v ← getattr self (str "nbits");
  nbits ← as_int v;
  if nbits >=? 8 then
    a ← get_data self nstart nsamp;
    Ok (inl (Np.astype Np.float32 a))
  else
    bps ← bytes_per_spectrum self;
    let bstart := mul (PInt nstart) bps in
    bps ← bytes_per_spectrum self;
    let nbytes := mul (PInt nsamp) bps in
    h ← get_hdrbytes self;
    let b0 := add (PInt h) bstart in
    let b1 := add b0 nbytes in
    fac ← truediv (PInt 8) (PInt nbits);
    m ← mmdata self;
    lo ← index b0;
    hi ← index b1;
    flat ← Np.frombuffer (slice m lo hi) Np.uint8;
    v ← getattr self (str "nifs");
    nifs ← as_int v;
    v ← getattr self (str "nchans");
    nchans ← as_int v;
    w ← truediv (PInt nchans) fac;
    w ← index w;
    d ← Np.reshape3 flat nsamp nifs w;
    (if nchans <? 0 then Raise ValueError else Ok tt);;
    n ← index fac;
    Ok (inr (Np.mk3 (Np.dim0 d) (Np.dim1 d) (Z.to_nat nchans)
                    (map (map (unpack_row nbits n)) (Np.planes d)))).

End SigprocFile.

(** ** [dada_fildb.py] *)

Module DadaFildb.
Import Py.

(** The axis transform of [get_data]: the two [if] statements on
    [order]. *)
Definition orient (order : pystr) (fil_data : Np.ndarray2) : Np.ndarray2 :=
  let fil_data :=
    if str_eqb (upper order) (str "FT") then Np.transpose fil_data
    else fil_data in
  if contains_char 0x46 order then Np.flip fil_data else fil_data.

(** The [try] statement of [get_data]. *)
Definition store (data : Np.ndarray3) (i : nat) (fil_data : Np.ndarray2)
  : result Np.ndarray3 :=
  match Np.setitem data i fil_data with
  | Ok data => Ok data
  | Raise ValueError =>
      let nsamp := Np.shape1 fil_data in
      Np.setitem_head data i nsamp fil_data
  | Raise e => Raise e
  end.

(** The [for i, f in enumerate(filterbanks)] loop of [get_data]. *)
Fixpoint fill_beams (page pagesize : Z) (order : pystr) (i : nat)
  (filterbanks : list SigprocFile.instance) (data : Np.ndarray3)
  : result Np.ndarray3 :=
  match filterbanks with
  | [] => Ok data
  | f :: rest =>
      fil_data ← SigprocFile.get_data f (page * pagesize) pagesize;
      data ← store data i (orient order fil_data);
      fill_beams page pagesize order (S i) rest data
  end.

Definition get_data (filterbanks : list SigprocFile.instance)
  (page pagesize : Z) (order : pystr) : result Np.ndarray3 :=
  let nbeam := Z.of_nat (length filterbanks) in
  f ← match filterbanks with
      | f :: _ => Ok f
      | [] => Raise IndexError
      end;
  v ← SigprocFile.getattr f (str "nchans");
  nchans ← SigprocFile.as_int v;
  data ← Np.zeros nbeam nchans pagesize;
  fill_beams page pagesize order 0 filterbanks data.

(** The first loop of [dada_fildb]: every path must name a file. *)
Fixpoint verify_files (fs : SigprocFile.filesystem) (files : list string)
  : result unit :=
  match files with
  | [] => Ok tt
  | f :: rest =>
      if negb (bool_decide (is_Some (fs !! f))) then Raise OSError
      else verify_files fs rest
  end.

(** The second loop of [dada_fildb]: open the input files. *)
Fixpoint open_files (fs : SigprocFile.filesystem) (files : list string)
  : result (list SigprocFile.instance) :=
  match files with
  | [] => Ok []
  | f :: rest =>
      fb ← SigprocFile.__init__ fs f;
      fbs ← open_files fs rest;
      Ok (fb :: fbs)
  end.

(** The rest of [dada_fildb] talks to the ring-buffer writer of the
    [psrdada] package. The derivation of the output header
    ([create_header], [setHeader]) and the start-up delay are not
    embedded; what follows starts where the data is written. The events
    are what the writer is asked to do, in order. *)
Inductive event : Type :=
| Page (data : Np.ndarray3)
| EndOfData
| Disconnect.

(** The writer. Iterating over it hands out one buffer per turn, of the
    size of a page, and stops once the end of data has been marked. *)
Record Writer : Type := mkWriter {
  isEndOfData : bool;
  log : list event
}.

Definition connect : Writer := mkWriter false [].

Definition fill (w : Writer) (data : Np.ndarray3) : Writer :=
  mkWriter (isEndOfData w) (log w ++ [Page data]).

Definition markEndOfData (w : Writer) : Writer :=
  mkWriter true (log w ++ [EndOfData]).

Definition disconnect (w : Writer) : Writer :=
  mkWriter (isEndOfData w) (log w ++ [Disconnect]).

(** Where a bounded number of turns of the [for buffer in writer] loop
    leaves the run. *)
Inductive outcome : Type :=
| Finished (w : Writer)
| Running (w : Writer) (page : Z)
| Failed (e : exn).

(** At most [turns] turns of the loop [for buffer in writer]. *)
Fixpoint write_loop (turns : nat) (filterbanks : list SigprocFile.instance)
  (order : pystr) (pagesize npage : Z) (writer : Writer) (page : Z)
  : outcome :=
  match turns with
  | O => Running writer page
  | S turns' =>
      if isEndOfData writer then Finished writer
      else
        match get_data filterbanks page pagesize order with
        | Raise e => Failed e
        | Ok data =>
            let writer := fill writer data in
            let page := page + 1 in
            let writer :=
              if page =? npage then markEndOfData writer else writer in
            write_loop turns' filterbanks order pagesize npage writer page
        end
  end.

(** [npage = int(np.ceil(filterbanks[0].nspectra() / pagesize))]. *)
Definition page_count (filterbanks : list SigprocFile.instance)
  (pagesize : Z) : result Z :=
  f ← match filterbanks with
      | f :: _ => Ok f
      | [] => Raise IndexError
      end;
  n ← SigprocFile.nspectra f;
  q ← truediv n (PInt pagesize);
  Ok (ceil q).

(** [dada_fildb] from "write the data" to "disconnect", observed after
    at most [turns] turns of the loop. *)
Definition write_pages (turns : nat) (filterbanks : list SigprocFile.instance)
  (order : pystr) (pagesize : Z) (writer : Writer) : outcome :=
  match page_count filterbanks pagesize with
  | Raise e => Failed e
  | Ok npage =>
      match write_loop turns filterbanks order pagesize npage writer 0 with
      | Finished w => Finished (disconnect w)
      | o => o
      end
  end.

End DadaFildb.

(** ** The layout of the header on disk *)

Section Layout.
Import Py SigprocFile.

(** The layout of a length-prefixed string. *)
Definition lp (b : bytes) : bytes := le_bytes 4 (Z.of_nat (length b)) ++ b.

(** What makes a row of the field table usable by the codec: the name
    encodes to between 1 and 80 bytes, is not the closing sentinel, is
    mapped to its type by the table, and the type is one of the three
    the codec knows. *)
Definition row_ok (kv : pystr * pystr) : bool :=
  match encode (fst kv) with
  | Ok nb => (1 <=? length nb)%nat && (length nb <=? 80)%nat
  | Raise _ => false
  end
  && negb (str_eqb (fst kv) (str "HEADER_END"))
  && match type_of (fst kv) with
     | Ok ty => str_eqb ty (snd kv)
     | Raise _ => false
     end
  && (str_eqb (snd kv) (str "string") || str_eqb (snd kv) (str "int")
      || str_eqb (snd kv) (str "double")).
(** The instance after one more field has been decoded: attribute [k]
    holds [v] and [n] more bytes are counted. *)
Definition absorbed (self : instance) (k : pystr) (v : value) (n : Z)
  : instance :=
  mk (<[k := v]> (attrs self)) (fp self)
     (match hdrbytes self with Some h => Some (h + n) | None => None end)
     (_mmdata self).

(** A header value the encoder accepts for a field of type [ty]:
    [None], or a value of the declared type. A string must encode to
    between 1 and 80 bytes. *)
Definition valid_value (ty : pystr) (v : value) : Prop :=
  match v with
  | VNone => True
  | VStr s =>
      ty = str "string"
      /\ exists b, encode s = Ok b /\ (1 <= length b <= 80)%nat
  | VInt z => ty = str "int" /\ - 2 ^ 31 <= z < 2 ^ 31
  | VFloat bits => ty = str "double" /\ 0 <= bits < 2 ^ 64
  | VBytes _ => False
  end.

Definition valid_header (h : instance) : Prop :=
  forall k ty v,
    (k, ty) ∈ _type -> attrs h !! k = Some v -> valid_value ty v.

(** What the decoder holds for a value [v] that was encoded: the bytes
    of a string, which decode to it; a number as it was. *)
Definition decoded_as (v v' : value) : Prop :=
  match v with
  | VStr s => exists b, v' = VBytes b /\ decode b = Ok s
  | _ => v' = v
  end.

End Layout.

(** ** Small files used as concrete inputs *)

Section Fixtures.
Import Py SigprocFile.

(** A file of two channels of one byte each, with [n] bytes of data
    after the header. *)
Definition two_channel_header : instance :=
  setattr (setattr (setattr blank (str "nbits") (VInt 8))
                   (str "nchans") (VInt 2))
          (str "nifs") (VInt 1).

(** The same geometry with four bits per sample. *)
Definition four_bit_header : instance :=
  setattr (setattr (setattr blank (str "nbits") (VInt 4))
                   (str "nchans") (VInt 4))
          (str "nifs") (VInt 1).

(** A header with a string, integers and doubles: the source is
    [FAKE], the first channel is at 1520.0 MHz (the bits of that
    double) and the channel offset is -1.0 MHz. *)
Definition sample_header : instance :=
  setattr (setattr (setattr two_channel_header
                      (str "source_name") (VStr (str "FAKE")))
             (str "fch1") (VFloat 0x4097C00000000000))
    (str "foff") (VFloat 0xBFF0000000000000).

Definition header_bytes (h : instance) : bytes :=
  match filterbank_header h with
  | Ok b => b
  | Raise _ => []
  end.

Definition sample_data (n : nat) : bytes :=
  map (fun i => z2b (Z.of_nat i + 1)) (seq 0 n).

Definition two_channel_file (n : nat) : result instance :=
  __init__ {[ "beam.fil"%string :=
                header_bytes two_channel_header ++ sample_data n ]}
           "beam.fil".

Definition no_sentinel : bytes :=
  le_bytes 4 5 ++ blit "HELLO" ++ le_bytes 4 10 ++ blit "HEADER_END".

(** What opening a file made of the header of [sample_header] and six
    bytes of data gives. *)
Definition sample_decoded : instance :=
  mk (attrs (setattr sample_header (str "source_name")
                     (VBytes (blit "FAKE"))))
     (Some (mkfile (header_bytes sample_header ++ sample_data 6)
                   (sample_data 6)))
     (Some (Z.of_nat (length (header_bytes sample_header))))
     (Some (header_bytes sample_header ++ sample_data 6)).

(** A page of zeros for one beam, two channels and three samples. *)
Definition zero_page : Np.ndarray3 :=
  Np.mk3 1 2 3 [[[Np.SInt 0; Np.SInt 0; Np.SInt 0];
                 [Np.SInt 0; Np.SInt 0; Np.SInt 0]]].

(** What opening a file made of the header of [h] and [n] bytes of
    data gives, when every field of [h] is a number. *)
Definition opened (h : instance) (n : nat) : instance :=
  mk (attrs h)
     (Some (mkfile (header_bytes h ++ sample_data n) (sample_data n)))
     (Some (Z.of_nat (length (header_bytes h))))
     (Some (header_bytes h ++ sample_data n)).

(** The instance for a file that ends with its header. *)
Definition header_only : instance := opened two_channel_header 0.

(** A file of four-bit samples: four channels, two records. *)
Definition four_bit_file : result instance :=
  __init__ {[ "beam.fil"%string :=
                header_bytes four_bit_header ++ sample_data 4 ]}
           "beam.fil".

End Fixtures.

(** ** The fields of a header as they lie in a file *)

Section Stream.
Import Py SigprocFile.

(** One entry of the field sequence of a file: a name of the table
    followed by a value of the type the table gives the name. A string
    value is a length and as many bytes; an entry whose length is not
    between 1 and 80 has the four bytes of the length only. *)
Inductive entry : Type :=
| EString (k : pystr) (b : bytes)
| EAbsent (k : pystr) (n : Z)
| EInt (k : pystr) (z : Z)
| EDouble (k : pystr) (bits : Z).

Definition entry_name (e : entry) : pystr :=
  match e with
  | EString k _ | EAbsent k _ | EInt k _ | EDouble k _ => k
  end.

Definition entry_ok (e : entry) : Prop :=
  match e with
  | EString k b => (k, str "string") ∈ _type /\ (1 <= length b <= 80)%nat
  | EAbsent k n =>
      (k, str "string") ∈ _type /\ - 2 ^ 31 <= n < 2 ^ 31
      /\ (n < 1 \/ 80 < n)
  | EInt k z => (k, str "int") ∈ _type /\ - 2 ^ 31 <= z < 2 ^ 31
  | EDouble k bits => (k, str "double") ∈ _type /\ 0 <= bits < 2 ^ 64
  end.

(** The UTF-8 bytes of a name. *)
Definition name_bytes (k : pystr) : bytes :=
  match encode k with
  | Ok nb => nb
  | Raise _ => []
  end.

(** The bytes of an entry in the file. *)
Definition entry_bytes (e : entry) : bytes :=
  lp (name_bytes (entry_name e))
  ++ match e with
     | EString _ b => lp b
     | EAbsent _ n => le_bytes 4 (n mod 2 ^ 32)
     | EInt _ z => le_bytes 4 (z mod 2 ^ 32)
     | EDouble _ bits => le_bytes 8 bits
     end.

(** What an entry stands for: the raw bytes of a string, [None] for a
    string whose length is out of range, a number. *)
Definition entry_value (e : entry) : value :=
  match e with
  | EString _ b => VBytes b
  | EAbsent _ _ => VNone
  | EInt _ z => VInt z
  | EDouble _ bits => VFloat bits
  end.

(** The value of the last entry named [k], [None] when no entry is. *)
Definition value_of (items : list entry) (k : pystr) : value :=
  fold_left (fun v e => if str_eqb (entry_name e) k then entry_value e else v)
            items VNone.

(** [content] is a header followed by [data]: the opening sentinel,
    the entries [items], and the closing sentinel, whose declared
    length [z] is its ten bytes, or more when the file ends with it. *)
Definition header_layout (content : bytes) (items : list entry) (z : Z)
  (data : bytes) : Prop :=
  Forall entry_ok items
  /\ (z = 10 \/ (10 < z <= 80 /\ data = []))
  /\ content
     = lp (blit "HEADER_START") ++ flat_map entry_bytes items
       ++ le_bytes 4 z ++ blit "HEADER_END" ++ data.

End Stream.

(** ** Files of records, and what a page holds of them *)

Section Records.
Import Py SigprocFile.

(** The sample type of a width that [get_data] reads. *)
Definition width_of (nbits : Z) : option Np.dtype :=
  if nbits =? 8 then Some Np.uint8
  else if nbits =? 16 then Some Np.uint16
  else if nbits =? 32 then Some Np.float32
  else None.

(** An opened file of sample type [dt], [nifs] subbands and [C]
    channels, with a header of [h] bytes and the mapping [m]. *)
Definition opened_as (f : instance) (dt : Np.dtype) (nifs C h : Z)
  (m : bytes) : Prop :=
  (exists nbits, attrs f !! str "nbits" = Some (VInt nbits)
                 /\ width_of nbits = Some dt)
  /\ attrs f !! str "nchans" = Some (VInt C)
  /\ attrs f !! str "nifs" = Some (VInt nifs)
  /\ 0 < C /\ 0 < nifs
  /\ hdrbytes f = Some h /\ 0 <= h
  /\ _mmdata f = Some m.

(** The bytes of one record. *)
Definition record_bytes (dt : Np.dtype) (nifs C : Z) : Z :=
  Z.of_nat (Np.itemsize dt) * nifs * C.

(** The mapping is the header followed by [R] whole records. *)
Definition whole_file (f : instance) (dt : Np.dtype) (nifs C h : Z)
  (m : bytes) (R : nat) : Prop :=
  opened_as f dt nifs C h m
  /\ Z.of_nat (length m) = h + Z.of_nat R * record_bytes dt nifs C.

(** The mapping is the header followed by [R] whole records and
    [extra] more bytes, fewer than a record. *)
Definition ragged_file (f : instance) (dt : Np.dtype) (nifs C h : Z)
  (m : bytes) (R extra : nat) : Prop :=
  opened_as f dt nifs C h m
  /\ Z.of_nat (length m)
     = h + Z.of_nat R * record_bytes dt nifs C + Z.of_nat extra
  /\ 0 < Z.of_nat extra < record_bytes dt nifs C.

(** The sample of record [rec] and channel [chan] (first subband), read
    straight from its offset in the mapping. *)
Definition sample_at (dt : Np.dtype) (nifs C h : Z) (m : bytes)
  (rec chan : nat) : Np.scalar :=
  Np.scalar_of dt
    (take (Np.itemsize dt)
       (drop (Z.to_nat h
              + (rec * Z.to_nat (nifs * C) + chan) * Np.itemsize dt)%nat m)).

(** The records of a file of [R] records that fall in
    [[start, start + count)]. *)
Definition records_in (R : nat) (start count : Z) : nat :=
  (Nat.min (Z.to_nat (start + count)) R - Nat.min (Z.to_nat start) R)%nat.

Definition int_attr (f : instance) (k : string) : Z :=
  match attrs f !! str k with
  | Some (VInt z) => z
  | _ => 0
  end.

(** The sample of record [rec] and channel [chan] of an opened file. *)
Definition sample (f : instance) (rec chan : nat) : Np.scalar :=
  match width_of (int_attr f "nbits"), hdrbytes f, _mmdata f with
  | Some dt, Some h, Some m =>
      sample_at dt (int_attr f "nifs") (int_attr f "nchans") h m rec chan
  | _, _, _ => Np.zero
  end.

(** The number of whole records after the header of an opened file. *)
Definition nrecords (f : instance) : nat :=
  match width_of (int_attr f "nbits"), hdrbytes f, _mmdata f with
  | Some dt, Some h, Some m =>
      ((length m - Z.to_nat h)
       / (Np.itemsize dt
          * Z.to_nat (int_attr f "nifs" * int_attr f "nchans")))%nat
  | _, _, _ => O
  end.

(** An opened file of [C] channels that holds whole records. *)
Definition whole (C : Z) (f : instance) : Prop :=
  exists dt nifs h m R, whole_file f dt nifs C h m R.

(** An opened file of [C] channels that ends inside a record. *)
Definition ragged (C : Z) (f : instance) : Prop :=
  exists dt nifs h m R extra, ragged_file f dt nifs C h m R extra.

(** What page [page] holds for one beam at channel row [c] and time
    [t]: the sample of the record, while the file has records for the
    page; zero after them; and, when the file has exactly one record
    for a page of several, that record at every time. The channel row
    is counted from the last channel when [flipped]. *)
Definition page_cell (f : instance) (C page pagesize : Z) (flipped : bool)
  (c t : nat) : Np.scalar :=
  let first := Z.to_nat (page * pagesize) in
  let k := records_in (nrecords f) (page * pagesize) pagesize in
  let c' := if flipped then (Z.to_nat C - 1 - c)%nat else c in
  if (k =? 1)%nat && (1 <? Z.to_nat pagesize)%nat then sample f first c'
  else if (t <? k)%nat then sample f (first + t) c'
  else Np.zero.

Definition page_plane (f : instance) (C page pagesize : Z) (flipped : bool)
  : list (list Np.scalar) :=
  map (fun c => map (fun t => page_cell f C page pagesize flipped c t)
                    (seq 0 (Z.to_nat pagesize)))
      (seq 0 (Z.to_nat C)).

End Records.

(** ** [sigproc.py]: writing files *)

(** The encoder again, as it acts on the file object it is given. A
    computation of type [out A] takes the bytes written to the file so
    far and returns them with what it has written added, also when it
    raises part-way. *)
Module Out.
Import Py SigprocFile.

Definition out (A : Type) : Type := bytes -> bytes * result A.

#[global] Instance out_ret : MRet out := fun A a f => (f, Ok a).
#[global] Instance out_bind : MBind out := fun A B k m f =>
  match m f with
  | (f', Ok a) => k a f'
  | (f', Raise e) => (f', Raise e)
  end.

(** A step that writes nothing. *)
Definition lift {A} (r : result A) : out A := fun f => (f, r).

(** [f.write(b)]. *)
Definition write (b : bytes) : out unit := fun f => (f ++ b, Ok tt).

Definition send_string (val : value) : out unit :=
  match val with
  | VStr s =>
      val ← lift (encode s);
      n ← lift (pack (str "i") (VInt (Z.of_nat (length val))));
      write n;;
      write val
  | _ => lift (Raise AttributeError)
  end.

Definition send_num (name : pystr) (val : value) : out unit :=
  send_string (VStr name);;
  ty ← lift (type_of name);
  fmt ← lift (first_char ty);
  b ← lift (pack fmt val);
  write b.

Definition send (self : instance) (name : pystr) : out unit :=
  if negb (hasattr self name) then mret tt
  else
    v ← lift (getattr self name);
    match v with
    | VNone => mret tt
    | _ =>
        ty ← lift (type_of name);
        if str_eqb ty (str "string") then
          send_string (VStr name);;
          send_string v
        else send_num name v
    end.

Fixpoint send_all (self : instance) (ks : list pystr) : out unit :=
  match ks with
  | [] => mret tt
  | k :: ks' => send self k;; send_all self ks'
  end.

Definition filterbank_header (self : instance) : out unit :=
  send_string (VStr (str "HEADER_START"));;
  send_all self keys;;
  send_string (VStr (str "HEADER_END")).

End Out.

Section Writing.
Import Py SigprocFile.

(** [write_header(filename)]. Opening the file with mode ["wb"] creates
    it or empties it; when the [with] block is left, also by an
    exception, the file holds what has been written. *)
Definition write_header (fs : filesystem) (self : instance)
  (filename : string) : filesystem * result unit :=
  let '(f, r) := Out.filterbank_header self [] in
  (<[filename := f]> fs, r).

(** How [new_file] can fail: by its [assert], or by an exception. *)
Inductive failure : Type :=
| AssertionError
| Exception (e : exn).

(** The loop of [new_file] over [header.items()]; [None] when the
    [assert] fails. The dictionary is the list of its items in order. *)
Fixpoint set_header (sigprocfile : instance) (header : list (pystr * value))
  : option instance :=
  match header with
  | [] => Some sigprocfile
  | (k, v) :: rest =>
      if bool_decide (k ∈ keys) then set_header (setattr sigprocfile k v) rest
      else None
  end.

(** [new_file(fname, header)]: the file system it leaves and the
    instance it returns. The [assert] is taken to be enabled. The file
    is emptied while the first instance may still have it open and
    mapped, as a POSIX system allows; closing the file object of the
    first instance has no effect that is modelled. *)
Definition new_file (fs : filesystem) (fname : string)
  (header : list (pystr * value)) : filesystem * (failure + instance) :=
  match __init__ fs fname with
  | Raise e => (fs, inl (Exception e))
  | Ok sigprocfile =>
      match set_header sigprocfile header with
      | None => (fs, inl AssertionError)
      | Some sigprocfile =>
          let '(f, r) := Out.filterbank_header sigprocfile [] in
          let fs := <[fname := f]> fs in
          match r with
          | Raise e => (fs, inl (Exception e))
          | Ok _ =>
              match __init__ fs fname with
              | Raise e => (fs, inl (Exception e))
              | Ok obj => (fs, inr obj)
              end
          end
      end
  end.

(** An array handed to [append_spectra], as numpy holds it: the type of
    its elements, its shape, and the bytes of its elements in row-major
    order. *)
Record array : Type := mkarray {
  a_dtype : Np.dtype;
  a_shape : list nat;
  a_bytes : bytes
}.

(** [a.flatten()]: a one-dimensional copy, in row-major order. *)
Definition flatten (a : array) : array :=
  mkarray (a_dtype a) [length (a_bytes a) / Np.itemsize (a_dtype a)]%nat
          (a_bytes a).

(** [a.astype(dt)] for the type the array already has. *)
Definition astype_same (a : array) : array :=
  mkarray (a_dtype a) (a_shape a) (a_bytes a).

(** [append_spectra(spectra, filename)]. Opening the file with mode
    ["ab"] creates it when it does not exist; the write goes to the end
    of the file. *)
Definition append_spectra (fs : filesystem) (spectra : array)
  (filename : string) : filesystem :=
  let old := default [] (fs !! filename) in
  <[filename := old ++ a_bytes (astype_same (flatten spectra))]> fs.

(** The element of row [j] and column [c] of an array of [w] columns,
    as [np.frombuffer] reads it from the bytes of the array. *)
Definition element (a : array) (w j c : nat) : Np.scalar :=
  Np.scalar_of (a_dtype a)
    (take (Np.itemsize (a_dtype a))
       (drop ((j * w + c) * Np.itemsize (a_dtype a)) (a_bytes a))).

End Writing.

(** * Properties *)

(** ** Bytes, little-endian integers and UTF-8 *)

Section Bytes.
Import Py.

Lemma b2z_range (b : byte) : 0 <= b2z b < 256.
Proof.
  unfold b2z. pose proof (Byte.to_N_bounded b). lia.
Qed.

Lemma z2b_b2z (b : byte) : z2b (b2z b) = b.
Proof.
  unfold z2b. pose proof (b2z_range b) as Hr.
  rewrite Z.mod_small by exact Hr.
  unfold b2z. rewrite N2Z.id, Byte.of_to_N. reflexivity.
Qed.

Lemma b2z_z2b (z : Z) : 0 <= z < 256 -> b2z (z2b z) = z.
Proof.
  intros Hz. unfold z2b, b2z. rewrite Z.mod_small by exact Hz.
  destruct (Byte.of_N (Z.to_N z)) as [b|] eqn:E.
  - apply Byte.to_of_N in E. rewrite E. lia.
  - apply Byte.of_N_None_iff in E. lia.
Qed.

Lemma b2z_inj (a b : byte) : b2z a = b2z b -> a = b.
Proof.
  intros H. rewrite <- (z2b_b2z a), <- (z2b_b2z b), H. reflexivity.
Qed.

Lemma length_le_bytes (n : nat) (z : Z) : length (le_bytes n z) = n.
Proof.
  revert z. induction n as [|n IH]; intros z; simpl; [reflexivity|].
  rewrite IH. reflexivity.
Qed.

Lemma le_value_bytes (n : nat) (z : Z) :
  le_value (le_bytes n z) = z mod 256 ^ Z.of_nat n.
Proof.
  revert z. induction n as [|n IH]; intros z.
  - simpl. rewrite Z.mod_1_r. reflexivity.
  - cbn [le_bytes le_value]. rewrite IH.
    rewrite b2z_z2b by (apply Z.mod_pos_bound; lia).
    rewrite Nat2Z.inj_succ, Z.pow_succ_r by lia.
    rewrite (Z.rem_mul_r z 256 (256 ^ Z.of_nat n)) by lia. reflexivity.
Qed.

Lemma le_value_range (bs : bytes) :
  0 <= le_value bs < 256 ^ Z.of_nat (length bs).
Proof.
  induction bs as [|b t IH].
  - simpl. lia.
  - cbn [le_value length]. rewrite Nat2Z.inj_succ, Z.pow_succ_r by lia.
    pose proof (b2z_range b). lia.
Qed.


Lemma bind_Ok {A B} (m : result A) (f : A -> result B) (b : B) :
  m ≫= f = Ok b -> exists a, m = Ok a /\ f a = Ok b.
Proof.
  destruct m as [a|e]; cbn; [eauto | discriminate].
Qed.

Lemma decode_encode_cp (c : Z) (bs rest : bytes) :
  utf8_encode_cp c = Ok bs ->
  decode (bs ++ rest) = (s ← decode rest; Ok (c :: s)).
Proof.
  unfold utf8_encode_cp, is_surrogate.
  destruct (c <? 0) eqn:H0; [discriminate|].
  destruct (1114111 <? c) eqn:Hmax; [discriminate|]. cbn [orb].
  apply Z.ltb_ge in H0, Hmax.
  destruct (c <? 128) eqn:H1.
  { apply Z.ltb_lt in H1. intros [= <-]. cbn [app decode].
    rewrite b2z_z2b by lia.
    destruct (c <? 128) eqn:E; [reflexivity | lia]. }
  apply Z.ltb_ge in H1.
  destruct (c <? 2048) eqn:H2.
  { apply Z.ltb_lt in H2. intros [= <-]. cbn [app decode].
    assert (Hq : 2 <= c / 64 < 32)
      by (split; [apply Z.div_le_lower_bound | apply Z.div_lt_upper_bound]; lia).
    pose proof (Z.mod_pos_bound c 64 ltac:(lia)) as Hm.
    unfold is_cont, cont.
    rewrite !b2z_z2b by lia.
    repeat match goal with
    | |- context [?a <? ?b] => destruct (Z.ltb_spec a b); try lia
    | |- context [?a <=? ?b] => destruct (Z.leb_spec a b); try lia
    end.
    cbn [andb]. replace ((192 + c / 64 - 192) * 64 + (128 + c mod 64 - 128)) with c
      by (pose proof (Z.div_mod c 64 ltac:(lia)); lia).
    reflexivity. }
  apply Z.ltb_ge in H2.
  destruct (c <? 65536) eqn:H3.
  { apply Z.ltb_lt in H3.
    destruct ((55296 <=? c) && (c <=? 57343)) eqn:Hs; [discriminate|].
    intros [= <-]. cbn [app decode].
    assert (Hq : 0 <= c / 4096 < 16)
      by (split; [apply Z.div_pos | apply Z.div_lt_upper_bound]; lia).
    pose proof (Z.mod_pos_bound c 64 ltac:(lia)) as Hm.
    pose proof (Z.mod_pos_bound (c / 64) 64 ltac:(lia)) as Hm2.
    assert (Hc : (224 + c / 4096 - 224) * 4096
                 + (128 + (c / 64) mod 64 - 128) * 64
                 + (128 + c mod 64 - 128) = c).
    { pose proof (Z.div_mod c 64 ltac:(lia)).
      pose proof (Z.div_mod (c / 64) 64 ltac:(lia)).
      replace (c / 4096) with (c / 64 / 64)
        by (rewrite Z.div_div by lia; reflexivity).
      lia. }
    unfold is_cont, cont, is_surrogate.
    rewrite !b2z_z2b by lia. rewrite Hc, Hs.
    repeat match goal with
    | |- context [?a <? ?b] => destruct (Z.ltb_spec a b); try lia
    | |- context [?a <=? ?b] => destruct (Z.leb_spec a b); try lia
    end.
    reflexivity. }
  apply Z.ltb_ge in H3.
  intros [= <-]. cbn [app decode].
  assert (Hq : 0 <= c / 262144 < 5)
    by (split; [apply Z.div_pos | apply Z.div_lt_upper_bound]; lia).
  pose proof (Z.mod_pos_bound c 64 ltac:(lia)) as Hm.
  pose proof (Z.mod_pos_bound (c / 64) 64 ltac:(lia)) as Hm2.
  pose proof (Z.mod_pos_bound (c / 4096) 64 ltac:(lia)) as Hm3.
  assert (Hc : (240 + c / 262144 - 240) * 262144
               + (128 + (c / 4096) mod 64 - 128) * 4096
               + (128 + (c / 64) mod 64 - 128) * 64
               + (128 + c mod 64 - 128) = c).
  { pose proof (Z.div_mod c 64 ltac:(lia)).
    pose proof (Z.div_mod (c / 64) 64 ltac:(lia)).
    pose proof (Z.div_mod (c / 64 / 64) 64 ltac:(lia)).
    replace (c / 4096) with (c / 64 / 64) in *
      by (rewrite Z.div_div by lia; reflexivity).
    replace (c / 262144) with (c / 64 / 64 / 64)
      by (rewrite !Z.div_div by lia; reflexivity).
    lia. }
  unfold is_cont, cont.
  rewrite !b2z_z2b by lia. rewrite Hc.
  repeat match goal with
  | |- context [?a <? ?b] => destruct (Z.ltb_spec a b); try lia
  | |- context [?a <=? ?b] => destruct (Z.leb_spec a b); try lia
  end.
  reflexivity.
Qed.

Lemma decode_encode (s : pystr) (bs : bytes) :
  encode s = Ok bs -> decode bs = Ok s.
Proof.
  revert bs. induction s as [|c s IH]; intros bs.
  - intros [= <-]. reflexivity.
  - cbn [encode]. intros H.
    apply bind_Ok in H as (b1 & H1 & H).
    apply bind_Ok in H as (b2 & H2 & H). injection H as <-.
    rewrite (decode_encode_cp _ _ _ H1), (IH _ H2). reflexivity.
Qed.

End Bytes.

Section Utf8Strict.
Import Py.

Lemma cont_range (b : byte) : is_cont b = true -> 0 <= cont b < 64.
Proof.
  unfold is_cont, cont. intros H. apply andb_prop in H as [H1 H2].
  apply Z.leb_le in H1. apply Z.ltb_lt in H2. lia.
Qed.

Lemma z2b_cont (b : byte) : is_cont b = true -> z2b (128 + cont b) = b.
Proof.
  intros _. unfold cont. replace (128 + (b2z b - 128)) with (b2z b) by lia.
  apply z2b_b2z.
Qed.

Lemma encode_cons (c : Z) (s : pystr) (bs rest : bytes) :
  utf8_encode_cp c = Ok bs -> encode s = Ok rest ->
  encode (c :: s) = Ok (bs ++ rest).
Proof. intros H1 H2. cbn [encode]. rewrite H1, H2. reflexivity. Qed.

Lemma encode_decode_bounded (n : nat) (bs : bytes) (s : pystr) :
  (length bs < n)%nat -> decode bs = Ok s -> encode s = Ok bs.
Proof.
  revert bs s. induction n as [|n IH]; intros bs s Hlen H; [lia|].
  destruct bs as [|b0 t0]; [injection H as <-; reflexivity|].
  cbn [decode] in H. cbn [length] in Hlen.
  pose proof (b2z_range b0) as Hr0.
  destruct (Z.ltb_spec (b2z b0) 128) as [H1|H1].
  { apply bind_Ok in H as (s' & Hs' & H). injection H as <-.
    apply (encode_cons _ _ [b0] t0); [|apply IH; [lia|exact Hs']].
    unfold utf8_encode_cp.
    destruct (Z.ltb_spec (b2z b0) 0); [lia|].
    destruct (Z.ltb_spec 1114111 (b2z b0)); [lia|]. cbn [orb].
    destruct (Z.ltb_spec (b2z b0) 128); [|lia].
    rewrite z2b_b2z. reflexivity. }
  destruct (Z.ltb_spec (b2z b0) 194) as [H2|H2]; [discriminate|].
  destruct (Z.ltb_spec (b2z b0) 224) as [H3|H3].
  { destruct t0 as [|b1 t1]; [discriminate|].
    destruct (is_cont b1) eqn:Hc1; [|discriminate].
    apply bind_Ok in H as (s' & Hs' & H). injection H as <-.
    pose proof (cont_range b1 Hc1) as Hr1.
    apply (encode_cons _ _ [b0; b1] t1);
      [|apply IH; [cbn [length] in Hlen; lia|exact Hs']].
    set (c := (b2z b0 - 192) * 64 + cont b1).
    assert (Hd : c / 64 = b2z b0 - 192)
      by (symmetry; apply (Z.div_unique c 64 _ (cont b1)); unfold c; lia).
    assert (Hm : c mod 64 = cont b1)
      by (symmetry; apply (Z.mod_unique c 64 (b2z b0 - 192)); unfold c; lia).
    unfold utf8_encode_cp.
    destruct (Z.ltb_spec c 0); [unfold c in *; lia|].
    destruct (Z.ltb_spec 1114111 c); [unfold c in *; lia|]. cbn [orb].
    destruct (Z.ltb_spec c 128); [unfold c in *; lia|].
    destruct (Z.ltb_spec c 2048); [|unfold c in *; lia].
    rewrite Hd, Hm. replace (192 + (b2z b0 - 192)) with (b2z b0) by lia.
    rewrite z2b_b2z, (z2b_cont b1 Hc1). reflexivity. }
  destruct (Z.ltb_spec (b2z b0) 240) as [H4|H4].
  { destruct t0 as [|b1 [|b2 t2]]; try discriminate.
    set (c := (b2z b0 - 224) * 4096 + cont b1 * 64 + cont b2) in *.
    destruct (is_cont b1) eqn:Hc1; [|discriminate].
    destruct (is_cont b2) eqn:Hc2; [|discriminate].
    destruct (Z.leb_spec 2048 c) as [Hlo|Hlo]; [|discriminate].
    destruct (is_surrogate c) eqn:Hsur; [discriminate|].
    cbn [andb negb] in H.
    apply bind_Ok in H as (s' & Hs' & H). injection H as <-.
    pose proof (cont_range b1 Hc1) as Hr1.
    pose proof (cont_range b2 Hc2) as Hr2.
    apply (encode_cons _ _ [b0; b1; b2] t2);
      [|apply IH; [cbn [length] in Hlen; lia|exact Hs']].
    assert (Hd : c / 4096 = b2z b0 - 224)
      by (symmetry; apply (Z.div_unique c 4096 _ (cont b1 * 64 + cont b2));
          unfold c; lia).
    assert (Hd2 : c / 64 = (b2z b0 - 224) * 64 + cont b1)
      by (symmetry; apply (Z.div_unique c 64 _ (cont b2)); unfold c; lia).
    assert (Hm2 : (c / 64) mod 64 = cont b1)
      by (rewrite Hd2; symmetry;
          apply (Z.mod_unique _ 64 (b2z b0 - 224)); lia).
    assert (Hm : c mod 64 = cont b2)
      by (symmetry;
          apply (Z.mod_unique c 64 ((b2z b0 - 224) * 64 + cont b1));
          unfold c; lia).
    unfold utf8_encode_cp.
    destruct (Z.ltb_spec c 0); [lia|].
    destruct (Z.ltb_spec 1114111 c); [unfold c in *; lia|]. cbn [orb].
    destruct (Z.ltb_spec c 128); [lia|].
    destruct (Z.ltb_spec c 2048); [lia|].
    destruct (Z.ltb_spec c 65536); [|unfold c in *; lia].
    rewrite Hsur, Hd, Hm2, Hm.
    replace (224 + (b2z b0 - 224)) with (b2z b0) by lia.
    rewrite z2b_b2z, (z2b_cont b1 Hc1), (z2b_cont b2 Hc2). reflexivity. }
  destruct (Z.ltb_spec (b2z b0) 245) as [H5|H5]; [|discriminate].
  destruct t0 as [|b1 [|b2 [|b3 t3]]]; try discriminate.
  set (c := (b2z b0 - 240) * 262144 + cont b1 * 4096 + cont b2 * 64
            + cont b3) in *.
  destruct (is_cont b1) eqn:Hc1; [|discriminate].
  destruct (is_cont b2) eqn:Hc2; [|discriminate].
  destruct (is_cont b3) eqn:Hc3; [|discriminate].
  destruct (Z.leb_spec 65536 c) as [Hlo|Hlo]; [|discriminate].
  destruct (Z.leb_spec c 1114111) as [Hhi|Hhi]; [|discriminate].
  cbn [andb] in H.
  apply bind_Ok in H as (s' & Hs' & H). injection H as <-.
  pose proof (cont_range b1 Hc1) as Hr1.
  pose proof (cont_range b2 Hc2) as Hr2.
  pose proof (cont_range b3 Hc3) as Hr3.
  apply (encode_cons _ _ [b0; b1; b2; b3] t3);
    [|apply IH; [cbn [length] in Hlen; lia|exact Hs']].
  assert (Hd : c / 262144 = b2z b0 - 240)
    by (symmetry;
        apply (Z.div_unique c 262144 _
                 (cont b1 * 4096 + cont b2 * 64 + cont b3));
        unfold c; lia).
  assert (Hd2 : c / 4096 = (b2z b0 - 240) * 64 + cont b1)
    by (symmetry; apply (Z.div_unique c 4096 _ (cont b2 * 64 + cont b3));
        unfold c; lia).
  assert (Hd3 : c / 64 = (b2z b0 - 240) * 4096 + cont b1 * 64 + cont b2)
    by (symmetry; apply (Z.div_unique c 64 _ (cont b3)); unfold c; lia).
  assert (Hm3 : (c / 4096) mod 64 = cont b1)
    by (rewrite Hd2; symmetry;
        apply (Z.mod_unique _ 64 (b2z b0 - 240)); lia).
  assert (Hm2 : (c / 64) mod 64 = cont b2)
    by (rewrite Hd3; symmetry;
        apply (Z.mod_unique _ 64 ((b2z b0 - 240) * 64 + cont b1)); lia).
  assert (Hm : c mod 64 = cont b3)
    by (symmetry;
        apply (Z.mod_unique c 64
                 ((b2z b0 - 240) * 4096 + cont b1 * 64 + cont b2));
        unfold c; lia).
  unfold utf8_encode_cp.
  destruct (Z.ltb_spec c 0); [lia|].
  destruct (Z.ltb_spec 1114111 c); [lia|]. cbn [orb].
  destruct (Z.ltb_spec c 128); [lia|].
  destruct (Z.ltb_spec c 2048); [lia|].
  destruct (Z.ltb_spec c 65536); [lia|].
  rewrite Hd, Hm3, Hm2, Hm.
  replace (240 + (b2z b0 - 240)) with (b2z b0) by lia.
  rewrite z2b_b2z, (z2b_cont b1 Hc1), (z2b_cont b2 Hc2), (z2b_cont b3 Hc3).
  reflexivity.
Qed.

(** The decoder is strict: the only bytes that decode to a string are
    its encoding. *)
Lemma encode_decode (bs : bytes) (s : pystr) :
  decode bs = Ok s -> encode s = Ok bs.
Proof. apply (encode_decode_bounded (S (length bs))). lia. Qed.

End Utf8Strict.

(** ** Length-prefixed strings *)

Section StringReads.
Import Py SigprocFile.

Lemma read_app (fp : file) (b rest : bytes) (n : Z) :
  funread fp = b ++ rest -> Z.of_nat (length b) = n ->
  read fp n = (b, mkfile (fbytes fp) rest).
Proof.
  intros Hu Hn. unfold read.
  destruct (Z.ltb_spec n 0) as [Hneg|_]; [lia|].
  rewrite Hu. subst n. rewrite Nat2Z.id.
  rewrite take_app_length, drop_app_length. reflexivity.
Qed.

Lemma unpack_i (buf : bytes) :
  Py.unpack (str "i") buf =
    if negb (Z.of_nat (length buf) =? 4) then Raise StructError
    else Ok (VInt (if le_value buf <? 2 ^ 31 then le_value buf
                   else le_value buf - 2 ^ 32)).
Proof.
  unfold Py.unpack, calcsize, str_eqb.
  rewrite !(bool_decide_eq_true_2 _ eq_refl). reflexivity.
Qed.

(** C8, as stated, fails: a length prefix of 0 is reported as 0 bytes
    consumed, not 4. *)
Lemma get_string_reports_zero :
  get_string (open_rb [x00; x00; x00; x00; x41])
    = Ok (VNone, 0, mkfile [x00; x00; x00; x00; x41] [x41])
  /\ ~ (exists v fp', get_string (open_rb [x00; x00; x00; x00; x41])
                      = Ok (v, 4, fp')).
Proof.
  split; [reflexivity|].
  intros (v & fp' & H). discriminate H.
Qed.

(** C8 (amended): a length-prefixed string whose declared length is
    outside [1, 80] raises no error in [get_string]; the string is
    [None], the count reported is 0, and the file object has moved past
    the four bytes of the length prefix only. *)
Theorem get_string_out_of_range (fp : file) (b4 rest : bytes) (nchar : Z) :
  funread fp = b4 ++ rest ->
  Py.unpack (str "i") b4 = Ok (VInt nchar) ->
  nchar < 1 \/ 80 < nchar ->
  get_string fp = Ok (VNone, 0, mkfile (fbytes fp) rest).
Proof.
  intros Hu Hi Hr. unfold get_string.
  assert (Hlen : Z.of_nat (length b4) = 4).
  { rewrite unpack_i in Hi.
    destruct (Z.eqb_spec (Z.of_nat (length b4)) 4); [assumption|discriminate]. }
  rewrite (read_app fp b4 rest 4 Hu Hlen). rewrite Hi. cbn.
  destruct (Z.gtb_spec nchar 80); destruct (Z.ltb_spec nchar 1);
    cbn; try reflexivity; lia.
Qed.

Lemma get_string_out_of_range_witness :
  get_string (open_rb [x51; x00; x00; x00; x41])
    = Ok (VNone, 0, mkfile [x51; x00; x00; x00; x41] [x41]).
Proof.
  apply (get_string_out_of_range
           (open_rb [x51; x00; x00; x00; x41]) [x51; x00; x00; x00] [x41] 81).
  - reflexivity.
  - reflexivity.
  - right. lia.
Defined.

End StringReads.

(** ** The field table and the building blocks of the codec *)

Section Codec.
Import Py SigprocFile.

Lemma table_rows_ok : forallb row_ok _type = true.
Proof. vm_compute. reflexivity. Qed.

Lemma keys_NoDup : NoDup keys.
Proof.
  assert (H : bool_decide (NoDup keys) = true) by (vm_compute; reflexivity).
  exact (bool_decide_eq_true_1 _ H).
Qed.

Lemma row_facts (k ty : pystr) :
  (k, ty) ∈ _type ->
  (exists nb, encode k = Ok nb /\ (1 <= length nb <= 80)%nat)
  /\ k <> str "HEADER_END"
  /\ type_of k = Ok ty
  /\ (ty = str "string" \/ ty = str "int" \/ ty = str "double").
Proof.
  intros Hin. apply list_elem_of_In in Hin.
  pose proof (proj1 (forallb_forall row_ok _type) table_rows_ok _ Hin) as H.
  unfold row_ok in H. cbn [fst snd] in H.
  apply andb_prop in H as [H H4]. apply andb_prop in H as [H H3].
  apply andb_prop in H as [H1 H2]. split; [|split; [|split]].
  - destruct (encode k) as [nb|]; [|discriminate]. exists nb. split; [reflexivity|].
    apply andb_prop in H1 as [Ha Hb].
    apply Nat.leb_le in Ha, Hb. lia.
  - apply negb_true_iff in H2. unfold str_eqb in H2.
    apply bool_decide_eq_false in H2. exact H2.
  - destruct (type_of k) as [ty'|]; [|discriminate].
    unfold str_eqb in H3. apply bool_decide_eq_true in H3. congruence.
  - unfold str_eqb in H4. rewrite !orb_true_iff, !bool_decide_eq_true in H4.
    tauto.
Qed.

Lemma type_of_in_table (k ty : pystr) :
  type_of k = Ok ty -> (k, ty) ∈ _type.
Proof.
  unfold type_of. destruct (List.find _ _type) as [[k' ty']|] eqn:E;
    [|discriminate].
  intros [= <-]. apply find_some in E as [Hin Heq]. cbn [fst snd] in *.
  unfold str_eqb in Heq. apply bool_decide_eq_true in Heq. subst k'.
  apply list_elem_of_In. exact Hin.
Qed.

Lemma length_lp (b : bytes) : length (lp b) = (4 + length b)%nat.
Proof. unfold lp. rewrite length_app, length_le_bytes. reflexivity. Qed.

Lemma pack_i (n : Z) :
  - 2 ^ 31 <= n < 2 ^ 31 ->
  pack (str "i") (VInt n) = Ok (le_bytes 4 (n mod 2 ^ 32)).
Proof.
  intros Hn. unfold pack, str_eqb. rewrite (bool_decide_eq_true_2 _ eq_refl).
  destruct (Z.leb_spec (- 2 ^ 31) n); [|lia].
  destruct (Z.ltb_spec n (2 ^ 31)); [|lia]. reflexivity.
Qed.

Lemma pack_d (bits : Z) : pack (str "d") (VFloat bits) = Ok (le_bytes 8 bits).
Proof. reflexivity. Qed.

Lemma unpack_d (buf : bytes) :
  length buf = 8%nat -> Py.unpack (str "d") buf = Ok (VFloat (le_value buf)).
Proof.
  intros H. unfold Py.unpack, calcsize, str_eqb.
  rewrite (bool_decide_eq_false_2 (str "d" = str "i")) by discriminate.
  rewrite (bool_decide_eq_true_2 _ eq_refl). cbn [mbind result_bind].
  rewrite H. reflexivity.
Qed.

Lemma send_string_lp (s : pystr) (b : bytes) :
  encode s = Ok b -> (length b <= 80)%nat ->
  send_string (VStr s) = Ok (lp b).
Proof.
  intros He Hl. unfold send_string. rewrite He. cbn [mbind result_bind].
  rewrite pack_i by lia. cbn [mbind result_bind].
  rewrite Z.mod_small by lia. reflexivity.
Qed.

Lemma unpack_i_le_bytes (n : Z) :
  0 <= n < 2 ^ 31 -> Py.unpack (str "i") (le_bytes 4 n) = Ok (VInt n).
Proof.
  intros Hn. rewrite unpack_i, length_le_bytes, le_value_bytes.
  change (Z.of_nat 4 =? 4) with true. cbn [negb].
  change (256 ^ Z.of_nat 4) with (2 ^ 32).
  rewrite Z.mod_small by lia.
  destruct (Z.ltb_spec n (2 ^ 31)); [reflexivity|lia].
Qed.

Lemma get_string_lp (fp : file) (b rest : bytes) :
  (1 <= length b <= 80)%nat ->
  funread fp = lp b ++ rest ->
  get_string fp
  = Ok (VBytes b, Z.of_nat (length b) + 4, mkfile (fbytes fp) rest).
Proof.
  intros Hl Hu. unfold get_string, lp in *. rewrite <- app_assoc in Hu.
  rewrite (read_app fp _ _ 4 Hu) by (rewrite length_le_bytes; reflexivity).
  rewrite unpack_i_le_bytes by lia. cbn [mbind result_bind as_int].
  destruct (Z.gtb_spec (Z.of_nat (length b)) 80); [lia|].
  destruct (Z.ltb_spec (Z.of_nat (length b)) 1); [lia|]. cbn [orb].
  rewrite (read_app (mkfile (fbytes fp) (b ++ rest)) b rest _ eq_refl eq_refl).
  reflexivity.
Qed.

End Codec.

(** ** The sentinel check of the decoder *)

Section Sentinel.
Import Py SigprocFile.

(** C7, as stated, fails: a stream that opens with the string [HELLO]
    is decoded without any error being raised. *)
Lemma read_header_no_sentinel_returns :
  read_header (set_fp blank (open_rb no_sentinel))
    = Ok (mk (attrs blank)
             (Some (mkfile no_sentinel
                           (le_bytes 4 10 ++ blit "HEADER_END")))
             (Some 0) None)
  /\ ~ (exists e, read_header (set_fp blank (open_rb no_sentinel)) = Raise e).
Proof.
  assert (H : read_header (set_fp blank (open_rb no_sentinel))
    = Ok (mk (attrs blank)
             (Some (mkfile no_sentinel
                           (le_bytes 4 10 ++ blit "HEADER_END")))
             (Some 0) None)) by (vm_compute; reflexivity).
  split; [exact H|].
  intros (e & He). rewrite H in He. discriminate He.
Qed.

(** C7 (amended): when the first length-prefixed string of the stream
    is read and is not [HEADER_START], [read_header] raises nothing: it
    returns with [hdrbytes] 0 and with every attribute as it was before
    the call, so no field has been decoded. *)
Theorem read_header_no_sentinel (self : instance) (f f' : file) (s : value)
  (n : Z) :
  fp self = Some f ->
  get_string f = Ok (s, n, f') ->
  s <> VBytes (blit "HEADER_START") ->
  read_header self
    = Ok (mk (attrs self) (Some f') (Some 0) (_mmdata self)).
Proof.
  intros Hfp Hg Hs. unfold read_header. rewrite Hfp, Hg.
  cbn -[value_eqb blit].
  assert (Hv : value_eqb s (VBytes (blit "HEADER_START")) = false).
  { destruct s as [| | | |b]; try reflexivity. cbn.
    apply bool_decide_eq_false_2. intros ->. apply Hs. reflexivity. }
  rewrite Hv. reflexivity.
Qed.

Lemma read_header_no_sentinel_witness :
  read_header (set_fp blank (open_rb no_sentinel))
    = Ok (mk (attrs (set_fp blank (open_rb no_sentinel)))
             (Some (mkfile no_sentinel
                           (le_bytes 4 10 ++ blit "HEADER_END")))
             (Some 0)
             (_mmdata (set_fp blank (open_rb no_sentinel)))).
Proof.
  apply (read_header_no_sentinel _ (open_rb no_sentinel) _
           (VBytes (blit "HELLO")) 9).
  - reflexivity.
  - vm_compute. reflexivity.
  - discriminate.
Defined.

End Sentinel.

(** ** Construction on a path without content *)

Section Construction.
Import Py SigprocFile.

(** C9, as stated, fails: constructing a [SigprocFile] on a path that
    does not exist raises nothing. *)
Lemma init_missing_file_returns :
  __init__ ∅ "missing.fil" = Ok blank
  /\ ~ (exists e, __init__ ∅ "missing.fil" = Raise e).
Proof.
  split; [reflexivity|]. intros (e & He). discriminate He.
Qed.

Lemma verify_files_missing (fs : filesystem) (files : list string)
  (f : string) :
  f ∈ files -> fs !! f = None -> DadaFildb.verify_files fs files = Raise OSError.
Proof.
  intros Hin Hnone. induction files as [|g files IH].
  - inversion Hin.
  - cbn [DadaFildb.verify_files].
    destruct (fs !! g) as [c|] eqn:Hg.
    + rewrite bool_decide_eq_true_2 by eauto. cbn [negb].
      apply IH. apply elem_of_cons in Hin as [->|Hin]; [congruence|exact Hin].
    + rewrite bool_decide_eq_false_2 by (intros [x Hx]; discriminate Hx).
      reflexivity.
Qed.

Lemma blank_attrs (k : pystr) :
  k ∈ keys -> attrs blank !! k = Some VNone.
Proof.
  unfold keys, _type. cbn [map fst]. intros Hin.
  repeat (apply elem_of_cons in Hin as [->|Hin]; [vm_compute; reflexivity|]).
  inversion Hin.
Qed.

(** C9 (amended): constructing a [SigprocFile] on a path that does not
    exist, or that names a zero-length file, raises no error and does no
    header decoding and no mapping: the instance returned has every
    header field [None] and has no [fp], [hdrbytes] or [_mmdata]. It is
    the first loop of [dada_fildb] that raises [OSError], for a path that
    does not exist, before any file is opened. *)
Theorem init_missing_or_empty (fs : filesystem) (fname : string) :
  fs !! fname = None \/ fs !! fname = Some [] ->
  __init__ fs fname = Ok blank
  /\ (forall k, k ∈ keys -> attrs blank !! k = Some VNone)
  /\ fp blank = None /\ hdrbytes blank = None /\ _mmdata blank = None
  /\ (forall files, fs !! fname = None -> fname ∈ files ->
        DadaFildb.verify_files fs files = Raise OSError).
Proof.
  intros H. split.
  { unfold __init__. destruct H as [-> | ->]; reflexivity. }
  split; [exact blank_attrs|].
  repeat (split; [reflexivity|]).
  intros files Hnone Hin. exact (verify_files_missing fs files fname Hin Hnone).
Qed.

Lemma init_missing_or_empty_witness :
  __init__ {[ "empty.fil"%string := [] ]} "empty.fil" = Ok blank.
Proof.
  apply (init_missing_or_empty {[ "empty.fil"%string := [] ]} "empty.fil").
  right. reflexivity.
Defined.

End Construction.

(** ** The decoder, field by field *)

Section Decoder.
Import Py SigprocFile.

Lemma read_fields_mono (n m : nat) (self x : instance) (fp : file) :
  read_fields n self fp = Ok x -> (n <= m)%nat ->
  read_fields m self fp = Ok x.
Proof.
  revert m self fp. induction n as [|n IH]; intros m self fp H Hle.
  - discriminate H.
  - destruct m as [|m]; [lia|]. cbn [read_fields] in *.
    destruct (get_string fp) as [[[s k] fp1]|e];
      cbn [mbind result_bind] in *; [|discriminate H].
    destruct (decode_value s) as [name|e];
      cbn [mbind result_bind] in *; [|discriminate H].
    destruct (add_hdrbytes self k) as [self1|e];
      cbn [mbind result_bind] in *; [|discriminate H].
    destruct (str_eqb name (str "HEADER_END")); [exact H|].
    destruct (type_of name) as [ty|e];
      cbn [mbind result_bind] in *; [|discriminate H].
    destruct (str_eqb ty (str "string")).
    + destruct (get_string fp1) as [[[v k2] fp2]|e];
        cbn [mbind result_bind] in *; [|discriminate H].
      destruct (add_hdrbytes self1 k2) as [self2|e];
        cbn [mbind result_bind] in *; [|discriminate H].
      apply IH; [exact H | lia].
    + destruct (first_char ty) as [dt|e];
        cbn [mbind result_bind] in *; [|discriminate H].
      destruct (calcsize dt) as [sz|e];
        cbn [mbind result_bind] in *; [|discriminate H].
      destruct (read fp1 sz) as [b fp2].
      destruct (Py.unpack dt b) as [val|e];
        cbn [mbind result_bind] in *; [|discriminate H].
      destruct (add_hdrbytes (setattr self1 name val) sz) as [self2|e];
        cbn [mbind result_bind] in *; [|discriminate H].
      apply IH; [exact H | lia].
Qed.

Lemma decode_name (k : pystr) (nb : bytes) :
  encode k = Ok nb -> decode_value (VBytes nb) = Ok k.
Proof. intros H. cbn. apply decode_encode. exact H. Qed.

Lemma str_eqb_false (a b : pystr) : a <> b -> str_eqb a b = false.
Proof. intros H. unfold str_eqb. apply bool_decide_eq_false_2. exact H. Qed.

Lemma str_eqb_refl (a : pystr) : str_eqb a a = true.
Proof. unfold str_eqb. apply bool_decide_eq_true_2. reflexivity. Qed.

Lemma add_hdrbytes_some (self : instance) (hb n : Z) :
  hdrbytes self = Some hb ->
  add_hdrbytes self n = Ok (set_hdrbytes self (hb + n)).
Proof. intros H. unfold add_hdrbytes. rewrite H. reflexivity. Qed.

Lemma read_fields_end (fuel : nat) (self : instance) (c rest : bytes)
  (hb : Z) :
  hdrbytes self = Some hb ->
  read_fields (S fuel) self (mkfile c (lp (blit "HEADER_END") ++ rest))
  = Ok (mk (attrs self) (Some (mkfile c rest)) (Some (hb + 14))
           (_mmdata self)).
Proof.
  intros Hh. cbn [read_fields].
  rewrite (get_string_lp _ (blit "HEADER_END") rest)
    by (try reflexivity; cbn; lia).
  cbn [mbind result_bind fbytes].
  change (decode_value (VBytes (blit "HEADER_END")))
    with (Ok (str "HEADER_END")).
  cbn [mbind result_bind]. unfold add_hdrbytes. rewrite Hh.
  cbn [mbind result_bind]. rewrite str_eqb_refl. reflexivity.
Qed.

Lemma read_fields_string (fuel : nat) (self : instance) (c rest nb vb : bytes)
  (k : pystr) (hb : Z) :
  hdrbytes self = Some hb ->
  (k, str "string") ∈ _type ->
  encode k = Ok nb ->
  (1 <= length vb <= 80)%nat ->
  read_fields (S fuel) self (mkfile c ((lp nb ++ lp vb) ++ rest))
  = read_fields fuel
      (absorbed self k (VBytes vb) (Z.of_nat (length (lp nb ++ lp vb))))
      (mkfile c rest).
Proof.
  intros Hh Hin He Hv.
  destruct (row_facts _ _ Hin) as ((nb' & He' & Hnb) & Hne & Hty & _).
  rewrite He in He'. injection He' as <-.
  cbn [read_fields]. rewrite <- app_assoc.
  rewrite (get_string_lp _ nb (lp vb ++ rest)) by (try reflexivity; exact Hnb).
  cbn [mbind result_bind fbytes]. rewrite (decode_name _ _ He).
  cbn [mbind result_bind]. rewrite (add_hdrbytes_some self hb _ Hh).
  cbn [mbind result_bind]. rewrite (str_eqb_false _ _ Hne), Hty.
  cbn [mbind result_bind]. rewrite str_eqb_refl.
  rewrite (get_string_lp _ vb rest) by (try reflexivity; exact Hv).
  cbn [mbind result_bind fbytes]. unfold add_hdrbytes, set_hdrbytes.
  cbn [hdrbytes mbind result_bind]. f_equal.
  unfold setattr, absorbed. cbn [attrs fp hdrbytes _mmdata]. rewrite Hh.
  f_equal. f_equal. rewrite length_app, !length_lp. lia.
Qed.

Lemma first_char_int : first_char (str "int") = Ok (str "i").
Proof. reflexivity. Qed.

Lemma first_char_double : first_char (str "double") = Ok (str "d").
Proof. reflexivity. Qed.

Lemma unpack_pack_i (z : Z) :
  - 2 ^ 31 <= z < 2 ^ 31 ->
  Py.unpack (str "i") (le_bytes 4 (z mod 2 ^ 32)) = Ok (VInt z).
Proof.
  intros Hz. rewrite unpack_i, length_le_bytes, le_value_bytes.
  change (Z.of_nat 4 =? 4) with true. cbn [negb].
  change (256 ^ Z.of_nat 4) with (2 ^ 32).
  rewrite Z.mod_mod by lia.
  destruct (Z.ltb_spec (z mod 2 ^ 32) (2 ^ 31)) as [Hlt|Hge]; do 2 f_equal.
  - destruct (Z.lt_ge_cases z 0) as [Hneg|Hpos].
    + rewrite <- (Z.mod_add z 1 (2 ^ 32)) in Hlt by lia.
      rewrite Z.mod_small in Hlt by lia. lia.
    + apply Z.mod_small. lia.
  - destruct (Z.lt_ge_cases z 0) as [Hneg|Hpos].
    + rewrite <- (Z.mod_add z 1 (2 ^ 32)) by lia.
      rewrite Z.mod_small by lia. lia.
    + rewrite Z.mod_small in Hge by lia. lia.
Qed.

Lemma read_fields_int (fuel : nat) (self : instance) (c rest nb : bytes)
  (k : pystr) (z hb : Z) :
  hdrbytes self = Some hb ->
  (k, str "int") ∈ _type ->
  encode k = Ok nb ->
  - 2 ^ 31 <= z < 2 ^ 31 ->
  read_fields (S fuel) self
    (mkfile c ((lp nb ++ le_bytes 4 (z mod 2 ^ 32)) ++ rest))
  = read_fields fuel
      (absorbed self k (VInt z)
         (Z.of_nat (length (lp nb ++ le_bytes 4 (z mod 2 ^ 32)))))
      (mkfile c rest).
Proof.
  intros Hh Hin He Hz.
  destruct (row_facts _ _ Hin) as ((nb' & He' & Hnb) & Hne & Hty & _).
  rewrite He in He'. injection He' as <-.
  cbn [read_fields]. rewrite <- app_assoc.
  rewrite (get_string_lp _ nb (le_bytes 4 (z mod 2 ^ 32) ++ rest))
    by (try reflexivity; exact Hnb).
  cbn [mbind result_bind fbytes]. rewrite (decode_name _ _ He).
  cbn [mbind result_bind]. rewrite (add_hdrbytes_some self hb _ Hh).
  cbn [mbind result_bind]. rewrite (str_eqb_false _ _ Hne), Hty.
  cbn [mbind result_bind].
  rewrite (str_eqb_false (str "int") (str "string")) by discriminate.
  rewrite first_char_int. cbn [mbind result_bind].
  change (calcsize (str "i")) with (@Ok Z 4). cbn [mbind result_bind].
  rewrite (read_app (mkfile c (le_bytes 4 (z mod 2 ^ 32) ++ rest))
             (le_bytes 4 (z mod 2 ^ 32)) rest 4 eq_refl)
    by (rewrite length_le_bytes; reflexivity).
  rewrite (unpack_pack_i z Hz). cbn [mbind result_bind fbytes].
  unfold add_hdrbytes, set_hdrbytes, setattr.
  cbn [hdrbytes mbind result_bind attrs fp _mmdata]. f_equal.
  unfold absorbed. cbn [attrs fp hdrbytes _mmdata]. rewrite Hh.
  f_equal. f_equal. rewrite length_app, length_lp, length_le_bytes. lia.
Qed.

Lemma read_fields_double (fuel : nat) (self : instance) (c rest nb : bytes)
  (k : pystr) (bits hb : Z) :
  hdrbytes self = Some hb ->
  (k, str "double") ∈ _type ->
  encode k = Ok nb ->
  0 <= bits < 2 ^ 64 ->
  read_fields (S fuel) self (mkfile c ((lp nb ++ le_bytes 8 bits) ++ rest))
  = read_fields fuel
      (absorbed self k (VFloat bits)
         (Z.of_nat (length (lp nb ++ le_bytes 8 bits))))
      (mkfile c rest).
Proof.
  intros Hh Hin He Hz.
  destruct (row_facts _ _ Hin) as ((nb' & He' & Hnb) & Hne & Hty & _).
  rewrite He in He'. injection He' as <-.
  cbn [read_fields]. rewrite <- app_assoc.
  rewrite (get_string_lp _ nb (le_bytes 8 bits ++ rest))
    by (try reflexivity; exact Hnb).
  cbn [mbind result_bind fbytes]. rewrite (decode_name _ _ He).
  cbn [mbind result_bind]. rewrite (add_hdrbytes_some self hb _ Hh).
  cbn [mbind result_bind]. rewrite (str_eqb_false _ _ Hne), Hty.
  cbn [mbind result_bind].
  rewrite (str_eqb_false (str "double") (str "string")) by discriminate.
  rewrite first_char_double. cbn [mbind result_bind].
  change (calcsize (str "d")) with (@Ok Z 8). cbn [mbind result_bind].
  rewrite (read_app (mkfile c (le_bytes 8 bits ++ rest))
             (le_bytes 8 bits) rest 8 eq_refl)
    by (rewrite length_le_bytes; reflexivity).
  rewrite unpack_d by apply length_le_bytes.
  rewrite le_value_bytes. change (256 ^ Z.of_nat 8) with (2 ^ 64).
  rewrite Z.mod_small by exact Hz. cbn [mbind result_bind fbytes].
  unfold add_hdrbytes, set_hdrbytes, setattr.
  cbn [hdrbytes mbind result_bind attrs fp _mmdata]. f_equal.
  unfold absorbed. cbn [attrs fp hdrbytes _mmdata]. rewrite Hh.
  f_equal. f_equal. rewrite length_app, length_lp, length_le_bytes. lia.
Qed.

End Decoder.

(** ** The header round trip *)

Section RoundTrip.
Import Py SigprocFile.

Lemma send_absent (h : instance) (k : pystr) :
  attrs h !! k = None \/ attrs h !! k = Some VNone -> send h k = Ok [].
Proof.
  intros [H|H]; unfold send, hasattr, getattr; rewrite H.
  - rewrite bool_decide_eq_false_2 by (intros [x Hx]; discriminate Hx).
    reflexivity.
  - rewrite bool_decide_eq_true_2 by eauto. reflexivity.
Qed.

Lemma send_present (h : instance) (k ty : pystr) (v : value) :
  attrs h !! k = Some v -> v <> VNone -> type_of k = Ok ty ->
  send h k
  = if str_eqb ty (str "string")
    then (b1 ← send_string (VStr k); b2 ← send_string v; Ok (b1 ++ b2))
    else send_num k v.
Proof.
  intros H Hv Hty. unfold send, hasattr, getattr. rewrite H.
  rewrite bool_decide_eq_true_2 by eauto. cbn [negb mbind result_bind].
  rewrite Hty. cbn [mbind result_bind].
  destruct v; try reflexivity. contradiction.
Qed.

(** One field: what the encoder writes for it, and how the decoder
    takes it back. *)
Lemma field_round_trip (h : instance) (k ty : pystr) (v : value) :
  (k, ty) ∈ _type -> attrs h !! k = Some v -> v <> VNone ->
  valid_value ty v ->
  exists fb v',
    send h k = Ok fb /\ (1 <= length fb)%nat /\ decoded_as v v'
    /\ forall fuel self c rest hb,
         hdrbytes self = Some hb ->
         read_fields (S fuel) self (mkfile c (fb ++ rest))
         = read_fields fuel (absorbed self k v' (Z.of_nat (length fb)))
             (mkfile c rest).
Proof.
  intros Hin Hk Hv Hvalid.
  destruct (row_facts _ _ Hin) as ((nb & He & Hnb) & Hne & Hty & _).
  rewrite (send_present h k ty v Hk Hv Hty).
  destruct v as [|z|bits|s|b]; cbn [valid_value] in Hvalid.
  - contradiction.
  - destruct Hvalid as [-> Hz].
    rewrite (str_eqb_false (str "int") (str "string")) by discriminate.
    unfold send_num. rewrite (send_string_lp k nb He) by lia.
    cbn [mbind result_bind]. rewrite Hty. cbn [mbind result_bind].
    rewrite first_char_int. cbn [mbind result_bind].
    rewrite (pack_i z Hz). cbn [mbind result_bind].
    exists (lp nb ++ le_bytes 4 (z mod 2 ^ 32)), (VInt z).
    split; [reflexivity|]. split; [rewrite length_app, length_lp; lia|].
    split; [reflexivity|].
    intros fuel self c rest hb Hh.
    apply (read_fields_int fuel self c rest nb k z hb Hh Hin He Hz).
  - destruct Hvalid as [-> Hz].
    rewrite (str_eqb_false (str "double") (str "string")) by discriminate.
    unfold send_num. rewrite (send_string_lp k nb He) by lia.
    cbn [mbind result_bind]. rewrite Hty. cbn [mbind result_bind].
    rewrite first_char_double. cbn [mbind result_bind].
    rewrite pack_d. cbn [mbind result_bind].
    exists (lp nb ++ le_bytes 8 bits), (VFloat bits).
    split; [reflexivity|]. split; [rewrite length_app, length_lp; lia|].
    split; [reflexivity|].
    intros fuel self c rest hb Hh.
    apply (read_fields_double fuel self c rest nb k bits hb Hh Hin He Hz).
  - destruct Hvalid as [-> (vb & Hvb & Hlen)].
    rewrite str_eqb_refl. rewrite (send_string_lp k nb He) by lia.
    cbn [mbind result_bind]. rewrite (send_string_lp s vb Hvb) by lia.
    cbn [mbind result_bind].
    exists (lp nb ++ lp vb), (VBytes vb).
    split; [reflexivity|]. split; [rewrite length_app, length_lp; lia|].
    split; [exists vb; split; [reflexivity | apply decode_encode, Hvb]|].
    intros fuel self c rest hb Hh.
    apply (read_fields_string fuel self c rest nb vb k hb Hh Hin He Hlen).
  - contradiction.
Qed.

(** All the fields [ks] of the table, in order. *)
Lemma fields_round_trip (h : instance) (ks : list pystr) :
  valid_header h ->
  (forall k, k ∈ ks -> exists ty, (k, ty) ∈ _type) ->
  NoDup ks ->
  exists body,
    send_all h ks = Ok body
    /\ forall self hb,
         hdrbytes self = Some hb ->
         exists self',
           hdrbytes self' = Some (hb + Z.of_nat (length body))
           /\ fp self' = fp self /\ _mmdata self' = _mmdata self
           /\ (forall k, k ∉ ks -> attrs self' !! k = attrs self !! k)
           /\ (forall k, k ∈ ks ->
                 match attrs h !! k with
                 | None | Some VNone => attrs self' !! k = attrs self !! k
                 | Some v =>
                     exists v', attrs self' !! k = Some v' /\ decoded_as v v'
                 end)
           /\ (forall n x c rest,
                 read_fields n self' (mkfile c rest) = Ok x ->
                 read_fields (n + length body) self
                   (mkfile c (body ++ rest)) = Ok x).
Proof.
  intros Hvalid. induction ks as [|k ks IH]; intros Htab Hnd.
  - exists []. split; [reflexivity|]. intros self hb Hh. exists self.
    split; [rewrite Hh; f_equal; cbn; lia|].
    repeat (split; [reflexivity|]). split.
    + intros k Hk. inversion Hk.
    + intros n x c rest H. rewrite Nat.add_0_r. exact H.
  - apply NoDup_cons in Hnd as [Hnotin Hnd].
    destruct (IH (fun k' Hk' => Htab k' (list_elem_of_further _ _ _ Hk')) Hnd)
      as (body & Hbody & Hsim).
    destruct (Htab k (list_elem_of_here _ _)) as (ty & Hin).
    cbn [send_all].
    assert (Habs : (attrs h !! k = None \/ attrs h !! k = Some VNone)
                   \/ exists v, attrs h !! k = Some v /\ v <> VNone).
    { destruct (attrs h !! k) as [v|]; [|left; left; reflexivity].
      destruct v; try (right; eexists; split; [reflexivity|discriminate]).
      left. right. reflexivity. }
    destruct Habs as [Habs | (v & Hk & Hv)].
    + rewrite (send_absent h k Habs). cbn [mbind result_bind].
      rewrite Hbody. cbn [mbind result_bind app]. exists body.
      split; [reflexivity|]. intros self hb Hh.
      destruct (Hsim self hb Hh) as (self' & H1 & H2 & H3 & H4 & H5 & H6).
      exists self'. repeat (split; [assumption|]).
      split; [|split].
      * intros k' Hk'. apply H4. intros Hc. apply Hk'.
        apply list_elem_of_further. exact Hc.
      * intros k' Hk'. apply elem_of_cons in Hk' as [->|Hk'].
        -- destruct Habs as [-> | ->]; apply H4; exact Hnotin.
        -- apply H5. exact Hk'.
      * exact H6.
    + destruct (field_round_trip h k ty v Hin Hk Hv (Hvalid k ty v Hin Hk))
        as (fb & v' & Hsend & Hlen & Hdec & Hstep).
      rewrite Hsend. cbn [mbind result_bind]. rewrite Hbody.
      cbn [mbind result_bind]. exists (fb ++ body).
      split; [reflexivity|]. intros self hb Hh.
      destruct (Hsim (absorbed self k v' (Z.of_nat (length fb)))
                  (hb + Z.of_nat (length fb)))
        as (self' & H1 & H2 & H3 & H4 & H5 & H6).
      { unfold absorbed. cbn [hdrbytes]. rewrite Hh. reflexivity. }
      exists self'. split; [rewrite H1; f_equal; rewrite length_app; lia|].
      split; [exact H2|]. split; [exact H3|]. split; [|split].
      * intros k' Hk'. rewrite H4.
        -- unfold absorbed. cbn [attrs]. apply lookup_insert_ne.
           intros ->. apply Hk'. apply list_elem_of_here.
        -- intros Hc. apply Hk'. apply list_elem_of_further. exact Hc.
      * intros k' Hk'. apply elem_of_cons in Hk' as [->|Hk'].
        -- rewrite Hk. destruct v; try contradiction;
             (exists v'; split; [|exact Hdec]);
             rewrite (H4 k Hnotin); unfold absorbed; cbn [attrs];
             apply lookup_insert_eq.
        -- specialize (H5 k' Hk').
           assert (Hne : k <> k') by (intros ->; contradiction).
           unfold absorbed in H5. cbn [attrs] in H5.
           rewrite (lookup_insert_ne _ _ _ _ Hne) in H5. exact H5.
      * intros n x c rest Hrun.
        rewrite <- app_assoc.
        apply (read_fields_mono (S (n + length body))).
        -- rewrite (Hstep _ self c (body ++ rest) hb Hh). apply H6.
           exact Hrun.
        -- rewrite length_app. lia.
Qed.

Lemma keys_in_table (k : pystr) :
  k ∈ keys <-> exists ty, (k, ty) ∈ _type.
Proof.
  unfold keys. split.
  - intros H. apply list_elem_of_In, in_map_iff in H as ([k' ty] & <- & Hin).
    exists ty. apply list_elem_of_In. exact Hin.
  - intros (ty & Hin). apply list_elem_of_In, in_map_iff.
    exists (k, ty). split; [reflexivity|]. apply list_elem_of_In. exact Hin.
Qed.

Lemma send_string_sentinel (s : string) :
  encode (str s) = Ok (blit s) -> (length (blit s) <= 80)%nat ->
  send_string (VStr (str s)) = Ok (lp (blit s)).
Proof. intros He Hl. apply send_string_lp; assumption. Qed.

(** C1: the header codec round trip. For a header whose fields are each
    absent or a value of the declared type (an [int] of 32 bits, a
    [double] as its 64 bits, a string that encodes to between 1 and 80
    bytes), [filterbank_header] writes a byte string, and constructing a
    [SigprocFile] on a file that starts with it, whatever data follows,
    decodes without error: [hdrbytes] is the length of what was written,
    every absent field is [None], every number is the number that was
    encoded, and every string field holds bytes that decode to the
    string that was encoded. *)
Theorem header_round_trip (h : instance) (fs : filesystem) (fname : string)
  (data : bytes) :
  valid_header h ->
  exists bs h',
    filterbank_header h = Ok bs
    /\ __init__ (<[fname := bs ++ data]> fs) fname = Ok h'
    /\ hdrbytes h' = Some (Z.of_nat (length bs))
    /\ _mmdata h' = Some (bs ++ data)
    /\ forall k, k ∈ keys ->
         match attrs h !! k with
         | None | Some VNone => attrs h' !! k = Some VNone
         | Some v => exists v', attrs h' !! k = Some v' /\ decoded_as v v'
         end.
Proof.
  intros Hvalid.
  destruct (fields_round_trip h keys Hvalid
              (fun k Hk => proj1 (keys_in_table k) Hk) keys_NoDup)
    as (body & Hbody & Hsim).
  set (bs := lp (blit "HEADER_START") ++ body ++ lp (blit "HEADER_END")).
  set (content := bs ++ data).
  set (self1 := mk (attrs blank) (Some (open_rb content)) (Some 16) None).
  destruct (Hsim self1 16 eq_refl) as (self' & H1 & H2 & H3 & _ & H5 & H6).
  exists bs, (mk (attrs self') (Some (mkfile content data))
                 (Some (16 + Z.of_nat (length body) + 14)) (Some content)).
  assert (Hcontent : content
                     = lp (blit "HEADER_START")
                       ++ body ++ lp (blit "HEADER_END") ++ data).
  { unfold content, bs. rewrite <- !app_assoc. reflexivity. }
  split; [|split; [|split; [|split]]].
  - unfold filterbank_header.
    rewrite (send_string_sentinel "HEADER_START")
      by (first [vm_compute; reflexivity | cbn; lia]).
    cbn [mbind result_bind]. rewrite Hbody. cbn [mbind result_bind].
    rewrite (send_string_sentinel "HEADER_END")
      by (first [vm_compute; reflexivity | cbn; lia]).
    reflexivity.
  - unfold __init__. rewrite lookup_insert_eq.
    fold content.
    assert (Hlen : (length content =? 0)%nat = false).
    { apply Nat.eqb_neq. rewrite Hcontent, length_app, length_lp. lia. }
    rewrite Hlen. cbn [negb]. unfold read_header. cbn [fp set_fp].
    rewrite (get_string_lp (open_rb content) (blit "HEADER_START")
               (body ++ lp (blit "HEADER_END") ++ data))
      by (try exact Hcontent; cbn; lia).
    cbn [mbind result_bind].
    replace (value_eqb (VBytes (blit "HEADER_START"))
                       (VBytes (blit "HEADER_START"))) with true
      by (symmetry; cbn; apply bool_decide_eq_true_2; reflexivity).
    cbn [negb]. unfold add_hdrbytes, set_hdrbytes.
    cbn [hdrbytes mbind result_bind attrs fp _mmdata fbytes open_rb].
    change (mk (attrs blank) (Some (open_rb content))
               (Some (0 + (Z.of_nat (length (blit "HEADER_START")) + 4)))
               None) with self1.
    assert (Hrun : read_fields (1 + length body) self1
                     (mkfile content
                        (body ++ lp (blit "HEADER_END") ++ data))
                   = Ok (mk (attrs self') (Some (mkfile content data))
                            (Some (16 + Z.of_nat (length body) + 14)) None)).
    { apply H6. rewrite (read_fields_end 0 self' content data _ H1).
      rewrite H3. reflexivity. }
    rewrite (read_fields_mono _ _ _ _ _ Hrun)
      by (cbn [funread]; rewrite !length_app, length_lp; lia).
    reflexivity.
  - cbn [hdrbytes]. f_equal. unfold bs.
    rewrite !length_app, !length_lp. cbn. lia.
  - reflexivity.
  - intros k Hk. cbn [attrs]. specialize (H5 k Hk).
    unfold self1 in H5. cbn [attrs] in H5.
    rewrite (blank_attrs k Hk) in H5. exact H5.
Qed.

Lemma sample_header_valid : valid_header sample_header.
Proof.
  intros k ty v Hin Hk. unfold _type in Hin.
  repeat (apply elem_of_cons in Hin as [Heq|Hin];
          [ injection Heq as -> ->; vm_compute in Hk; injection Hk as <-;
            first [ exact I
                  | split; [reflexivity | lia]
                  | split; [reflexivity
                           | eexists; split;
                             [vm_compute; reflexivity | cbn; lia]] ]
          | ]).
  inversion Hin.
Defined.

Lemma header_round_trip_witness :
  exists bs h',
    filterbank_header sample_header = Ok bs
    /\ __init__ (<["beam.fil"%string := bs ++ sample_data 6]> ∅) "beam.fil"
       = Ok h'
    /\ hdrbytes h' = Some (Z.of_nat (length bs))
    /\ _mmdata h' = Some (bs ++ sample_data 6)
    /\ forall k, k ∈ keys ->
         match attrs sample_header !! k with
         | None | Some VNone => attrs h' !! k = Some VNone
         | Some v => exists v', attrs h' !! k = Some v' /\ decoded_as v v'
         end.
Proof.
  apply (header_round_trip sample_header ∅ "beam.fil" (sample_data 6)).
  exact sample_header_valid.
Defined.

End RoundTrip.

(** ** What the reads of the decoder consume *)

Section DecodedFields.
Import Py SigprocFile.

Lemma read_split (fp fp' : file) (n : Z) (b : bytes) :
  read fp n = (b, fp') ->
  fbytes fp' = fbytes fp /\ funread fp = b ++ funread fp'
  /\ (0 <= n -> (length b <= Z.to_nat n)%nat
                /\ (length b = Z.to_nat n \/ funread fp' = [])).
Proof.
  unfold read. destruct (Z.ltb_spec n 0) as [Hn|Hn]; intros [= <- <-].
  - cbn. rewrite app_nil_r. split; [reflexivity|]. split; [reflexivity|]. lia.
  - cbn. rewrite take_drop. split; [reflexivity|]. split; [reflexivity|].
    intros _. rewrite length_take. split; [lia|].
    destruct (Nat.le_gt_cases (Z.to_nat n) (length (funread fp))) as [H|H].
    + left. lia.
    + right. apply drop_ge. lia.
Qed.

Lemma get_string_inv (fp fp' : file) (s : value) (n : Z) :
  get_string fp = Ok (s, n, fp') ->
  fbytes fp' = fbytes fp
  /\ exists b4, length b4 = 4%nat
     /\ ((s = VNone /\ n = 0 /\ funread fp = b4 ++ funread fp')
         \/ exists out nchar,
              s = VBytes out /\ 1 <= nchar <= 80 /\ n = nchar + 4
              /\ funread fp = b4 ++ out ++ funread fp'
              /\ (length out <= Z.to_nat nchar)%nat
              /\ (length out = Z.to_nat nchar \/ funread fp' = [])).
Proof.
  unfold get_string. destruct (read fp 4) as [b4 fp1] eqn:Hr.
  apply read_split in Hr as (Hf1 & Hu1 & _).
  rewrite unpack_i.
  destruct (Z.eqb_spec (Z.of_nat (length b4)) 4) as [Hl|Hl];
    cbn [negb mbind result_bind as_int]; [|discriminate].
  set (nchar := if le_value b4 <? 2 ^ 31 then le_value b4
                else le_value b4 - 2 ^ 32).
  destruct (Z.gtb_spec nchar 80) as [Hhi|Hhi];
    destruct (Z.ltb_spec nchar 1) as [Hlo|Hlo]; cbn [orb].
  1-3: intros [= <- <- <-]; split; [exact Hf1|]; exists b4;
       (split; [lia|]); left; auto.
  destruct (read fp1 nchar) as [out fp2] eqn:Hr2.
  apply read_split in Hr2 as (Hf2 & Hu2 & Hlen).
  intros [= <- <- <-]. split; [congruence|]. exists b4. split; [lia|].
  right. exists out, nchar. split; [reflexivity|]. split; [lia|].
  split; [reflexivity|]. split; [rewrite Hu1, Hu2; reflexivity|].
  apply Hlen. lia.
Qed.

Lemma read_fields_needs_prefix (fuel : nat) (self x : instance) (fp : file) :
  read_fields fuel self fp = Ok x -> (4 <= length (funread fp))%nat.
Proof.
  destruct fuel as [|fuel]; [discriminate|]. cbn [read_fields]. intros H.
  apply bind_Ok in H as ([[s n] fp1] & Hg & _).
  apply get_string_inv in Hg as (_ & b4 & Hl & Hcase).
  destruct Hcase as [(_ & _ & ->) | (out & nchar & _ & _ & _ & -> & _)];
    rewrite length_app; lia.
Qed.

Lemma type_of_kind (k ty : pystr) :
  type_of k = Ok ty ->
  ty = str "string" \/ ty = str "int" \/ ty = str "double".
Proof.
  intros H. apply type_of_in_table in H. apply row_facts in H. tauto.
Qed.

Lemma unpack_kind (fmt : pystr) (b : bytes) (v : value) :
  Py.unpack fmt b = Ok v ->
  (fmt = str "i" /\ exists z, v = VInt z)
  \/ (fmt <> str "i" /\ exists bits, v = VFloat bits).
Proof.
  unfold Py.unpack. intros H. apply bind_Ok in H as (sz & _ & H).
  destruct (negb _); [discriminate|]. unfold str_eqb in H.
  destruct (bool_decide (fmt = str "i")) eqn:E.
  - apply bool_decide_eq_true in E. injection H as <-. left. eauto.
  - apply bool_decide_eq_false in E. injection H as <-. right. eauto.
Qed.

(** On a file written from [sample_header] the string field holds the
    bytes [FAKE], not the string. *)
Lemma decoded_source_name :
  (__init__ {[ "beam.fil"%string :=
                 header_bytes sample_header ++ sample_data 6 ]} "beam.fil"
   ≫= fun obj => getattr obj (str "source_name"))
  = Ok (VBytes (blit "FAKE")).
Proof. vm_compute. reflexivity. Qed.

End DecodedFields.

(** ** Termination of the decoder *)

Section Termination.
Import Py SigprocFile.

Lemma bind_Raise {A B} (m : result A) (f : A -> result B) (e : exn) :
  m ≫= f = Raise e -> m = Raise e \/ exists a, m = Ok a /\ f a = Raise e.
Proof. destruct m as [a|e']; cbn; [eauto | intros [= ->]; auto]. Qed.

Lemma decode_raises_bounded (n : nat) (bs : bytes) (e : exn) :
  (length bs < n)%nat -> decode bs = Raise e -> e = UnicodeDecodeError.
Proof.
  revert bs. induction n as [|n IH]; intros bs Hlen H; [lia|].
  destruct bs as [|b0 t0]; [discriminate|].
  cbn [decode] in H. cbn [length] in Hlen.
  assert (Hrec : forall t (f : pystr -> result pystr),
            (length t <= length t0)%nat ->
            (decode t ≫= f = Raise e) ->
            (forall s, f s <> Raise e) -> e = UnicodeDecodeError).
  { intros t f Ht Hb Hf. apply bind_Raise in Hb as [Hb | (s & _ & Hb)].
    - apply (IH t); [lia | exact Hb].
    - destruct (Hf s Hb). }
  destruct (b2z b0 <? 128).
  { apply (Hrec t0 _ ltac:(lia) H). discriminate. }
  destruct (b2z b0 <? 194); [congruence|].
  destruct (b2z b0 <? 224).
  { destruct t0 as [|b1 t1]; [congruence|].
    destruct (is_cont b1); [|congruence].
    apply (Hrec t1 _ ltac:(cbn; lia) H). discriminate. }
  destruct (b2z b0 <? 240).
  { destruct t0 as [|b1 [|b2 t2]]; try congruence.
    destruct (_ && _); [|congruence].
    apply (Hrec t2 _ ltac:(cbn; lia) H). discriminate. }
  destruct (b2z b0 <? 245); [|congruence].
  destruct t0 as [|b1 [|b2 [|b3 t3]]]; try congruence.
  destruct (_ && _); [|congruence].
  apply (Hrec t3 _ ltac:(cbn; lia) H). discriminate.
Qed.

Lemma decode_raises (bs : bytes) (e : exn) :
  decode bs = Raise e -> e = UnicodeDecodeError.
Proof. apply (decode_raises_bounded (S (length bs))). lia. Qed.

Lemma get_string_raises (fp : file) (e : exn) :
  get_string fp = Raise e -> e = StructError.
Proof.
  unfold get_string. destruct (read fp 4) as [b4 fp1]. rewrite unpack_i.
  destruct (negb _); cbn [mbind result_bind as_int]; [congruence|].
  destruct (_ || _); [discriminate|].
  destruct (read fp1 _). discriminate.
Qed.

Lemma get_string_shrinks (fp fp' : file) (s : value) (n : Z) :
  get_string fp = Ok (s, n, fp') ->
  (length (funread fp') + 4 <= length (funread fp))%nat.
Proof.
  intros H. apply get_string_inv in H as (_ & b4 & Hl & Hcase).
  destruct Hcase as [(_ & _ & ->) | (out & nc & _ & _ & _ & -> & _)];
    rewrite !length_app; lia.
Qed.

Lemma add_hdrbytes_raises (self : instance) (n : Z) (e : exn) :
  add_hdrbytes self n = Raise e -> e = AttributeError.
Proof. unfold add_hdrbytes. destruct (hdrbytes self); congruence. Qed.

Lemma unpack_raises (fmt : pystr) (b : bytes) (e : exn) :
  Py.unpack fmt b = Raise e -> e = StructError.
Proof.
  unfold Py.unpack, calcsize.
  destruct (str_eqb fmt (str "i")); cbn [mbind result_bind].
  - destruct (negb _); congruence.
  - destruct (str_eqb fmt (str "d")); cbn [mbind result_bind];
      [destruct (negb _)|]; congruence.
Qed.

(** The fuel of [read_header] is never used up: the loop stops, with a
    header or with a Python exception, before the unread bytes do. *)
Lemma read_fields_terminates (fuel : nat) (self : instance) (fp : file) :
  (length (funread fp) < fuel)%nat ->
  read_fields fuel self fp <> Raise FuelExhausted.
Proof.
  revert self fp. induction fuel as [|fuel IH]; intros self fp Hlen; [lia|].
  cbn [read_fields].
  destruct (get_string fp) as [[[s n] fp1]|e] eqn:Hg;
    cbn [mbind result_bind];
    [|apply get_string_raises in Hg; congruence].
  apply get_string_shrinks in Hg.
  destruct (decode_value s) as [name|e] eqn:Hd; cbn [mbind result_bind].
  2:{ destruct s; cbn in Hd; try congruence.
      apply decode_raises in Hd. congruence. }
  destruct (add_hdrbytes self n) as [self1|e] eqn:Ha;
    cbn [mbind result_bind];
    [|apply add_hdrbytes_raises in Ha; congruence].
  destruct (str_eqb name (str "HEADER_END")); [discriminate|].
  destruct (type_of name) as [ty|e] eqn:Ht; cbn [mbind result_bind].
  2:{ unfold type_of in Ht. destruct (List.find _ _); congruence. }
  destruct (str_eqb ty (str "string")).
  - destruct (get_string fp1) as [[[v n2] fp2]|e] eqn:Hg2;
      cbn [mbind result_bind];
      [|apply get_string_raises in Hg2; congruence].
    apply get_string_shrinks in Hg2.
    destruct (add_hdrbytes self1 n2) as [self2|e] eqn:Ha2;
      cbn [mbind result_bind];
      [|apply add_hdrbytes_raises in Ha2; congruence].
    apply IH. lia.
  - destruct (first_char ty) as [dt|e] eqn:Hf; cbn [mbind result_bind].
    2:{ destruct ty; cbn in Hf; congruence. }
    destruct (calcsize dt) as [sz|e] eqn:Hc; cbn [mbind result_bind].
    2:{ unfold calcsize in Hc.
        destruct (str_eqb dt (str "i")); [congruence|].
        destruct (str_eqb dt (str "d")); congruence. }
    destruct (read fp1 sz) as [b fp2] eqn:Hr.
    apply read_split in Hr as (_ & Hu & _).
    destruct (Py.unpack dt b) as [val|e] eqn:Hu2; cbn [mbind result_bind];
      [|apply unpack_raises in Hu2; congruence].
    destruct (add_hdrbytes (setattr self1 name val) sz) as [self2|e] eqn:Ha2;
      cbn [mbind result_bind];
      [|apply add_hdrbytes_raises in Ha2; congruence].
    apply IH. rewrite Hu, length_app in Hg. lia.
Qed.

(** X1: the [while True] loop of [read_header] stops on every file: each
    turn that does not raise reads at least the four bytes of a length
    prefix, so the bound on the turns that the embedding gives the loop
    is never reached. *)
Lemma read_header_terminates (self : instance) :
  read_header self <> Raise FuelExhausted.
Proof.
  unfold read_header. destruct (fp self) as [f|]; [|discriminate].
  destruct (get_string f) as [[[s n] fp1]|e] eqn:Hg;
    cbn [mbind result_bind];
    [|apply get_string_raises in Hg; congruence].
  destruct (negb _); [discriminate|].
  cbn [add_hdrbytes set_hdrbytes hdrbytes mbind result_bind].
  apply read_fields_terminates. lia.
Qed.

End Termination.

(** ** Record geometry *)

Section Geometry.
Import Py SigprocFile.

Lemma Qeq_bool_false_iff (x y : Q) : Qeq_bool x y = false <-> ~ (x == y)%Q.
Proof.
  split.
  - intros H E. apply Qeq_bool_iff in E. congruence.
  - intros H. destruct (Qeq_bool x y) eqn:E; [|reflexivity].
    apply Qeq_bool_iff in E. contradiction.
Qed.

Lemma truediv_int (a b : Z) :
  b <> 0 ->
  exists q, truediv (PInt a) (PInt b) = Ok (PFloat q)
            /\ (q == inject_Z a / inject_Z b)%Q.
Proof.
  intros Hb. unfold truediv. cbn [to_Q].
  assert (Hnz : ~ (inject_Z b == 0)%Q).
  { unfold Qeq. cbn. lia. }
  rewrite (proj2 (Qeq_bool_false_iff _ _) Hnz).
  eexists. split; [reflexivity|]. apply Qred_correct.
Qed.

Lemma bytes_per_spectrum_float (self : instance) (nbits nchans nifs : Z) :
  attrs self !! str "nbits" = Some (VInt nbits) ->
  attrs self !! str "nchans" = Some (VInt nchans) ->
  attrs self !! str "nifs" = Some (VInt nifs) ->
  exists q, bytes_per_spectrum self = Ok (PFloat q)
            /\ (q == inject_Z (nbits * nchans * nifs) / inject_Z 8)%Q.
Proof.
  intros Hb Hc Hi. unfold bytes_per_spectrum, getattr.
  rewrite Hb, Hc, Hi. cbn [mbind result_bind as_int mul].
  apply truediv_int. lia.
Qed.

(** C6, as stated, fails: with five bytes of data and records of two
    bytes the count is the float 2.5, not rounded down to 2. *)
Lemma nspectra_not_truncated :
  (two_channel_file 5 ≫= nspectra) = Ok (PFloat (5 # 2))
  /\ (two_channel_file 5 ≫= nspectra) <> Ok (PInt 2)
  /\ (two_channel_file 5 ≫= nspectra) <> Ok (PFloat 2).
Proof.
  assert (H : (two_channel_file 5 ≫= nspectra) = Ok (PFloat (5 # 2)))
    by (vm_compute; reflexivity).
  rewrite H. repeat split; discriminate.
Qed.

(** C6 (amended): [nspectra] is the float quotient of the length of the
    data region by [bytes_per_spectrum], itself the float
    [nbits * nchans * nifs / 8]; no rounding takes place. When the data
    region is [k] whole records the count is [k]; otherwise it is the
    fractional quotient. *)
Theorem nspectra_quotient (self : instance) (m : bytes)
  (h nbits nchans nifs : Z) :
  _mmdata self = Some m ->
  hdrbytes self = Some h ->
  attrs self !! str "nbits" = Some (VInt nbits) ->
  attrs self !! str "nchans" = Some (VInt nchans) ->
  attrs self !! str "nifs" = Some (VInt nifs) ->
  nbits * nchans * nifs <> 0 ->
  exists q,
    nspectra self = Ok (PFloat q)
    /\ (q == inject_Z (Z.of_nat (length m) - h)
             / (inject_Z (nbits * nchans * nifs) / inject_Z 8))%Q
    /\ (forall k, 8 * (Z.of_nat (length m) - h) = k * (nbits * nchans * nifs)
                  -> (q == inject_Z k)%Q).
Proof.
  intros Hm Hh Hb Hc Hi Hnz.
  destruct (bytes_per_spectrum_float self _ _ _ Hb Hc Hi) as (bps & Hbps & Hq).
  unfold nspectra, mmdata, get_hdrbytes. rewrite Hm, Hh, Hbps.
  cbn [mbind result_bind sub]. unfold truediv. cbn [to_Q].
  assert (Hne : ~ (bps == 0)%Q).
  { rewrite Hq. unfold Qeq. cbn. lia. }
  rewrite (proj2 (Qeq_bool_false_iff _ _) Hne).
  eexists. split; [reflexivity|].
  assert (Hne2 : ~ (inject_Z (nbits * nchans * nifs) == 0)%Q).
  { unfold Qeq. cbn. lia. }
  split.
  - rewrite Qred_correct, Hq. reflexivity.
  - intros k Hk. rewrite Qred_correct, Hq.
    assert (E : (inject_Z 8 * inject_Z (Z.of_nat (length m) - h)
                 == inject_Z k * inject_Z (nbits * nchans * nifs))%Q).
    { rewrite <- !inject_Z_mult. rewrite Hk. reflexivity. }
    field_simplify_eq; [|exact Hne2].
    change 8%Q with (inject_Z 8). rewrite E. ring.
Qed.

Lemma two_channel_file_opened :
  two_channel_file 6 = Ok (opened two_channel_header 6).
Proof. vm_compute. reflexivity. Qed.

Lemma nspectra_quotient_witness :
  exists q,
    nspectra (opened two_channel_header 6) = Ok (PFloat q)
    /\ (q == inject_Z 3)%Q.
Proof.
  destruct (nspectra_quotient
              (opened two_channel_header 6)
              (header_bytes two_channel_header ++ sample_data 6)
              69 8 2 1) as (q & Hq & _ & Hk).
  - reflexivity.
  - vm_compute. reflexivity.
  - vm_compute. reflexivity.
  - vm_compute. reflexivity.
  - vm_compute. reflexivity.
  - lia.
  - exists q. split; [exact Hq|]. apply Hk. vm_compute. reflexivity.
Defined.

End Geometry.

(** ** Unpacking samples narrower than a byte *)

Section SubByte.
Import Py SigprocFile.

Lemma mul_float_r (a : num) (q : Q) : exists q', mul a (PFloat q) = PFloat q'.
Proof. destruct a; cbn; eauto. Qed.

Lemma add_float_r (a : num) (q : Q) : exists q', add a (PFloat q) = PFloat q'.
Proof. destruct a; cbn; eauto. Qed.

Lemma add_float_l (a : num) (q : Q) : exists q', add (PFloat q) a = PFloat q'.
Proof. destruct a; cbn; eauto. Qed.

Lemma truediv_float (a b r : num) :
  truediv a b = Ok r -> exists q, r = PFloat q.
Proof.
  unfold truediv. destruct (Qeq_bool (to_Q b) 0); [discriminate|].
  intros [= <-]. eauto.
Qed.

Lemma bytes_per_spectrum_is_float (self : instance) (r : num) :
  bytes_per_spectrum self = Ok r -> exists q, r = PFloat q.
Proof.
  unfold bytes_per_spectrum. intros H.
  repeat (apply bind_Ok in H as (? & _ & H)).
  exact (truediv_float _ _ _ H).
Qed.

(** C3: on a file of fewer than 8 bits per sample [unpack] never
    returns a block. The slice bounds [b0] and [b1] are floats, because
    [bytes_per_spectrum] is the result of a true division, and slicing
    the mapping with them raises [TypeError]; [get_data] converts the
    same bounds with [int] first. With [nbits] one of 1, 2, 4 and the
    other fields of the geometry in place, [TypeError] is the error
    raised. *)
Theorem unpack_sub_byte_raises (self : instance) (nstart nsamp nbits : Z) :
  attrs self !! str "nbits" = Some (VInt nbits) ->
  nbits < 8 ->
  (forall a, unpack self nstart nsamp <> Ok a)
  /\ (forall m h nchans nifs,
        _mmdata self = Some m -> hdrbytes self = Some h ->
        attrs self !! str "nchans" = Some (VInt nchans) ->
        attrs self !! str "nifs" = Some (VInt nifs) ->
        nbits = 1 \/ nbits = 2 \/ nbits = 4 ->
        unpack self nstart nsamp = Raise TypeError).
Proof.
  intros Hb Hlt.
  assert (Hge : (nbits >=? 8) = false) by (rewrite Z.geb_leb; apply Z.leb_gt; lia).
  split.
  - intros a. unfold unpack, getattr. rewrite Hb.
    cbn [mbind result_bind as_int]. rewrite Hge.
    destruct (bytes_per_spectrum self) as [bps|e] eqn:Hbps; [|discriminate].
    destruct (bytes_per_spectrum_is_float _ _ Hbps) as (q & ->).
    cbn [mbind result_bind].
    destruct (get_hdrbytes self) as [h|e]; [|discriminate].
    cbn [mbind result_bind].
    destruct (truediv (PInt 8) (PInt nbits)) as [fac|e]; [|discriminate].
    cbn [mbind result_bind].
    destruct (mmdata self) as [m|e]; [|discriminate].
    cbn [mbind result_bind].
    destruct (mul_float_r (PInt nstart) q) as (q1 & ->).
    destruct (add_float_r (PInt h) q1) as (q2 & ->).
    cbn [index mbind result_bind]. discriminate.
  - intros m h nchans nifs Hm Hh Hc Hi Hcases.
    destruct (bytes_per_spectrum_float self _ _ _ Hb Hc Hi) as (q & Hbps & _).
    destruct (truediv_int 8 nbits ltac:(lia)) as (fac & Hfac & _).
    unfold unpack, getattr, get_hdrbytes, mmdata. rewrite Hb.
    cbn [mbind result_bind as_int]. rewrite Hge, Hbps.
    cbn [mbind result_bind]. rewrite Hh. cbn [mbind result_bind].
    rewrite Hfac. cbn [mbind result_bind]. rewrite Hm.
    cbn [mbind result_bind].
    destruct (mul_float_r (PInt nstart) q) as (q1 & ->).
    destruct (add_float_r (PInt h) q1) as (q2 & ->).
    reflexivity.
Qed.

Lemma four_bit_file_opened : four_bit_file = Ok (opened four_bit_header 4).
Proof. vm_compute. reflexivity. Qed.

Lemma unpack_sub_byte_raises_witness :
  unpack (opened four_bit_header 4) 0 2 = Raise TypeError.
Proof.
  apply (proj2 (unpack_sub_byte_raises (opened four_bit_header 4)
           0 2 4 ltac:(vm_compute; reflexivity) ltac:(lia))
           (header_bytes four_bit_header ++ sample_data 4) 69 4 1).
  - reflexivity.
  - vm_compute. reflexivity.
  - vm_compute. reflexivity.
  - vm_compute. reflexivity.
  - right. right. reflexivity.
Defined.

(** For 8 bits and more, [unpack] is [get_data] widened to [float32]. *)
Lemma unpack_wide (self : instance) (nstart nsamp nbits : Z) :
  attrs self !! str "nbits" = Some (VInt nbits) ->
  8 <= nbits ->
  unpack self nstart nsamp
    = (get_data self nstart nsamp
       ≫= fun a => Ok (inl (Np.astype Np.float32 a))).
Proof.
  intros Hb Hge. unfold unpack, getattr. rewrite Hb.
  cbn [mbind result_bind as_int].
  replace (nbits >=? 8) with true by (symmetry; rewrite Z.geb_leb; apply Z.leb_le; lia).
  reflexivity.
Qed.

End SubByte.

(** ** Axis transform of the page assembler *)

Section Arrays.
Import Py Np.

Lemma nth_map_seq {A} (f : nat -> A) (n i : nat) (d : A) :
  (i < n)%nat -> nth i (map f (seq 0 n)) d = f i.
Proof.
  intros Hi. rewrite (nth_indep _ d (f O)) by (rewrite length_map, length_seq; lia).
  rewrite (map_nth f (seq 0 n) O i). rewrite seq_nth by lia. reflexivity.
Qed.




End Arrays.

Section Orientation.
Import Py Np DadaFildb.





End Orientation.

(** ** Page assembly *)

Section Padding.
Import Py Np DadaFildb.

Lemma zip_with_map_seq {A B C} (g : A -> B -> C) (f : nat -> A)
  (l : list B) (d : B) (n : nat) :
  length l = n ->
  zip_with g (map f (seq 0 n)) l
  = map (fun x => g (f x) (nth x l d)) (seq 0 n).
Proof.
  revert n f. induction l as [|b l IH]; intros n f Hn.
  - subst n. reflexivity.
  - destruct n as [|n]; [discriminate|]. injection Hn as Hn.
    cbn [seq map zip_with nth]. f_equal.
    rewrite <- !seq_shift, !map_map. apply (IH n (fun x => f (S x)) Hn).
Qed.

Lemma broadcast_same (c p : nat) (a : ndarray2) :
  shape0 a = c -> shape1 a = p ->
  broadcast_to c p a
  = Ok (map (fun x => map (fun y => cell a x y) (seq 0 p)) (seq 0 c)).
Proof.
  intros H0 H1. unfold broadcast_to. rewrite H0, H1, !Nat.eqb_refl.
  cbn [orb andb]. f_equal. apply map_ext_in. intros x Hx.
  apply in_seq in Hx. apply map_ext_in. intros y Hy. apply in_seq in Hy.
  destruct (Nat.eqb_spec c 1), (Nat.eqb_spec p 1);
    repeat match goal with
           | |- context [cell a ?i] => progress replace i with O by lia
           | |- cell a _ ?j = _ => progress replace j with O by lia
           end; f_equal; lia.
Qed.

(** A short read of [k] records, [k] other than 1, is padded: the first
    [k] time positions of the beam's plane take the block, the others
    keep what the plane held (the zeros of [np.zeros]). *)
Lemma store_pads_short_read (data : ndarray3) (i k : nat) (a : ndarray2) :
  shape0 a = dim1 data -> shape1 a = k ->
  (k < dim2 data)%nat -> k <> 1%nat ->
  length (nth i (planes data) []) = dim1 data ->
  store data i a
  = Ok (mk3 (dim0 data) (dim1 data) (dim2 data)
            (<[i := map (fun x => map (fun y => cell a x y) (seq 0 k)
                                  ++ drop k (nth x (nth i (planes data) []) []))
                        (seq 0 (dim1 data))]> (planes data))).
Proof.
  intros H0 H1 Hk Hk1 Hold. unfold store, setitem.
  assert (Hb : broadcast_to (dim1 data) (dim2 data) a = Raise ValueError).
  { unfold broadcast_to. rewrite H1.
    destruct (Nat.eqb_spec k (dim2 data)); [lia|].
    destruct (Nat.eqb_spec k 1); [lia|].
    rewrite andb_false_r. reflexivity. }
  rewrite Hb. cbn [mbind result_bind]. unfold setitem_head.
  rewrite H1. rewrite Nat.min_l by lia.
  rewrite (broadcast_same _ _ _ H0 H1). cbn [mbind result_bind].
  rewrite (zip_with_map_seq _ _ _ [] _ Hold). reflexivity.
Qed.

(** A short read of exactly one record is not padded: the assignment
    [data[i] = fil_data] broadcasts the one sample of each channel over
    all time positions of the page, and raises nothing. *)
Lemma store_broadcasts_single_record (data : ndarray3) (i : nat)
  (a : ndarray2) :
  shape0 a = dim1 data -> shape1 a = 1%nat ->
  store data i a
  = Ok (mk3 (dim0 data) (dim1 data) (dim2 data)
            (<[i := map (fun x => replicate (dim2 data) (cell a x 0))
                        (seq 0 (dim1 data))]> (planes data))).
Proof.
  intros H0 H1. unfold store, setitem, broadcast_to.
  rewrite H0, H1, !Nat.eqb_refl, orb_true_r. cbn [orb andb mbind result_bind].
  do 3 f_equal. apply map_ext_in. intros x Hx. apply in_seq in Hx.
  replace (if (dim1 data =? 1)%nat then O else x) with x
    by (destruct (Nat.eqb_spec (dim1 data) 1); lia).
  generalize (cell a x 0). intros s. generalize (dim2 data) 0%nat.
  intros n. induction n as [|n IH]; intros st; [reflexivity|].
  cbn [seq map replicate]. f_equal. apply IH.
Qed.




(** C4: the file holds four records of two channels and the page size is
    three, so the read for page 1 returns the single record (7, 8). The
    page is not zero-padded: every time position of the page carries the
    record. *)
Theorem get_data_single_record_page :
  (two_channel_file 8 ≫= fun f => SigprocFile.get_data f (1 * 3) 3)
  = Ok (mk2 uint8 1 2 [[SInt 7; SInt 8]])
  /\ (two_channel_file 8 ≫= fun f => get_data [f] 1 3 (str "ft"))
     = Ok (mk3 1 2 3 [[[SInt 7; SInt 7; SInt 7]; [SInt 8; SInt 8; SInt 8]]])
  /\ (two_channel_file 8 ≫= fun f => get_data [f] 1 3 (str "ft"))
     <> Ok (mk3 1 2 3 [[[SInt 7; SInt 0; SInt 0]; [SInt 8; SInt 0; SInt 0]]]).
Proof.
  assert (H : (two_channel_file 8 ≫= fun f => get_data [f] 1 3 (str "ft"))
     = Ok (mk3 1 2 3 [[[SInt 7; SInt 7; SInt 7]; [SInt 8; SInt 8; SInt 8]]]))
    by (vm_compute; reflexivity).
  split; [vm_compute; reflexivity|]. split; [exact H|].
  rewrite H. discriminate.
Qed.

(** With five records in the file the same page holds two records and is
    padded as intended. *)
Lemma get_data_two_record_page :
  (two_channel_file 10 ≫= fun f => get_data [f] 1 3 (str "ft"))
  = Ok (mk3 1 2 3 [[[SInt 7; SInt 9; SInt 0]; [SInt 8; SInt 10; SInt 0]]]).
Proof. vm_compute. reflexivity. Qed.

End Padding.

(** ** The run loop *)

Section RunLoop.
Import Py Np DadaFildb.

Lemma write_loop_no_end (turns : nat) (fbs : list SigprocFile.instance)
  (order : pystr) (pagesize npage : Z) (w : Writer) (page : Z) :
  npage <= page -> isEndOfData w = false -> EndOfData ∉ log w ->
  match write_loop turns fbs order pagesize npage w page with
  | Finished _ => False
  | Running w' p =>
      isEndOfData w' = false /\ (EndOfData ∉ log w')
      /\ p = page + Z.of_nat turns
      /\ length (log w') = (length (log w) + turns)%nat
  | Failed _ => True
  end.
Proof.
  revert w page. induction turns as [|turns IH]; intros w page Hp He Hl.
  - cbn. repeat split; try assumption; lia.
  - cbn [write_loop]. rewrite He.
    destruct (get_data fbs page pagesize order) as [d|e]; [|exact I].
    destruct (Z.eqb_spec (page + 1) npage) as [E|_]; [lia|].
    specialize (IH (fill w d) (page + 1) ltac:(lia) He).
    assert (Hl' : EndOfData ∉ log (fill w d)).
    { unfold fill. cbn [log]. intros Hin.
      apply elem_of_app in Hin as [Hin|Hin]; [exact (Hl Hin)|].
      apply list_elem_of_singleton in Hin. discriminate Hin. }
    specialize (IH Hl').
    destruct (write_loop turns fbs order pagesize npage (fill w d) (page + 1));
      try exact IH.
    destruct IH as (H1 & H2 & H3 & H4). repeat split; try assumption.
    + lia.
    + rewrite H4. unfold fill. cbn [log]. rewrite length_app. cbn. lia.
Qed.

(** C5: when the first file holds no record the page count is 0, and the
    test [page == npage] is made only after [page] has become 1: however
    many turns the loop is given, it has not finished, the end of data
    has not been marked, and one page per turn has been pushed (unless
    assembling a page raised). *)
Theorem write_pages_without_records (turns : nat)
  (fbs : list SigprocFile.instance) (order : pystr) (pagesize npage : Z) :
  page_count fbs pagesize = Ok npage ->
  npage <= 0 ->
  match write_pages turns fbs order pagesize connect with
  | Finished _ => False
  | Running w p =>
      isEndOfData w = false /\ (EndOfData ∉ log w)
      /\ p = Z.of_nat turns /\ length (log w) = turns
  | Failed _ => True
  end.
Proof.
  intros Hn Hle. unfold write_pages. rewrite Hn.
  pose proof (write_loop_no_end turns fbs order pagesize npage connect 0
                Hle eq_refl) as H.
  assert (Hl : EndOfData ∉ log connect) by (cbn; apply not_elem_of_nil).
  specialize (H Hl).
  destruct (write_loop turns fbs order pagesize npage connect 0);
    try exact H.
Qed.

(** [header_only] is what opening a file made of the header alone
    gives. *)
Lemma two_channel_file_header_only : two_channel_file 0 = Ok header_only.
Proof. vm_compute. reflexivity. Qed.

Lemma write_pages_without_records_witness :
  match write_pages 4 [header_only] (str "FT") 3 connect with
  | Finished _ => False
  | Running w p =>
      isEndOfData w = false /\ (EndOfData ∉ log w)
      /\ p = Z.of_nat 4 /\ length (log w) = 4%nat
  | Failed _ => True
  end.
Proof.
  apply (write_pages_without_records 4 [header_only] (str "FT") 3 0).
  - vm_compute. reflexivity.
  - lia.
Defined.

(** The run on the header-only file, observed after four turns: four
    pages of zeros pushed, no end of data. *)
Lemma write_pages_header_only :
  write_pages 4 [header_only] (str "FT") 3 connect
  = Running (mkWriter false [Page zero_page; Page zero_page; Page zero_page;
                             Page zero_page]) 4.
Proof. vm_compute. reflexivity. Qed.

Lemma Forall2_seq_shift {A} (P : nat -> A -> Prop) (a n : nat)
  (ds : list A) :
  Forall2 (fun j d => P (S j) d) (seq a n) ds ->
  Forall2 P (seq (S a) n) ds.
Proof.
  revert a ds. induction n as [|n IH]; intros a ds H.
  - inversion H. constructor.
  - cbn [seq] in *. inversion H as [|j d js ds' Hj Hrest]; subst.
    constructor; [exact Hj | apply IH; exact Hrest].
Qed.

(** With at least one page to write, and every page assembled without
    error, the loop pushes the pages 0 .. npage - 1 in order, marks the
    end of data after the last, and stops. *)
Lemma write_loop_completes (n : nat) (fbs : list SigprocFile.instance)
  (order : pystr) (pagesize : Z) (w : Writer) (page : Z) :
  isEndOfData w = false ->
  (forall j, (j <= n)%nat ->
     exists d, get_data fbs (page + Z.of_nat j) pagesize order = Ok d) ->
  exists ds,
    Forall2 (fun j d => get_data fbs (page + Z.of_nat j) pagesize order = Ok d)
            (seq 0 (S n)) ds
    /\ write_loop (S (S n)) fbs order pagesize (page + Z.of_nat (S n)) w page
       = Finished (mkWriter true (log w ++ map Page ds ++ [EndOfData])).
Proof.
  revert w page. induction n as [|n IH]; intros w page He Hall.
  - destruct (Hall O ltac:(lia)) as (d & Hd). exists [d]. split.
    + repeat constructor. exact Hd.
    + cbn [write_loop]. rewrite He.
      replace (page + Z.of_nat 0) with page in Hd by lia. rewrite Hd.
      replace (page + Z.of_nat 1) with (page + 1) by lia.
      rewrite Z.eqb_refl. cbn [write_loop]. unfold markEndOfData, fill.
      cbn [isEndOfData log map]. rewrite <- app_assoc. reflexivity.
  - destruct (Hall O ltac:(lia)) as (d & Hd).
    replace (page + Z.of_nat 0) with page in Hd by lia.
    destruct (IH (fill w d) (page + 1) He) as (ds & Hds & Hrun).
    { intros j Hj. destruct (Hall (S j) ltac:(lia)) as (d' & Hd').
      exists d'. rewrite <- Hd'. f_equal. lia. }
    exists (d :: ds). split.
    + change (seq 0 (S (S n))) with (O :: seq 1 (S n)). constructor.
      * replace (page + Z.of_nat 0) with page by lia. exact Hd.
      * apply Forall2_seq_shift.
        eapply Forall2_impl; [exact Hds|]. intros j d' Hj. cbn beta.
        rewrite <- Hj. f_equal. lia.
    + assert (Hnp : page + Z.of_nat (S (S n)) = page + 1 + Z.of_nat (S n))
        by lia.
      rewrite Hnp.
      change (write_loop (S (S (S n))) fbs order pagesize
                (page + 1 + Z.of_nat (S n)) w page)
        with (if isEndOfData w then Finished w
              else match get_data fbs page pagesize order with
                   | Raise e => Failed e
                   | Ok data =>
                       write_loop (S (S n)) fbs order pagesize
                         (page + 1 + Z.of_nat (S n))
                         (if page + 1 =? page + 1 + Z.of_nat (S n)
                          then markEndOfData (fill w data) else fill w data)
                         (page + 1)
                   end).
      rewrite He, Hd.
      destruct (Z.eqb_spec (page + 1) (page + 1 + Z.of_nat (S n))) as [E|_];
        [lia|].
      rewrite Hrun. unfold fill. cbn [log map].
      rewrite <- !app_assoc. reflexivity.
Qed.

(** X11: with at least one page to write, and every page of the run
    assembled without error, [dada_fildb] pushes the pages
    0 .. npage - 1 in order, marks the end of data after the last,
    leaves the loop and disconnects. *)
Lemma write_pages_completes (fbs : list SigprocFile.instance)
  (order : pystr) (pagesize npage : Z) :
  page_count fbs pagesize = Ok npage ->
  1 <= npage ->
  (forall p, 0 <= p < npage ->
     exists d, get_data fbs p pagesize order = Ok d) ->
  exists ds,
    Forall2 (fun j d => get_data fbs (Z.of_nat j) pagesize order = Ok d)
            (seq 0 (Z.to_nat npage)) ds
    /\ write_pages (S (Z.to_nat npage)) fbs order pagesize connect
       = Finished (mkWriter true (map Page ds ++ [EndOfData; Disconnect])).
Proof.
  intros Hn Hge Hall. unfold write_pages. rewrite Hn.
  destruct (Z.to_nat npage) as [|n] eqn:En; [lia|].
  destruct (write_loop_completes n fbs order pagesize connect 0 eq_refl)
    as (ds & Hds & Hrun).
  { intros j Hj. apply Hall. lia. }
  exists ds. split; [exact Hds|].
  replace (0 + Z.of_nat (S n)) with npage in Hrun by lia.
  rewrite Hrun. unfold disconnect, connect. cbn [log isEndOfData].
  rewrite app_nil_l, <- app_assoc. reflexivity.
Qed.

End RunLoop.

(** ** Whole numbers as floats *)

Section FloatInts.
Import Py.

Lemma Qred_inject_Z (z : Z) : Qred (inject_Z z) = inject_Z z.
Proof.
  apply Qcanon.Qred_iff. cbn. apply Z.gcd_1_r.
Qed.

Lemma mul_int_whole (s z : Z) :
  mul (PInt s) (PFloat (inject_Z z)) = PFloat (inject_Z (s * z)).
Proof.
  cbn. f_equal. rewrite <- (Qred_inject_Z (s * z)).
  apply Qred_complete. rewrite inject_Z_mult. reflexivity.
Qed.

Lemma add_int_whole (s z : Z) :
  add (PInt s) (PFloat (inject_Z z)) = PFloat (inject_Z (s + z)).
Proof.
  cbn. f_equal. rewrite <- (Qred_inject_Z (s + z)).
  apply Qred_complete. rewrite inject_Z_plus. reflexivity.
Qed.

Lemma add_whole_whole (s z : Z) :
  add (PFloat (inject_Z s)) (PFloat (inject_Z z)) = PFloat (inject_Z (s + z)).
Proof.
  cbn. f_equal. rewrite <- (Qred_inject_Z (s + z)).
  apply Qred_complete. rewrite inject_Z_plus. reflexivity.
Qed.

Lemma int_whole (z : Z) : int (PFloat (inject_Z z)) = z.
Proof. cbn. apply Z.quot_1_r. Qed.

Lemma truediv_exact (a b k : Z) :
  b <> 0 -> a = k * b ->
  truediv (PInt a) (PInt b) = Ok (PFloat (inject_Z k)).
Proof.
  intros Hb ->. unfold truediv. cbn [to_Q].
  assert (Hnz : ~ (inject_Z b == 0)%Q) by (unfold Qeq; cbn; lia).
  rewrite (proj2 (Qeq_bool_false_iff _ _) Hnz). do 2 f_equal.
  rewrite <- (Qred_inject_Z k). apply Qred_complete.
  rewrite inject_Z_mult. field. exact Hnz.
Qed.

End FloatInts.

(** ** Reading records *)

Section Reader.
Import Py SigprocFile Np.

Lemma chunks_seq {A} (k n : nat) (l : list A) :
  chunks k n l = map (fun i => take k (drop (i * k) l)) (seq 0 n).
Proof.
  revert l. induction n as [|n IH]; intros l; [reflexivity|].
  cbn [chunks seq map]. f_equal. rewrite <- seq_shift, map_map, IH.
  apply map_ext. intros i. rewrite drop_drop. reflexivity.
Qed.

Lemma drop_map_seq {A} (g : nat -> A) (a n i : nat) :
  drop i (map g (seq a n)) = map g (seq (a + i) (n - i)).
Proof.
  revert a i. induction n as [|n IH]; intros a i.
  - destruct i; reflexivity.
  - destruct i as [|i]; cbn [seq map drop].
    + rewrite Nat.add_0_r. reflexivity.
    + rewrite IH. do 2 f_equal; lia.
Qed.

Lemma take_map_seq {A} (g : nat -> A) (a n i : nat) :
  (i <= n)%nat -> take i (map g (seq a n)) = map g (seq a i).
Proof.
  revert a i. induction n as [|n IH]; intros a i Hi.
  - replace i with O by lia. reflexivity.
  - destruct i as [|i]; [reflexivity|]. cbn [seq map take]. f_equal.
    apply IH. lia.
Qed.

Lemma map_seq_shift {A} (g : nat -> A) (a n : nat) :
  map g (seq a n) = map (fun c => g (a + c)%nat) (seq 0 n).
Proof.
  revert a. induction n as [|n IH]; intros a; [reflexivity|].
  cbn [seq map]. rewrite Nat.add_0_r. f_equal.
  rewrite (IH (S a)), <- (seq_shift n 0), map_map.
  apply map_ext. intros c. f_equal. lia.
Qed.

(** Cutting a flat list of [k] records of [rec] items into rows of the
    first [C] items of each record. *)
Lemma rows_of_flat {A} (g : nat -> A) (k rec C : nat) :
  (C <= rec)%nat ->
  map (take C) (chunks rec k (map g (seq 0 (k * rec))))
  = map (fun j => map (fun c => g (j * rec + c)%nat) (seq 0 C)) (seq 0 k).
Proof.
  intros HC. rewrite chunks_seq, map_map. apply map_ext_in. intros j Hj.
  apply in_seq in Hj. rewrite drop_map_seq. cbn [Nat.add].
  assert (Hle : (rec <= k * rec - j * rec)%nat) by nia.
  rewrite take_map_seq by exact Hle.
  rewrite take_map_seq by exact HC.
  apply map_seq_shift.
Qed.

Lemma take_drop_take {A} (l : list A) (a n i w : nat) :
  (i + w <= n)%nat ->
  take w (drop i (take n (drop a l))) = take w (drop (a + i) l).
Proof.
  intros H. rewrite (take_drop_commute l n a), drop_drop.
  rewrite !take_drop_commute, take_take. do 2 f_equal. lia.
Qed.

Lemma slice_range {A} (l : list A) (lo hi : Z) :
  0 <= lo -> 0 <= hi ->
  slice l lo hi
  = take (Nat.min (Z.to_nat hi) (length l) - Nat.min (Z.to_nat lo) (length l))
         (drop (Nat.min (Z.to_nat lo) (length l)) l).
Proof.
  intros Hlo Hhi. unfold slice, adjust.
  destruct (Z.ltb_spec lo 0); [lia|]. destruct (Z.ltb_spec hi 0); [lia|].
  f_equal; [|f_equal]; lia.
Qed.

Lemma width_cases (nbits : Z) (dt : dtype) :
  width_of nbits = Some dt ->
  nbits = 8 * Z.of_nat (itemsize dt)
  /\ (1 <= itemsize dt)%nat
  /\ (forall f, attrs f !! str "nbits" = Some (VInt nbits) ->
                SigprocFile.dtype f = Ok dt).
Proof.
  unfold width_of, SigprocFile.dtype, getattr.
  destruct (Z.eqb_spec nbits 8) as [->|H8].
  { intros [= <-]. cbn. repeat split; try lia. intros f ->. reflexivity. }
  destruct (Z.eqb_spec nbits 16) as [->|H16].
  { intros [= <-]. cbn. repeat split; try lia. intros f ->. reflexivity. }
  destruct (Z.eqb_spec nbits 32) as [->|H32]; [|discriminate].
  intros [= <-]. cbn. repeat split; try lia. intros f ->. reflexivity.
Qed.

Lemma bytes_per_spectrum_opened (f : instance) (dt : dtype) (nifs C h : Z)
  (m : bytes) :
  opened_as f dt nifs C h m ->
  bytes_per_spectrum f = Ok (PFloat (inject_Z (record_bytes dt nifs C))).
Proof.
  intros ((nbits & Hb & Hw) & Hc & Hi & _).
  destruct (width_cases _ _ Hw) as (-> & _ & _).
  unfold bytes_per_spectrum, getattr, record_bytes. rewrite Hb, Hc, Hi.
  cbn [mbind result_bind as_int mul].
  apply truediv_exact; lia.
Qed.

(** [get_data] on an opened file: the slice of the mapping that is cut
    into samples and records. *)
Lemma get_data_slice (f : instance) (dt : dtype) (nifs C h : Z) (m : bytes)
  (s n : Z) :
  opened_as f dt nifs C h m ->
  SigprocFile.get_data f s n
  = (flat ← frombuffer
              (slice m (h + s * record_bytes dt nifs C)
                       (h + s * record_bytes dt nifs C
                        + n * record_bytes dt nifs C)) dt;
     reshape_first dt flat nifs C).
Proof.
  intros Hop.
  pose proof (bytes_per_spectrum_opened _ _ _ _ _ _ Hop) as Hbps.
  destruct Hop as ((nbits & Hb & Hw) & Hc & Hi & HC & HI & Hh & Hh0 & Hm).
  destruct (width_cases _ _ Hw) as (_ & _ & Hdt).
  unfold SigprocFile.get_data. rewrite Hbps. cbn [mbind result_bind].
  unfold get_hdrbytes, mmdata. rewrite Hh, Hm. cbn [mbind result_bind].
  rewrite !mul_int_whole, add_int_whole, add_whole_whole, !int_whole.
  rewrite (Hdt f Hb). cbn [mbind result_bind].
  unfold getattr. rewrite Hi, Hc. reflexivity.
Qed.

Lemma records_in_le (R : nat) (s n : Z) :
  (records_in R s n <= R - Nat.min (Z.to_nat s) R)%nat.
Proof. unfold records_in. lia. Qed.

Lemma records_in_pos (R : nat) (s n : Z) (j : nat) :
  (j < records_in R s n)%nat -> Nat.min (Z.to_nat s) R = Z.to_nat s.
Proof. unfold records_in. lia. Qed.

Lemma to_nat_affine (h s : Z) (B : nat) :
  0 <= h -> 0 <= s ->
  Z.to_nat (h + s * Z.of_nat B) = (Z.to_nat h + Z.to_nat s * B)%nat.
Proof.
  intros Hh Hs. apply Nat2Z.inj.
  assert (0 <= s * Z.of_nat B) by (apply Z.mul_nonneg_nonneg; lia).
  rewrite Z2Nat.id, Nat2Z.inj_add, Nat2Z.inj_mul, !Z2Nat.id by lia.
  reflexivity.
Qed.

Lemma span_bytes (hn a b B : nat) :
  (hn + a * B - (hn + b * B) = (a - b) * B)%nat.
Proof. rewrite Nat.mul_sub_distr_r. lia. Qed.

Lemma span_fits (hn k mn R B : nat) :
  (k <= R - mn)%nat -> (mn <= R)%nat ->
  Nat.min (k * B) (hn + R * B - (hn + mn * B)) = (k * B)%nat.
Proof.
  intros Hk Hm. rewrite span_bytes. apply Nat.min_l.
  apply Nat.mul_le_mono_r. exact Hk.
Qed.

Lemma item_in_block (j c k rec isz : nat) :
  (j < k)%nat -> (c < rec)%nat ->
  ((j * rec + c) * isz + isz <= k * (isz * rec))%nat.
Proof.
  intros Hj Hc.
  assert (H1 : (j * rec + c + 1 <= S j * rec)%nat) by (cbn; lia).
  assert (H2 : (S j * rec <= k * rec)%nat)
    by (apply Nat.mul_le_mono_r; lia).
  assert (H3 : ((j * rec + c + 1) * isz <= (k * rec) * isz)%nat)
    by (apply Nat.mul_le_mono_r; lia).
  replace ((j * rec + c) * isz + isz)%nat with ((j * rec + c + 1) * isz)%nat
    by lia.
  replace (k * (isz * rec))%nat with ((k * rec) * isz)%nat by lia.
  exact H3.
Qed.

Lemma record_bytes_nat (dt : dtype) (nifs C : Z) :
  0 < C -> 0 < nifs ->
  record_bytes dt nifs C
  = Z.of_nat (itemsize dt * Z.to_nat (nifs * C))
  /\ (1 <= Z.to_nat (nifs * C))%nat
  /\ (Z.to_nat C <= Z.to_nat (nifs * C))%nat.
Proof.
  intros HC HI. unfold record_bytes.
  rewrite Nat2Z.inj_mul, Z2Nat.id by nia. split; [ring|]. nia.
Qed.

(** [get_data] on a file of whole records: the block holds the records
    of the request that exist, each sample read from its offset. *)
Lemma get_data_whole (f : instance) (dt : dtype) (nifs C h : Z) (m : bytes)
  (R : nat) (s n : Z) :
  whole_file f dt nifs C h m R -> 0 <= s -> 0 <= n ->
  SigprocFile.get_data f s n
  = Ok (mk2 dt (records_in R s n) (Z.to_nat C)
          (map (fun j =>
                  map (fun c => sample_at dt nifs C h m (Z.to_nat s + j) c)
                      (seq 0 (Z.to_nat C)))
               (seq 0 (records_in R s n)))).
Proof.
  intros (Hop & Hlen) Hs Hn.
  rewrite (get_data_slice f dt nifs C h m s n Hop).
  destruct Hop as ((nbits & Hb & Hw) & Hc & Hi & HC & HI & Hh & Hh0 & Hm).
  destruct (width_cases _ _ Hw) as (_ & Hisz & _).
  destruct (record_bytes_nat dt nifs C HC HI) as (HB & Hrec & HCrec).
  set (isz := itemsize dt) in *.
  set (rec := Z.to_nat (nifs * C)) in *.
  set (k := records_in R s n).
  set (B := (isz * rec)%nat) in *.
  rewrite HB in *.
  assert (Hlen' : length m = (Z.to_nat h + R * B)%nat).
  { apply Nat2Z.inj. rewrite Hlen, Nat2Z.inj_add, Nat2Z.inj_mul, Z2Nat.id by lia.
    reflexivity. }
  assert (Hsb : 0 <= s * Z.of_nat B) by (apply Z.mul_nonneg_nonneg; lia).
  assert (Hnb : 0 <= n * Z.of_nat B) by (apply Z.mul_nonneg_nonneg; lia).
  rewrite slice_range by lia.
  assert (Hlo : Nat.min (Z.to_nat (h + s * Z.of_nat B)) (length m)
                = (Z.to_nat h + Nat.min (Z.to_nat s) R * B)%nat).
  { rewrite Hlen'.
    rewrite to_nat_affine by lia.
    rewrite Nat.add_min_distr_l, Nat.mul_min_distr_r. reflexivity. }
  assert (Hhi : Nat.min (Z.to_nat (h + s * Z.of_nat B + n * Z.of_nat B))
                        (length m)
                = (Z.to_nat h + Nat.min (Z.to_nat (s + n)) R * B)%nat).
  { rewrite Hlen'.
    replace (h + s * Z.of_nat B + n * Z.of_nat B)
      with (h + (s + n) * Z.of_nat B) by ring.
    rewrite to_nat_affine by lia.
    rewrite Nat.add_min_distr_l, Nat.mul_min_distr_r. reflexivity. }
  rewrite Hlo, Hhi.
  rewrite span_bytes. fold (records_in R s n). fold k.
  set (lo := (Z.to_nat h + Nat.min (Z.to_nat s) R * B)%nat).
  set (buf := take (k * B) (drop lo m)).
  assert (Hbuf : length buf = (k * B)%nat).
  { unfold buf. rewrite length_take, length_drop, Hlen'. unfold lo.
    apply span_fits; [apply records_in_le | apply Nat.le_min_r]. }
  unfold frombuffer. fold isz. rewrite Hbuf.
  replace (k * B)%nat with ((k * rec) * isz)%nat by (unfold B; lia).
  rewrite Nat.Div0.mod_mul. cbn [Nat.eqb mbind result_bind].
  rewrite Nat.div_mul by lia.
  rewrite chunks_seq, map_map.
  unfold reshape_first.
  destruct (Z.leb_spec nifs 0); [lia|]. destruct (Z.leb_spec C 0); [lia|].
  cbn [orb]. fold rec. rewrite length_map, length_seq.
  rewrite Nat.Div0.mod_mul. cbn [Nat.eqb negb].
  rewrite Nat.div_mul by lia.
  rewrite (rows_of_flat _ k rec (Z.to_nat C) HCrec).
  do 2 f_equal. apply map_ext_in. intros j Hj. apply in_seq in Hj.
  apply map_ext_in. intros c Hc'. apply in_seq in Hc'.
  unfold sample_at. fold isz rec. f_equal. unfold buf.
  replace ((k * rec) * isz)%nat with (k * (isz * rec))%nat by lia.
  rewrite take_drop_take by (apply item_in_block; lia).
  do 2 f_equal. unfold lo.
  rewrite (records_in_pos R s n j) by (fold k; lia).
  unfold B. lia.
Qed.

Lemma ragged_count (isz rec k extra : nat) :
  (0 < extra < isz * rec)%nat ->
  ((k * (isz * rec) + extra) mod isz = 0)%nat ->
  (((k * (isz * rec) + extra) / isz) mod rec <> 0)%nat.
Proof.
  intros Hx Hm Hq.
  assert (Hisz : (isz <> 0)%nat) by nia.
  assert (Hrec : (rec <> 0)%nat) by nia.
  apply Nat.Div0.div_exact in Hm. apply Nat.Div0.div_exact in Hq.
  set (q := ((k * (isz * rec) + extra) / isz)%nat) in *.
  set (t := (q / rec)%nat) in *.
  assert (Hx' : (extra + k * (isz * rec) = t * (isz * rec))%nat) by nia.
  destruct (Nat.le_gt_cases t k) as [Hle|Hgt].
  - assert ((t * (isz * rec) <= k * (isz * rec))%nat)
      by (apply Nat.mul_le_mono_r; exact Hle). lia.
  - assert ((S k * (isz * rec) <= t * (isz * rec))%nat)
      by (apply Nat.mul_le_mono_r; lia). cbn in *. lia.
Qed.

Lemma length_chunks {A} (k n : nat) (l : list A) : length (chunks k n l) = n.
Proof. rewrite chunks_seq, length_map, length_seq. reflexivity. Qed.

(** [get_data] on a file that ends inside a record: a request that
    starts within the file and reaches past its last whole record finds
    bytes that do not make whole records. *)
Lemma get_data_ragged (f : instance) (dt : dtype) (nifs C h : Z) (m : bytes)
  (R extra : nat) (s n : Z) :
  ragged_file f dt nifs C h m R extra ->
  0 <= s <= Z.of_nat R -> Z.of_nat R < s + n ->
  SigprocFile.get_data f s n = Raise ValueError.
Proof.
  intros (Hop & Hlen & Hextra) Hs Hn.
  rewrite (get_data_slice f dt nifs C h m s n Hop).
  destruct Hop as ((nbits & Hb & Hw) & Hc & Hi & HC & HI & Hh & Hh0 & Hm).
  destruct (width_cases _ _ Hw) as (_ & Hisz & _).
  destruct (record_bytes_nat dt nifs C HC HI) as (HB & Hrec & HCrec).
  set (isz := itemsize dt) in *.
  set (rec := Z.to_nat (nifs * C)) in *.
  set (B := (isz * rec)%nat) in *.
  rewrite HB in *.
  assert (Hlen' : length m = (Z.to_nat h + R * B + extra)%nat).
  { apply Nat2Z.inj.
    rewrite Hlen, !Nat2Z.inj_add, Nat2Z.inj_mul, Z2Nat.id by lia.
    reflexivity. }
  assert (Hsb : 0 <= s * Z.of_nat B) by (apply Z.mul_nonneg_nonneg; lia).
  assert (Hnb : 0 <= n * Z.of_nat B) by (apply Z.mul_nonneg_nonneg; lia).
  rewrite slice_range by lia.
  assert (HsR : (Z.to_nat s * B <= R * B)%nat)
    by (apply Nat.mul_le_mono_r; lia).
  assert (Hlo : Nat.min (Z.to_nat (h + s * Z.of_nat B)) (length m)
                = (Z.to_nat h + Z.to_nat s * B)%nat).
  { rewrite to_nat_affine by lia. apply Nat.min_l. lia. }
  assert (Hhi : Nat.min (Z.to_nat (h + s * Z.of_nat B + n * Z.of_nat B))
                        (length m)
                = length m).
  { replace (h + s * Z.of_nat B + n * Z.of_nat B)
      with (h + (s + n) * Z.of_nat B) by ring.
    rewrite to_nat_affine by lia. apply Nat.min_r.
    assert ((S R * B <= Z.to_nat (s + n) * B)%nat)
      by (apply Nat.mul_le_mono_r; lia).
    cbn in *. lia. }
  rewrite Hlo, Hhi.
  set (buf := take _ _).
  assert (Hbuf : length buf = ((R - Z.to_nat s) * B + extra)%nat).
  { unfold buf. rewrite length_take, length_drop, Hlen'.
    rewrite Nat.mul_sub_distr_r. lia. }
  unfold frombuffer. fold isz. rewrite Hbuf. fold B.
  destruct (Nat.eqb_spec (((R - Z.to_nat s) * B + extra) mod isz) 0)
    as [Hmod|Hmod]; [|reflexivity].
  cbn [mbind result_bind]. unfold reshape_first.
  destruct (Z.leb_spec nifs 0); [lia|]. destruct (Z.leb_spec C 0); [lia|].
  cbn [orb]. fold rec. rewrite length_map, length_chunks.
  assert (Hne : ((((R - Z.to_nat s) * B + extra) / isz) mod rec <> 0)%nat).
  { apply ragged_count; [|exact Hmod]. fold B. lia. }
  destruct (Nat.eqb_spec ((((R - Z.to_nat s) * B + extra) / isz) mod rec) 0);
    [contradiction|]. reflexivity.
Qed.

Lemma ragged_file_nrecords (f : instance) (dt : dtype) (nifs C h : Z)
  (m : bytes) (R extra : nat) :
  ragged_file f dt nifs C h m R extra -> nrecords f = R.
Proof.
  intros (((nbits & Hb & Hw) & Hc & Hi & HC & HI & Hh & Hh0 & Hm) & Hlen
          & Hextra).
  destruct (record_bytes_nat dt nifs C HC HI) as (HB & _).
  rewrite HB in *.
  unfold nrecords, int_attr. rewrite Hb, Hc, Hi, Hw, Hh, Hm.
  set (B := (itemsize dt * Z.to_nat (nifs * C))%nat) in *.
  replace (length m - Z.to_nat h)%nat with (R * B + extra)%nat by lia.
  rewrite Nat.div_add_l by lia. rewrite Nat.div_small by lia. lia.
Qed.

Lemma whole_file_nrecords (f : instance) (dt : dtype) (nifs C h : Z)
  (m : bytes) (R : nat) :
  whole_file f dt nifs C h m R ->
  sample f = sample_at dt nifs C h m /\ nrecords f = R
  /\ SigprocFile.dtype f = Ok dt.
Proof.
  intros (((nbits & Hb & Hw) & Hc & Hi & HC & HI & Hh & Hh0 & Hm) & Hlen).
  destruct (record_bytes_nat dt nifs C HC HI) as (HB & Hrec & _).
  rewrite HB in *.
  destruct (width_cases _ _ Hw) as (_ & Hisz & Hdt).
  unfold sample, nrecords, int_attr. rewrite Hb, Hc, Hi, Hw, Hh, Hm.
  split; [reflexivity|]. split; [|exact (Hdt f Hb)].
  assert (HB0 : (itemsize dt * Z.to_nat (nifs * C) <> 0)%nat)
    by (apply Nat.neq_mul_0; lia).
  set (B := (itemsize dt * Z.to_nat (nifs * C))%nat) in *.
  replace (length m - Z.to_nat h)%nat with (R * B)%nat by lia.
  apply Nat.div_mul. exact HB0.
Qed.

(** X4: reading records from a file of whole records: [get_data] returns
    the records of the request that the file has, one row per record
    and one column per channel of the first subband, each sample decoded
    from its place in the mapping; records beyond the end are left out
    without error. *)
Theorem get_data_records (f : instance) (C s n : Z) :
  whole C f -> 0 <= s -> 0 <= n ->
  exists dt,
    SigprocFile.dtype f = Ok dt
    /\ SigprocFile.get_data f s n
       = Ok (mk2 dt (records_in (nrecords f) s n) (Z.to_nat C)
               (map (fun j =>
                       map (fun c => sample f (Z.to_nat s + j) c)
                           (seq 0 (Z.to_nat C)))
                    (seq 0 (records_in (nrecords f) s n)))).
Proof.
  intros (dt & nifs & h & m & R & Hwf) Hs Hn. exists dt.
  destruct (whole_file_nrecords _ _ _ _ _ _ _ Hwf) as (-> & -> & Hdt).
  split; [exact Hdt|]. apply get_data_whole; assumption.
Qed.

Lemma three_records_whole : whole 2 (opened two_channel_header 6).
Proof.
  exists uint8, 1, (Z.of_nat (length (header_bytes two_channel_header))),
    (header_bytes two_channel_header ++ sample_data 6), 3%nat.
  split; [split; [|repeat split; try reflexivity; lia]|].
  - exists 8. split; reflexivity.
  - vm_compute. reflexivity.
Defined.

Lemma two_records_whole : whole 2 (opened two_channel_header 4).
Proof.
  exists uint8, 1, (Z.of_nat (length (header_bytes two_channel_header))),
    (header_bytes two_channel_header ++ sample_data 4), 2%nat.
  split; [split; [|repeat split; try reflexivity; lia]|].
  - exists 8. split; reflexivity.
  - vm_compute. reflexivity.
Defined.

Lemma get_data_records_witness :
  exists dt,
    SigprocFile.dtype (opened two_channel_header 6) = Ok dt
    /\ SigprocFile.get_data (opened two_channel_header 6) 1 5
       = Ok (mk2 dt (records_in (nrecords (opened two_channel_header 6)) 1 5)
               (Z.to_nat 2)
               (map (fun j =>
                       map (fun c => sample (opened two_channel_header 6)
                                       (Z.to_nat 1 + j) c)
                           (seq 0 (Z.to_nat 2)))
                    (seq 0 (records_in
                              (nrecords (opened two_channel_header 6)) 1 5)))).
Proof.
  apply (get_data_records (opened two_channel_header 6) 2 1 5).
  - exact three_records_whole.
  - lia.
  - lia.
Defined.

(** X5: a file that ends inside a record: a request that starts within the
    whole records and reaches past the last of them raises
    [ValueError]; the bytes left do not make records. *)
Theorem get_data_partial_record (f : instance) (C s n : Z) :
  ragged C f ->
  0 <= s <= Z.of_nat (nrecords f) -> Z.of_nat (nrecords f) < s + n ->
  SigprocFile.get_data f s n = Raise ValueError.
Proof.
  intros (dt & nifs & h & m & R & extra & Hrf).
  rewrite (ragged_file_nrecords _ _ _ _ _ _ _ _ Hrf). intros Hs Hn.
  exact (get_data_ragged f dt nifs C h m R extra s n Hrf Hs Hn).
Qed.

Lemma five_bytes_ragged : ragged 2 (opened two_channel_header 5).
Proof.
  exists uint8, 1, (Z.of_nat (length (header_bytes two_channel_header))),
    (header_bytes two_channel_header ++ sample_data 5), 2%nat, 1%nat.
  split; [split; [|repeat split; try reflexivity; lia]|split].
  - exists 8. split; reflexivity.
  - vm_compute. reflexivity.
  - vm_compute. split; reflexivity.
Defined.

Lemma get_data_partial_record_witness :
  SigprocFile.get_data (opened two_channel_header 5) 2 2 = Raise ValueError.
Proof.
  apply (get_data_partial_record (opened two_channel_header 5) 2 2 2).
  - exact five_bytes_ragged.
  - vm_compute. split; discriminate.
  - vm_compute. reflexivity.
Defined.

(** X6: a sample width other than 8, 16 or 32 bits: [get_data] raises
    [RuntimeError] for every request. *)
Theorem get_data_unsupported_width (f : instance) (nbits C nifs h : Z)
  (m : bytes) (s n : Z) :
  attrs f !! str "nbits" = Some (VInt nbits) ->
  nbits <> 8 -> nbits <> 16 -> nbits <> 32 ->
  attrs f !! str "nchans" = Some (VInt C) ->
  attrs f !! str "nifs" = Some (VInt nifs) ->
  hdrbytes f = Some h -> _mmdata f = Some m ->
  SigprocFile.get_data f s n = Raise RuntimeError.
Proof.
  intros Hb H8 H16 H32 Hc Hi Hh Hm.
  unfold SigprocFile.get_data, bytes_per_spectrum, getattr.
  rewrite Hb, Hc, Hi. cbn [mbind result_bind as_int mul].
  destruct (truediv_int (nbits * C * nifs) 8 ltac:(lia)) as (q & -> & _).
  cbn [mbind result_bind].
  unfold get_hdrbytes, mmdata. rewrite Hh, Hm. cbn [mbind result_bind].
  unfold SigprocFile.dtype, getattr. rewrite Hb.
  cbn [mbind result_bind as_int].
  destruct (Z.eqb_spec nbits 8); [contradiction|].
  destruct (Z.eqb_spec nbits 16); [contradiction|].
  destruct (Z.eqb_spec nbits 32); [contradiction|]. reflexivity.
Qed.

Lemma get_data_unsupported_width_witness :
  SigprocFile.get_data (opened four_bit_header 4) 0 1 = Raise RuntimeError.
Proof.
  apply (get_data_unsupported_width (opened four_bit_header 4) 4 4 1
           (Z.of_nat (length (header_bytes four_bit_header)))
           (header_bytes four_bit_header ++ sample_data 4) 0 1);
    first [reflexivity | lia].
Defined.

End Reader.

(** ** Pages of whole records *)

Section Assembly.
Import Py SigprocFile Np DadaFildb.

Lemma rev_seq (n : nat) :
  rev (seq 0 n) = map (fun c => (n - 1 - c)%nat) (seq 0 n).
Proof.
  induction n as [|n IH]; [reflexivity|].
  assert (Hl : rev (seq 0 (S n)) = n :: rev (seq 0 n)).
  { rewrite seq_S, rev_app_distr. reflexivity. }
  rewrite Hl, IH. cbn [seq map]. f_equal; [lia|].
  rewrite <- seq_shift, map_map. apply map_ext_in.
  intros c Hc. apply in_seq in Hc. lia.
Qed.

Lemma rev_map_seq {A} (g : nat -> A) (n : nat) :
  rev (map g (seq 0 n)) = map (fun c => g (n - 1 - c)%nat) (seq 0 n).
Proof. rewrite <- map_rev, rev_seq, map_map. reflexivity. Qed.

Lemma cell_of_table (dt : dtype) (r c : nat) (g : nat -> nat -> scalar)
  (i j : nat) :
  (i < r)%nat -> (j < c)%nat ->
  cell (mk2 dt r c (map (fun x => map (fun y => g x y) (seq 0 c)) (seq 0 r)))
       i j = g i j.
Proof.
  intros Hi Hj. unfold cell. cbn [rows].
  rewrite (nth_map_seq _ r i) by exact Hi.
  apply nth_map_seq. exact Hj.
Qed.

(** The oriented block of a table of [k] records by [C] channels, for an
    order that transposes. *)
Lemma orient_table (order : pystr) (dt : dtype) (k C : nat)
  (g : nat -> nat -> scalar) :
  upper order = str "FT" ->
  orient order
    (mk2 dt k C (map (fun t => map (fun c => g t c) (seq 0 C)) (seq 0 k)))
  = mk2 dt C k
      (map (fun c =>
              map (fun t => g t (if contains_char 0x46 order
                                 then (C - 1 - c)%nat else c))
                  (seq 0 k))
           (seq 0 C)).
Proof.
  intros Hft. unfold orient, str_eqb.
  rewrite (bool_decide_eq_true_2 _ Hft).
  assert (Ht : transpose
                 (mk2 dt k C
                    (map (fun t => map (fun c => g t c) (seq 0 C)) (seq 0 k)))
               = mk2 dt C k
                   (map (fun c => map (fun t => g t c) (seq 0 k)) (seq 0 C))).
  { unfold transpose. cbn [dt2 shape0 shape1]. f_equal.
    apply map_ext_in. intros c Hc. apply in_seq in Hc.
    apply map_ext_in. intros t Ht. apply in_seq in Ht.
    apply cell_of_table; lia. }
  rewrite Ht. destruct (contains_char 70 order); [|reflexivity].
  unfold flip. cbn [dt2 shape0 shape1 rows]. f_equal.
  apply (rev_map_seq (fun c => map (fun t => g t c) (seq 0 k))).
Qed.

Lemma replicate_map_seq {A} (x : A) (n a : nat) :
  replicate n x = map (fun _ => x) (seq a n).
Proof.
  revert a. induction n as [|n IH]; intros a; [reflexivity|].
  cbn [replicate seq map]. f_equal. apply IH.
Qed.

Lemma pad_map_seq {A} (g : nat -> A) (z : A) (k p : nat) :
  (k <= p)%nat ->
  map g (seq 0 k) ++ drop k (replicate p z)
  = map (fun t => if (t <? k)%nat then g t else z) (seq 0 p).
Proof.
  intros Hk. replace p with (k + (p - k))%nat at 2 by lia.
  rewrite seq_app, map_app. f_equal.
  - apply map_ext_in. intros t Ht. apply in_seq in Ht.
    destruct (Nat.ltb_spec t k); [reflexivity|lia].
  - rewrite drop_replicate, (replicate_map_seq z (p - k) (0 + k)).
    apply map_ext_in. intros t Ht. apply in_seq in Ht.
    destruct (Nat.ltb_spec t k); [lia|reflexivity].
Qed.

Lemma records_in_count (R : nat) (s n : Z) :
  0 <= s -> 0 <= n -> (records_in R s n <= Z.to_nat n)%nat.
Proof. intros Hs Hn. unfold records_in. lia. Qed.

Lemma nth_replicate_same {A} (n x : nat) (v : A) :
  nth x (replicate n v) v = v.
Proof.
  revert x. induction n as [|n IH]; intros [|x]; cbn; auto.
Qed.

(** Storing an oriented block of [k] records in a plane of zeros. *)
Lemma store_table (data : ndarray3) (i k : nat) (dt : dtype)
  (G : nat -> nat -> scalar) :
  (k <= dim2 data)%nat ->
  nth i (planes data) []
  = replicate (dim1 data) (replicate (dim2 data) zero) ->
  store data i
    (mk2 dt (dim1 data) k
       (map (fun c => map (fun t => G c t) (seq 0 k)) (seq 0 (dim1 data))))
  = Ok (mk3 (dim0 data) (dim1 data) (dim2 data)
          (<[i := map (fun c =>
                         map (fun t =>
                                if (k =? 1)%nat && (1 <? dim2 data)%nat
                                then G c O
                                else if (t <? k)%nat then G c t else zero)
                             (seq 0 (dim2 data)))
                      (seq 0 (dim1 data))]> (planes data))).
Proof.
  intros Hk Hold.
  set (a := mk2 dt (dim1 data) k
              (map (fun c => map (fun t => G c t) (seq 0 k))
                   (seq 0 (dim1 data)))).
  assert (Hcell : forall c t, (c < dim1 data)%nat -> (t < k)%nat ->
                    cell a c t = G c t).
  { intros c t Hc Ht. apply cell_of_table; assumption. }
  destruct (Nat.eq_dec k (dim2 data)) as [Heq|Hne].
  - unfold store, setitem.
    rewrite (broadcast_same (dim1 data) (dim2 data) a eq_refl)
      by (cbn; exact Heq).
    cbn [mbind result_bind]. do 3 f_equal.
    apply map_ext_in. intros c Hc. apply in_seq in Hc.
    apply map_ext_in. intros t Ht. apply in_seq in Ht.
    rewrite Hcell by lia.
    destruct (Nat.eqb_spec k 1) as [H1|H1];
      destruct (Nat.ltb_spec 1 (dim2 data)) as [H2|H2]; cbn [andb];
      try lia; destruct (Nat.ltb_spec t k); try reflexivity; lia.
  - destruct (Nat.eq_dec k 1%nat) as [H1|H1].
    + rewrite (store_broadcasts_single_record data i a eq_refl)
        by (cbn; exact H1).
      do 3 f_equal. apply map_ext_in. intros c Hc. apply in_seq in Hc.
      rewrite (replicate_map_seq _ _ 0). apply map_ext. intros t.
      rewrite Hcell by lia.
      destruct (Nat.eqb_spec k 1); [|lia].
      destruct (Nat.ltb_spec 1 (dim2 data)); [reflexivity|lia].
    + rewrite (store_pads_short_read data i k a eq_refl eq_refl)
        by (try lia; rewrite Hold; apply length_replicate).
      do 3 f_equal. apply map_ext_in. intros c Hc. apply in_seq in Hc.
      rewrite Hold.
      rewrite (nth_indep _ [] (replicate (dim2 data) zero))
        by (rewrite length_replicate; lia).
      rewrite nth_replicate_same.
      assert (Hrow : map (fun y => cell a c y) (seq 0 k)
                     = map (fun t => G c t) (seq 0 k)).
      { apply map_ext_in. intros t Ht. apply in_seq in Ht.
        apply Hcell; lia. }
      rewrite Hrow, pad_map_seq by exact Hk.
      apply map_ext. intros t.
      destruct (Nat.eqb_spec k 1); [lia|]. reflexivity.
Qed.

Lemma beam_stored (f : instance) (C page pagesize : Z) (order : pystr)
  (data : ndarray3) (i : nat) :
  whole C f -> upper order = str "FT" -> 0 <= page -> 0 <= pagesize ->
  dim1 data = Z.to_nat C -> dim2 data = Z.to_nat pagesize ->
  nth i (planes data) []
  = replicate (dim1 data) (replicate (dim2 data) zero) ->
  (SigprocFile.get_data f (page * pagesize) pagesize
   ≫= fun fil_data => store data i (orient order fil_data))
  = Ok (mk3 (dim0 data) (dim1 data) (dim2 data)
          (<[i := page_plane f C page pagesize (contains_char 0x46 order)]>
             (planes data))).
Proof.
  intros (dt & nifs & h & m & R & Hwf) Hft Hpage Hsize H1 H2 Hold.
  destruct (whole_file_nrecords _ _ _ _ _ _ _ Hwf) as (Hsample & HR & _).
  assert (Hs : 0 <= page * pagesize) by (apply Z.mul_nonneg_nonneg; lia).
  rewrite (get_data_whole f dt nifs C h m R _ _ Hwf Hs Hsize).
  cbn [mbind result_bind].
  rewrite (orient_table order dt (records_in R (page * pagesize) pagesize)
             (Z.to_nat C)
             (fun t c => sample_at dt nifs C h m
                           (Z.to_nat (page * pagesize) + t) c) Hft).
  rewrite <- H1.
  rewrite (store_table data i _ dt
             (fun c t => sample_at dt nifs C h m
                           (Z.to_nat (page * pagesize) + t)
                           (if contains_char 70 order
                            then (dim1 data - 1 - c)%nat else c)))
    by (try exact Hold; rewrite H2; apply records_in_count; lia).
  do 3 f_equal. unfold page_plane. rewrite <- H1, <- H2.
  apply map_ext. intros c. apply map_ext. intros t.
  unfold page_cell. rewrite HR, Hsample, <- H1, <- H2, Nat.add_0_r.
  reflexivity.
Qed.

Lemma fill_beams_planes (C page pagesize : Z) (order : pystr)
  (fbs : list instance) :
  Forall (whole C) fbs -> upper order = str "FT" ->
  0 <= page -> 0 <= pagesize ->
  forall (done : list (list (list scalar))) (data : ndarray3),
    dim1 data = Z.to_nat C -> dim2 data = Z.to_nat pagesize ->
    planes data
    = done ++ replicate (length fbs)
                (replicate (dim1 data) (replicate (dim2 data) zero)) ->
    fill_beams page pagesize order (length done) fbs data
    = Ok (mk3 (dim0 data) (dim1 data) (dim2 data)
            (done ++ map (fun f => page_plane f C page pagesize
                                     (contains_char 0x46 order)) fbs)).
Proof.
  intros Hall Hft Hpage Hsize.
  induction Hall as [|f fbs Hf Hall IH]; intros done data H1 H2 Hpl.
  - cbn [fill_beams map]. cbn in Hpl. rewrite <- Hpl.
    destruct data. reflexivity.
  - cbn [fill_beams]. cbn [length replicate] in Hpl.
    assert (Hold : nth (length done) (planes data) []
                   = replicate (dim1 data) (replicate (dim2 data) zero)).
    { rewrite Hpl. apply nth_middle. }
    pose proof (beam_stored f C page pagesize order data (length done)
                  Hf Hft Hpage Hsize H1 H2 Hold) as Hst.
    destruct (SigprocFile.get_data f (page * pagesize) pagesize)
      as [fil|e]; cbn [mbind result_bind] in Hst |- *; [|discriminate Hst].
    rewrite Hst. cbn [mbind result_bind].
    set (pl := page_plane f C page pagesize (contains_char 70 order)).
    assert (Hins : <[length done := pl]> (planes data)
                   = (done ++ [pl])
                     ++ replicate (length fbs)
                          (replicate (dim1 data) (replicate (dim2 data) zero))).
    { rewrite Hpl, insert_app_r_alt by lia.
      rewrite Nat.sub_diag. cbn. rewrite <- app_assoc. reflexivity. }
    specialize (IH (done ++ [pl])
                  (mk3 (dim0 data) (dim1 data) (dim2 data)
                       (<[length done := pl]> (planes data))) H1 H2 Hins).
    rewrite length_app in IH. cbn [length] in IH.
    rewrite Nat.add_1_r in IH. rewrite IH. cbn [dim0 dim1 dim2 map].
    rewrite <- app_assoc. reflexivity.
Qed.

(** X8: page assembly for an order that transposes, on files of whole
    records that share the channel count: every beam's plane is the
    page of its file. *)
Theorem get_data_page (C page pagesize : Z) (order : pystr)
  (f : instance) (rest : list instance) :
  Forall (whole C) (f :: rest) -> upper order = str "FT" ->
  0 <= page -> 0 <= pagesize ->
  get_data (f :: rest) page pagesize order
  = Ok (mk3 (length (f :: rest)) (Z.to_nat C) (Z.to_nat pagesize)
          (map (fun f => page_plane f C page pagesize
                           (contains_char 0x46 order)) (f :: rest))).
Proof.
  intros Hall Hft Hpage Hsize. unfold get_data.
  cbn [mbind result_bind].
  assert (Hf : whole C f) by (inversion Hall; assumption).
  destruct Hf as (dt & nifs & h & m & R & Hwf).
  destruct Hwf as ((_ & Hc & _ & HC & _) & _).
  unfold getattr. rewrite Hc. cbn [mbind result_bind as_int].
  unfold zeros.
  destruct (Z.ltb_spec (Z.of_nat (length (f :: rest))) 0); [lia|].
  destruct (Z.ltb_spec C 0); [lia|].
  destruct (Z.ltb_spec pagesize 0); [lia|]. cbn [orb mbind result_bind].
  rewrite Nat2Z.id.
  apply (fill_beams_planes C page pagesize order (f :: rest) Hall Hft
           Hpage Hsize []); reflexivity.
Qed.

Lemma two_beams_whole :
  Forall (whole 2) [opened two_channel_header 6; opened two_channel_header 4].
Proof.
  repeat constructor; [exact three_records_whole | exact two_records_whole].
Defined.

Lemma get_data_page_witness :
  get_data [opened two_channel_header 6; opened two_channel_header 4] 1 2
           (str "FT")
  = Ok (mk3 (length [opened two_channel_header 6; opened two_channel_header 4])
          (Z.to_nat 2) (Z.to_nat 2)
          (map (fun f => page_plane f 2 1 2 (contains_char 0x46 (str "FT")))
               [opened two_channel_header 6; opened two_channel_header 4])).
Proof.
  apply (get_data_page 2 1 2 (str "FT")).
  - exact two_beams_whole.
  - reflexivity.
  - lia.
  - lia.
Defined.

Lemma get_data_first_file (f : instance) (rest : list instance)
  (page pagesize : Z) (order : pystr) (C : Z) (e : exn) :
  attrs f !! str "nchans" = Some (VInt C) -> 0 <= C -> 0 <= pagesize ->
  (SigprocFile.get_data f (page * pagesize) pagesize
   ≫= fun fil_data =>
        store (mk3 (S (length rest)) (Z.to_nat C) (Z.to_nat pagesize)
                 (replicate (S (length rest))
                    (replicate (Z.to_nat C)
                       (replicate (Z.to_nat pagesize) zero))))
              0 (orient order fil_data))
  = Raise e ->
  get_data (f :: rest) page pagesize order = Raise e.
Proof.
  intros Hc HC HP Hfirst. unfold get_data. cbn [mbind result_bind].
  unfold getattr. rewrite Hc. cbn [mbind result_bind as_int]. unfold zeros.
  destruct (Z.ltb_spec (Z.of_nat (length (f :: rest))) 0); [lia|].
  destruct (Z.ltb_spec C 0); [lia|].
  destruct (Z.ltb_spec pagesize 0); [lia|]. cbn [orb mbind result_bind].
  rewrite Nat2Z.id. cbn [fill_beams length].
  destruct (SigprocFile.get_data f (page * pagesize) pagesize) as [fil|e'];
    cbn [mbind result_bind] in *; [|exact Hfirst].
  rewrite Hfirst. reflexivity.
Qed.

(** X10: the page that reaches past the whole records of a first file which
    ends inside a record is not assembled: the reader's [ValueError] is
    raised outside the [try] statement. *)
Theorem page_past_partial_record (f : instance) (rest : list instance)
  (C page pagesize : Z) (order : pystr) :
  ragged C f -> 0 <= page -> 0 <= pagesize ->
  page * pagesize <= Z.of_nat (nrecords f) < page * pagesize + pagesize ->
  get_data (f :: rest) page pagesize order = Raise ValueError.
Proof.
  intros (dt & nifs & h & m & R & extra & Hrf) Hpage Hsize Hr.
  rewrite (ragged_file_nrecords _ _ _ _ _ _ _ _ Hrf) in Hr.
  assert (Hs : 0 <= page * pagesize) by (apply Z.mul_nonneg_nonneg; lia).
  pose proof (get_data_ragged f dt nifs C h m R extra (page * pagesize)
                pagesize Hrf ltac:(lia) ltac:(lia)) as Hg.
  destruct Hrf as ((_ & Hc & _ & HC & _) & _).
  apply (get_data_first_file f rest page pagesize order C ValueError Hc);
    try lia.
  rewrite Hg. reflexivity.
Qed.

Lemma page_past_partial_record_witness :
  get_data [opened two_channel_header 5] 1 2 (str "FT") = Raise ValueError.
Proof.
  apply (page_past_partial_record (opened two_channel_header 5) [] 2 1 2
           (str "FT")).
  - exact five_bytes_ragged.
  - lia.
  - lia.
  - vm_compute. split; [discriminate | reflexivity].
Defined.

Lemma store_mismatch (data : ndarray3) (i : nat) (a : ndarray2) :
  shape0 a <> dim1 data -> shape0 a <> 1%nat ->
  store data i a = Raise ValueError.
Proof.
  intros H0 H1. unfold store, setitem, setitem_head, broadcast_to.
  destruct (Nat.eqb_spec (shape0 a) (dim1 data)); [contradiction|].
  destruct (Nat.eqb_spec (shape0 a) 1); [contradiction|]. reflexivity.
Qed.

(** X9: an order that does not spell FT, in either case of its letters,
    leaves the block of the file untransposed. A full page of a file
    whose channel count differs from the page size then fits neither
    the plane nor its head, and the second [ValueError] is not
    caught. *)
Theorem get_data_untransposed (f : instance) (rest : list instance)
  (C page pagesize : Z) (order : pystr) :
  whole C f -> upper order <> str "FT" ->
  0 <= page -> 1 < pagesize -> pagesize <> C ->
  page * pagesize + pagesize <= Z.of_nat (nrecords f) ->
  get_data (f :: rest) page pagesize order = Raise ValueError.
Proof.
  intros (dt & nifs & h & m & R & Hwf) Hft Hpage Hsize Hne Hfull.
  destruct (whole_file_nrecords _ _ _ _ _ _ _ Hwf) as (_ & HR & _).
  rewrite HR in Hfull.
  assert (Hs : 0 <= page * pagesize) by (apply Z.mul_nonneg_nonneg; lia).
  pose proof (get_data_whole f dt nifs C h m R (page * pagesize) pagesize
                Hwf Hs ltac:(lia)) as Hg.
  assert (Hk : records_in R (page * pagesize) pagesize = Z.to_nat pagesize).
  { unfold records_in. lia. }
  rewrite Hk in Hg.
  destruct Hwf as ((_ & Hc & _ & HC & _) & _).
  apply (get_data_first_file f rest page pagesize order C ValueError Hc);
    try lia.
  rewrite Hg. cbn [mbind result_bind].
  apply store_mismatch; unfold orient;
    rewrite (str_eqb_false _ _ Hft);
    destruct (contains_char 70 order); cbn [flip shape0 dim1]; lia.
Qed.

Lemma get_data_untransposed_witness :
  get_data [opened two_channel_header 6] 0 3 (str "TF") = Raise ValueError.
Proof.
  apply (get_data_untransposed (opened two_channel_header 6) [] 2 0 3
           (str "TF")).
  - exact three_records_whole.
  - discriminate.
  - lia.
  - lia.
  - lia.
  - vm_compute. discriminate.
Defined.

End Assembly.

(** ** The run on whole records *)

Section Run.
Import Py SigprocFile Np DadaFildb.

Lemma nspectra_whole (f : instance) (dt : dtype) (nifs C h : Z) (m : bytes)
  (R : nat) :
  whole_file f dt nifs C h m R ->
  nspectra f = Ok (PFloat (inject_Z (Z.of_nat R))).
Proof.
  intros Hwf.
  destruct Hwf as (Hop & Hlen).
  pose proof (bytes_per_spectrum_opened _ _ _ _ _ _ Hop) as Hbps.
  destruct Hop as ((nbits & Hb & Hw) & Hc & Hi & HC & HI & Hh & Hh0 & Hm).
  destruct (width_cases _ _ Hw) as (_ & Hisz & _).
  unfold nspectra, mmdata, get_hdrbytes. rewrite Hm, Hh, Hbps.
  cbn [mbind result_bind sub].
  change (truediv (PInt (Z.of_nat (length m) - h))
            (PFloat (inject_Z (record_bytes dt nifs C))))
    with (truediv (PInt (Z.of_nat (length m) - h))
            (PInt (record_bytes dt nifs C))).
  apply truediv_exact; [unfold record_bytes; nia | lia].
Qed.

Lemma ceil_quotient (r p : Z) :
  0 < p ->
  ceil (PFloat (Qred (inject_Z r / inject_Z p))) = (r + p - 1) / p.
Proof.
  intros Hp. cbn [ceil]. rewrite (Qceiling_comp _ _ (Qred_correct _)).
  destruct p as [|p|p]; try lia.
  unfold Qceiling, Qfloor, Qdiv, Qinv, Qmult, Qopp, inject_Z. cbn.
  rewrite Z.mul_1_r. change (1 * p)%positive with p.
  apply (Z.div_unique _ _ _ (Z.pos p - 1 - (- r) mod Z.pos p)).
  - pose proof (Z.mod_pos_bound (- r) (Z.pos p) ltac:(lia)). lia.
  - pose proof (Z.div_mod (- r) (Z.pos p) ltac:(lia)). lia.
Qed.

Lemma page_count_whole (f : instance) (rest : list instance) (C P : Z) :
  whole C f -> 0 < P ->
  page_count (f :: rest) P = Ok ((Z.of_nat (nrecords f) + P - 1) / P).
Proof.
  intros (dt & nifs & h & m & R & Hwf) HP.
  destruct (whole_file_nrecords _ _ _ _ _ _ _ Hwf) as (_ & -> & _).
  unfold page_count. cbn [mbind result_bind].
  rewrite (nspectra_whole _ _ _ _ _ _ _ Hwf). cbn [mbind result_bind].
  unfold truediv. cbn [to_Q].
  assert (Hnz : ~ (inject_Z P == 0)%Q) by (unfold Qeq; cbn; lia).
  rewrite (proj2 (Qeq_bool_false_iff _ _) Hnz). cbn [mbind result_bind].
  f_equal. apply ceil_quotient. exact HP.
Qed.

Lemma Forall2_seq_fun {A} (g : nat -> A) (Q : nat -> A -> Prop) (a n : nat)
  (ds : list A) :
  (forall j d, (a <= j < a + n)%nat -> Q j d -> d = g j) ->
  Forall2 Q (seq a n) ds -> ds = map g (seq a n).
Proof.
  revert a ds. induction n as [|n IH]; intros a ds Hg H.
  - inversion H. reflexivity.
  - cbn [seq] in *. inversion H as [|j d js ds' Hj Hrest]; subst.
    cbn [map]. f_equal.
    + apply Hg; [lia | exact Hj].
    + apply IH; [|exact Hrest]. intros j d' Hr. apply Hg. lia.
Qed.

(** X12: the whole run on files of whole records, for an order that
    transposes: as many pages as the records of the first file need,
    each the page of every file, then the end of data, then the
    disconnect. *)
Theorem write_pages_whole_files (C P : Z) (order : pystr) (f : instance)
  (rest : list instance) :
  Forall (whole C) (f :: rest) -> upper order = str "FT" ->
  1 <= P -> (1 <= nrecords f)%nat ->
  write_pages (S (Z.to_nat ((Z.of_nat (nrecords f) + P - 1) / P)))
    (f :: rest) order P connect
  = Finished
      (mkWriter true
         (map (fun p =>
                 Page (mk3 (length (f :: rest)) (Z.to_nat C) (Z.to_nat P)
                         (map (fun g => page_plane g C (Z.of_nat p) P
                                          (contains_char 0x46 order))
                              (f :: rest))))
              (seq 0 (Z.to_nat ((Z.of_nat (nrecords f) + P - 1) / P)))
          ++ [EndOfData; Disconnect])).
Proof.
  intros Hall Hft HP HR.
  assert (Hf : whole C f) by (inversion Hall; assumption).
  set (npage := (Z.of_nat (nrecords f) + P - 1) / P).
  assert (Hnp : 1 <= npage).
  { unfold npage. apply Z.div_le_lower_bound; lia. }
  unfold write_pages. rewrite (page_count_whole f rest C P Hf) by lia.
  fold npage.
  assert (Hpage : forall p, 0 <= p ->
            get_data (f :: rest) p P order
            = Ok (mk3 (length (f :: rest)) (Z.to_nat C) (Z.to_nat P)
                    (map (fun g => page_plane g C p P
                                     (contains_char 0x46 order))
                         (f :: rest)))).
  { intros p Hp. apply get_data_page; try assumption. lia. }
  destruct (Z.to_nat npage) as [|n] eqn:En; [lia|].
  destruct (write_loop_completes n (f :: rest) order P connect 0 eq_refl)
    as (ds & Hds & Hrun).
  { intros j Hj. eexists. apply Hpage. lia. }
  replace (0 + Z.of_nat (S n)) with npage in Hrun by lia.
  rewrite Hrun. unfold disconnect, connect. cbn [log isEndOfData].
  rewrite app_nil_l, <- app_assoc. cbn [app]. do 3 f_equal.
  apply (Forall2_seq_fun
           (fun p => mk3 (length (f :: rest)) (Z.to_nat C) (Z.to_nat P)
                       (map (fun g => page_plane g C (Z.of_nat p) P
                                        (contains_char 0x46 order))
                            (f :: rest)))
           _ 0 (S n) ds) in Hds.
  - rewrite Hds, map_map. reflexivity.
  - intros j d _ Hj. cbn [Z.add] in Hj. rewrite Hpage in Hj by lia.
    injection Hj as <-. reflexivity.
Qed.

Lemma write_pages_whole_files_witness :
  write_pages
    (S (Z.to_nat ((Z.of_nat (nrecords (opened two_channel_header 6)) + 2 - 1)
                  / 2)))
    [opened two_channel_header 6; opened two_channel_header 4] (str "FT") 2
    connect
  = Finished
      (mkWriter true
         (map (fun p =>
                 Page (mk3 (length [opened two_channel_header 6;
                                    opened two_channel_header 4])
                         (Z.to_nat 2) (Z.to_nat 2)
                         (map (fun g => page_plane g 2 (Z.of_nat p) 2
                                          (contains_char 0x46 (str "FT")))
                              [opened two_channel_header 6;
                               opened two_channel_header 4])))
              (seq 0 (Z.to_nat
                        ((Z.of_nat (nrecords (opened two_channel_header 6))
                          + 2 - 1) / 2)))
          ++ [EndOfData; Disconnect])).
Proof.
  apply (write_pages_whole_files 2 2 (str "FT")).
  - exact two_beams_whole.
  - reflexivity.
  - lia.
  - vm_compute. lia.
Defined.

End Run.

(** ** Headers the codec does not take back *)

Section Fields.
Import Py SigprocFile.

(** The decoder over the fields that the encoder wrote for [ks], with
    the turns they take. *)
Lemma fields_prefix (h : instance) (ks : list pystr) :
  valid_header h ->
  (forall k, k ∈ ks -> exists ty, (k, ty) ∈ _type) ->
  exists body cnt,
    send_all h ks = Ok body /\ (cnt <= length body)%nat
    /\ forall self hb,
         hdrbytes self = Some hb ->
         exists self',
           hdrbytes self' = Some (hb + Z.of_nat (length body))
           /\ fp self' = fp self /\ _mmdata self' = _mmdata self
           /\ (forall k, k ∉ ks -> attrs self' !! k = attrs self !! k)
           /\ forall fuel c rest,
                read_fields (cnt + fuel) self (mkfile c (body ++ rest))
                = read_fields fuel self' (mkfile c rest).
Proof.
  intros Hvalid. induction ks as [|k ks IH]; intros Htab.
  - exists [], O. split; [reflexivity|]. split; [reflexivity|].
    intros self hb Hh. exists self.
    split; [rewrite Hh; f_equal; cbn; lia|].
    repeat (split; [reflexivity|]). intros fuel c rest. reflexivity.
  - destruct (IH (fun k' Hk' => Htab k' (list_elem_of_further _ _ _ Hk')))
      as (body & cnt & Hbody & Hcnt & Hsim).
    destruct (Htab k (list_elem_of_here _ _)) as (ty & Hin).
    cbn [send_all].
    assert (Habs : (attrs h !! k = None \/ attrs h !! k = Some VNone)
                   \/ exists v, attrs h !! k = Some v /\ v <> VNone).
    { destruct (attrs h !! k) as [v|]; [|left; left; reflexivity].
      destruct v; try (right; eexists; split; [reflexivity|discriminate]).
      left. right. reflexivity. }
    destruct Habs as [Habs | (v & Hk & Hv)].
    + rewrite (send_absent h k Habs). cbn [mbind result_bind].
      rewrite Hbody. cbn [mbind result_bind app]. exists body, cnt.
      split; [reflexivity|]. split; [exact Hcnt|]. intros self hb Hh.
      destruct (Hsim self hb Hh) as (self' & H1 & H2 & H3 & H4 & H5).
      exists self'. repeat (split; [assumption|]). split; [|exact H5].
      intros k' Hk'. apply H4. intros Hc. apply Hk'.
      apply list_elem_of_further. exact Hc.
    + destruct (field_round_trip h k ty v Hin Hk Hv (Hvalid k ty v Hin Hk))
        as (fb & v' & Hsend & Hlen & Hdec & Hstep).
      rewrite Hsend. cbn [mbind result_bind]. rewrite Hbody.
      cbn [mbind result_bind]. exists (fb ++ body), (S cnt).
      split; [reflexivity|]. split; [rewrite length_app; lia|].
      intros self hb Hh.
      destruct (Hsim (absorbed self k v' (Z.of_nat (length fb)))
                  (hb + Z.of_nat (length fb)))
        as (self' & H1 & H2 & H3 & H4 & H5).
      { unfold absorbed. cbn [hdrbytes]. rewrite Hh. reflexivity. }
      exists self'. split; [rewrite H1; f_equal; rewrite length_app; lia|].
      split; [exact H2|]. split; [exact H3|]. split.
      * intros k' Hk'. rewrite H4.
        -- unfold absorbed. cbn [attrs]. apply lookup_insert_ne.
           intros ->. apply Hk'. apply list_elem_of_here.
        -- intros Hc. apply Hk'. apply list_elem_of_further. exact Hc.
      * intros fuel c rest. rewrite <- app_assoc.
        change (S cnt + fuel)%nat with (S (cnt + fuel)).
        rewrite (Hstep _ self c (body ++ rest) hb Hh). apply H5.
Qed.

Lemma type_of_unknown (name : pystr) :
  name ∉ keys -> type_of name = Raise KeyError.
Proof.
  intros Hn. unfold type_of.
  destruct (List.find _ _type) as [[k ty]|] eqn:E; [|reflexivity].
  apply find_some in E as [Hin Heq]. cbn [fst] in Heq.
  unfold str_eqb in Heq. apply bool_decide_eq_true in Heq. subst k.
  exfalso. apply Hn. apply keys_in_table. exists ty.
  apply list_elem_of_In. exact Hin.
Qed.

Lemma read_header_start (c rest : bytes) :
  c = lp (blit "HEADER_START") ++ rest ->
  read_header (set_fp blank (open_rb c))
  = read_fields (S (length rest))
      (mk (attrs blank) (Some (mkfile c c)) (Some 16) None)
      (mkfile c rest).
Proof.
  intros Hc. unfold read_header. cbn [fp set_fp].
  rewrite (get_string_lp (open_rb c) (blit "HEADER_START") rest)
    by (try exact Hc; cbn; lia).
  cbn [mbind result_bind].
  replace (value_eqb (VBytes (blit "HEADER_START"))
                     (VBytes (blit "HEADER_START"))) with true
    by (symmetry; cbn; apply bool_decide_eq_true_2; reflexivity).
  cbn [negb]. reflexivity.
Qed.

Lemma init_nonempty (fs : filesystem) (fname : string) (content : bytes) :
  content <> [] ->
  __init__ (<[fname := content]> fs) fname
  = (self ← read_header (set_fp blank (open_rb content));
     Ok (set_mmdata self content)).
Proof.
  intros Hne. unfold __init__. rewrite lookup_insert_eq.
  destruct content; [contradiction|]. reflexivity.
Qed.

(** X2: a field name outside the table. Wherever it stands after
    well-formed fields, construction raises [KeyError]. *)
Theorem unknown_field_raises (h : instance) (ks : list pystr)
  (body nb rest : bytes) (name : pystr) (fs : filesystem) (fname : string) :
  valid_header h ->
  (forall k, k ∈ ks -> k ∈ keys) ->
  send_all h ks = Ok body ->
  decode nb = Ok name -> (1 <= length nb <= 80)%nat ->
  name ∉ keys -> name <> str "HEADER_END" ->
  __init__ (<[fname := lp (blit "HEADER_START") ++ body ++ lp nb ++ rest]> fs)
           fname
  = Raise KeyError.
Proof.
  intros Hvalid Hks Hbody Hdec Hlen Hname Hend.
  destruct (fields_prefix h ks Hvalid
              (fun k Hk => proj1 (keys_in_table k) (Hks k Hk)))
    as (body' & cnt & Hbody' & Hcnt & Hsim).
  rewrite Hbody in Hbody'. injection Hbody' as <-.
  rewrite init_nonempty by (intros H; apply (f_equal length) in H;
                            rewrite length_app, length_lp in H;
                            cbn in H; lia).
  set (c := lp (blit "HEADER_START") ++ body ++ lp nb ++ rest).
  rewrite (read_header_start c (body ++ lp nb ++ rest) eq_refl).
  destruct (Hsim (mk (attrs blank) (Some (mkfile c c)) (Some 16) None) 16
              eq_refl) as (self' & H1 & _ & _ & _ & H5).
  replace (S (length (body ++ lp nb ++ rest)))
    with (cnt + S (length (body ++ lp nb ++ rest) - cnt))%nat
    by (rewrite length_app; lia).
  rewrite H5. cbn [read_fields].
  rewrite (get_string_lp _ nb rest) by (try reflexivity; exact Hlen).
  cbn [mbind result_bind decode_value]. rewrite Hdec.
  cbn [mbind result_bind]. rewrite (add_hdrbytes_some self' _ _ H1).
  cbn [mbind result_bind]. rewrite (str_eqb_false _ _ Hend).
  rewrite (type_of_unknown name Hname). reflexivity.
Qed.

Lemma unknown_field_raises_witness :
  __init__ (<["beam.fil"%string :=
                lp (blit "HEADER_START")
                ++ (lp (blit "source_name") ++ lp (blit "FAKE"))
                ++ lp (blit "bogus") ++ []]> ∅) "beam.fil"
  = Raise KeyError.
Proof.
  apply (unknown_field_raises sample_header [str "source_name"]
           (lp (blit "source_name") ++ lp (blit "FAKE")) (blit "bogus") []
           (str "bogus") ∅ "beam.fil").
  - exact sample_header_valid.
  - intros k Hk. apply list_elem_of_singleton in Hk. subst k.
    apply keys_in_table. exists (str "string"). unfold _type.
    apply list_elem_of_further, list_elem_of_here.
  - vm_compute. reflexivity.
  - vm_compute. reflexivity.
  - cbn. lia.
  - assert (H : bool_decide (str "bogus" ∈ keys) = false)
      by (vm_compute; reflexivity).
    exact (proj1 (bool_decide_eq_false _) H).
  - discriminate.
Defined.

Lemma send_all_app (h : instance) (a b : list pystr) :
  send_all h (a ++ b)
  = (x ← send_all h a; y ← send_all h b; Ok (x ++ y)).
Proof.
  induction a as [|k a IH]; cbn [send_all app].
  - destruct (send_all h b); reflexivity.
  - destruct (send h k) as [fb|e]; cbn [mbind result_bind]; [|reflexivity].
    rewrite IH. destruct (send_all h a) as [x|e]; cbn [mbind result_bind];
      [|reflexivity].
    destruct (send_all h b) as [y|e]; cbn [mbind result_bind];
      [|reflexivity].
    rewrite app_assoc. reflexivity.
Qed.

Lemma send_all_ext (h h0 : instance) (ks : list pystr) :
  (forall k, k ∈ ks -> attrs h !! k = attrs h0 !! k) ->
  send_all h ks = send_all h0 ks.
Proof.
  induction ks as [|k ks IH]; intros Hagree; [reflexivity|].
  cbn [send_all]. rewrite IH
    by (intros k' Hk'; apply Hagree, list_elem_of_further, Hk').
  assert (Hs : send h k = send h0 k).
  { unfold send, hasattr, getattr.
    rewrite (Hagree k (list_elem_of_here _ _)). reflexivity. }
  rewrite Hs. reflexivity.
Qed.

Lemma get_string_zero (fp : file) (rest : bytes) :
  funread fp = lp [] ++ rest ->
  get_string fp = Ok (VNone, 0, mkfile (fbytes fp) rest).
Proof.
  intros Hu. unfold get_string, lp in *. rewrite <- app_assoc in Hu.
  rewrite (read_app fp _ _ 4 Hu) by (rewrite length_le_bytes; reflexivity).
  cbn [length]. rewrite unpack_i_le_bytes by lia. reflexivity.
Qed.

(** The decoder on a string field whose value was written empty: the
    field is [None] and only the bytes of the name are counted. *)
Lemma read_fields_empty_string (fuel : nat) (self : instance)
  (c rest nb : bytes) (k : pystr) (hb : Z) :
  hdrbytes self = Some hb ->
  (k, str "string") ∈ _type ->
  encode k = Ok nb ->
  read_fields (S fuel) self (mkfile c ((lp nb ++ lp []) ++ rest))
  = read_fields fuel (absorbed self k VNone (Z.of_nat (length (lp nb))))
      (mkfile c rest).
Proof.
  intros Hh Hin He.
  destruct (row_facts _ _ Hin) as ((nb' & He' & Hnb) & Hne & Hty & _).
  rewrite He in He'. injection He' as <-.
  cbn [read_fields]. rewrite <- app_assoc.
  rewrite (get_string_lp _ nb (lp [] ++ rest)) by (try reflexivity; exact Hnb).
  cbn [mbind result_bind fbytes]. rewrite (decode_name _ _ He).
  cbn [mbind result_bind]. rewrite (add_hdrbytes_some self hb _ Hh).
  cbn [mbind result_bind]. rewrite (str_eqb_false _ _ Hne), Hty.
  cbn [mbind result_bind]. rewrite str_eqb_refl.
  rewrite (get_string_zero _ rest) by reflexivity.
  cbn [mbind result_bind fbytes]. unfold add_hdrbytes, set_hdrbytes.
  cbn [hdrbytes mbind result_bind]. f_equal.
  unfold setattr, absorbed. cbn [attrs fp hdrbytes _mmdata]. rewrite Hh.
  f_equal. f_equal. rewrite length_lp. lia.
Qed.

(** X3: a string field set to the empty string. The encoder writes it
    without error, as a name and a length of zero. The decoder takes the
    file back without error as well, but the field is [None] and
    [hdrbytes] is four less than the length of the header, so the data
    is taken to start four bytes early. *)
Theorem empty_string_field (h : instance) (k0 : pystr) (fs : filesystem)
  (fname : string) (data : bytes) :
  (forall k ty v, (k, ty) ∈ _type -> k <> k0 -> attrs h !! k = Some v ->
                  valid_value ty v) ->
  (k0, str "string") ∈ _type ->
  attrs h !! k0 = Some (VStr []) ->
  exists bs h',
    filterbank_header h = Ok bs
    /\ __init__ (<[fname := bs ++ data]> fs) fname = Ok h'
    /\ hdrbytes h' = Some (Z.of_nat (length bs) - 4)
    /\ attrs h' !! k0 = Some VNone
    /\ _mmdata h' = Some (bs ++ data).
Proof.
  intros Hvalid Hin Hk0.
  set (h0 := setattr h k0 VNone).
  assert (Hvalid0 : valid_header h0).
  { intros k ty v Hk Hv. unfold h0, setattr in Hv. cbn [attrs] in Hv.
    destruct (decide (k = k0)) as [->|Hne].
    - rewrite lookup_insert_eq in Hv. injection Hv as <-. exact I.
    - rewrite lookup_insert_ne in Hv by congruence.
      exact (Hvalid k ty v Hk Hne Hv). }
  assert (Hagree : forall k, k <> k0 -> attrs h !! k = attrs h0 !! k).
  { intros k Hne. unfold h0, setattr. cbn [attrs].
    rewrite lookup_insert_ne by congruence. reflexivity. }
  assert (Hk0in : k0 ∈ keys) by (apply keys_in_table; eauto).
  destruct (list_elem_of_split _ _ Hk0in) as (ks1 & ks2 & Hsplit).
  pose proof keys_NoDup as Hnd. rewrite Hsplit in Hnd.
  apply NoDup_app in Hnd as (_ & Hdisj & Hnd2).
  apply NoDup_cons in Hnd2 as (Hnot2 & _).
  assert (Hnot1 : k0 ∉ ks1).
  { intros Hc. apply (Hdisj k0 Hc). apply list_elem_of_here. }
  assert (Htab1 : forall k, k ∈ ks1 -> exists ty, (k, ty) ∈ _type).
  { intros k Hk. apply keys_in_table. rewrite Hsplit.
    apply elem_of_app. left. exact Hk. }
  assert (Htab2 : forall k, k ∈ ks2 -> exists ty, (k, ty) ∈ _type).
  { intros k Hk. apply keys_in_table. rewrite Hsplit.
    apply elem_of_app. right. apply list_elem_of_further. exact Hk. }
  destruct (fields_prefix h0 ks1 Hvalid0 Htab1)
    as (b1 & cnt1 & Hb1 & Hcnt1 & Hsim1).
  destruct (fields_prefix h0 ks2 Hvalid0 Htab2)
    as (b2 & cnt2 & Hb2 & Hcnt2 & Hsim2).
  destruct (row_facts _ _ Hin) as ((nb0 & He0 & Hnb0) & _ & Hty0 & _).
  assert (Hs0 : send h k0 = Ok (lp nb0 ++ lp [])).
  { rewrite (send_present h k0 _ _ Hk0 ltac:(discriminate) Hty0).
    rewrite str_eqb_refl, (send_string_lp k0 nb0 He0) by lia.
    cbn [mbind result_bind].
    rewrite (send_string_lp [] [] eq_refl) by (cbn; lia). reflexivity. }
  assert (Hbody : send_all h keys = Ok (b1 ++ (lp nb0 ++ lp []) ++ b2)).
  { rewrite Hsplit, send_all_app.
    rewrite (send_all_ext h h0 ks1)
      by (intros k Hk; apply Hagree; intros ->; contradiction).
    rewrite Hb1. cbn [mbind result_bind send_all]. rewrite Hs0.
    cbn [mbind result_bind].
    rewrite (send_all_ext h h0 ks2)
      by (intros k Hk; apply Hagree; intros ->; contradiction).
    rewrite Hb2. reflexivity. }
  set (body := b1 ++ (lp nb0 ++ lp []) ++ b2) in *.
  set (bs := lp (blit "HEADER_START") ++ body ++ lp (blit "HEADER_END")).
  set (c := bs ++ data).
  set (self1 := mk (attrs blank) (Some (mkfile c c)) (Some 16) None).
  destruct (Hsim1 self1 16 eq_refl) as (s1 & H11 & H12 & H13 & H14 & H15).
  set (s2 := absorbed s1 k0 VNone (Z.of_nat (length (lp nb0)))).
  destruct (Hsim2 s2 (16 + Z.of_nat (length b1) + Z.of_nat (length (lp nb0))))
    as (s3 & H31 & H32 & H33 & H34 & H35).
  { unfold s2, absorbed. cbn [hdrbytes]. rewrite H11. reflexivity. }
  exists bs,
    (mk (attrs s3) (Some (mkfile c data))
        (Some (16 + Z.of_nat (length b1) + Z.of_nat (length (lp nb0))
               + Z.of_nat (length b2) + 14))
        (Some c)).
  split; [|split; [|split; [|split]]].
  - unfold filterbank_header.
    rewrite (send_string_sentinel "HEADER_START")
      by (first [vm_compute; reflexivity | cbn; lia]).
    cbn [mbind result_bind]. rewrite Hbody. cbn [mbind result_bind].
    rewrite (send_string_sentinel "HEADER_END")
      by (first [vm_compute; reflexivity | cbn; lia]).
    reflexivity.
  - fold c.
    rewrite init_nonempty
      by (intros H; apply (f_equal length) in H; unfold c, bs in H;
          rewrite !length_app, length_lp in H; cbn in H; lia).
    assert (Hc : c = lp (blit "HEADER_START")
                     ++ b1 ++ (lp nb0 ++ lp [])
                     ++ b2 ++ lp (blit "HEADER_END") ++ data).
    { unfold c, bs, body. rewrite <- !app_assoc. reflexivity. }
    rewrite (read_header_start c _ Hc). fold self1.
    assert (Hrun : read_fields (cnt1 + S (cnt2 + 1)) self1
                     (mkfile c (b1 ++ (lp nb0 ++ lp [])
                                ++ b2 ++ lp (blit "HEADER_END") ++ data))
                   = Ok (mk (attrs s3) (Some (mkfile c data))
                            (Some (16 + Z.of_nat (length b1)
                                   + Z.of_nat (length (lp nb0))
                                   + Z.of_nat (length b2) + 14)) None)).
    { rewrite H15.
      rewrite (read_fields_empty_string _ s1 c _ nb0 k0 _ H11 Hin He0).
      fold s2. rewrite H35.
      rewrite (read_fields_end 0 s3 c data _ H31).
      rewrite H33. unfold s2, absorbed. cbn [_mmdata]. rewrite H13.
      reflexivity. }
    rewrite (read_fields_mono _ _ _ _ _ Hrun)
      by (rewrite !length_app, !length_lp; cbn [length]; lia).
    reflexivity.
  - cbn [hdrbytes]. f_equal. unfold bs, body.
    rewrite !length_app, !length_lp. cbn [length blit]. cbn. lia.
  - cbn [attrs]. rewrite (H34 k0 Hnot2). unfold s2, absorbed. cbn [attrs].
    apply lookup_insert_eq.
  - reflexivity.
Qed.

Lemma empty_source_name_valid (k ty : pystr) (v : value) :
  (k, ty) ∈ _type -> k <> str "source_name" ->
  attrs (setattr two_channel_header (str "source_name") (VStr [])) !! k
  = Some v ->
  valid_value ty v.
Proof.
  intros Hin Hne Hk. unfold _type in Hin.
  repeat (apply elem_of_cons in Hin as [Heq|Hin];
          [ injection Heq as -> ->;
            first [ contradiction
                  | vm_compute in Hk; injection Hk as <-;
                    first [ exact I | split; [reflexivity | lia] ] ]
          | ]).
  inversion Hin.
Defined.

Lemma empty_string_field_witness :
  exists bs h',
    filterbank_header
      (setattr two_channel_header (str "source_name") (VStr [])) = Ok bs
    /\ __init__ (<["beam.fil"%string := bs ++ sample_data 6]> ∅) "beam.fil"
       = Ok h'
    /\ hdrbytes h' = Some (Z.of_nat (length bs) - 4)
    /\ attrs h' !! str "source_name" = Some VNone
    /\ _mmdata h' = Some (bs ++ sample_data 6).
Proof.
  apply (empty_string_field
           (setattr two_channel_header (str "source_name") (VStr []))
           (str "source_name") ∅ "beam.fil" (sample_data 6)).
  - exact empty_source_name_valid.
  - unfold _type. apply list_elem_of_further, list_elem_of_here.
  - reflexivity.
Defined.

End Fields.

(** ** The page assembler and the run loop on small files *)

Section SmallRuns.
Import Py Np DadaFildb.


Lemma write_pages_completes_witness :
  exists ds,
    Forall2 (fun j d => get_data [opened two_channel_header 6] (Z.of_nat j) 2
                          (str "FT") = Ok d)
            (seq 0 (Z.to_nat 2)) ds
    /\ write_pages (S (Z.to_nat 2)) [opened two_channel_header 6] (str "FT") 2
         connect
       = Finished (mkWriter true (map Page ds ++ [EndOfData; Disconnect])).
Proof.
  apply (write_pages_completes [opened two_channel_header 6] (str "FT") 2 2).
  - vm_compute. reflexivity.
  - lia.
  - intros p Hp. assert (Hc : p = 0 \/ p = 1) by lia.
    destruct Hc as [-> | ->]; eexists; vm_compute; reflexivity.
Defined.

End SmallRuns.

(** ** Writing headers *)

Section Sink.
Import Py SigprocFile.

Lemma out_bind_eq {A B} (m : Out.out A) (k : A -> Out.out B) (f : bytes) :
  (m ≫= k) f
  = match m f with
    | (f', Ok a) => k a f'
    | (f', Raise e) => (f', Raise e)
    end.
Proof. reflexivity. Qed.

Lemma out_lift_bind {A B} (r : result A) (k : A -> Out.out B) (f : bytes) :
  (Out.lift r ≫= k) f
  = match r with
    | Ok a => k a f
    | Raise e => (f, Raise e)
    end.
Proof. rewrite out_bind_eq. unfold Out.lift. destruct r; reflexivity. Qed.

(** What a step of the encoder leaves in the file is what the encoder
    returns, when it returns; a string is written whole or not at
    all. *)
Lemma out_send_string (val : value) (f : bytes) :
  Out.send_string val f
  = match send_string val with
    | Ok b => (f ++ b, Ok tt)
    | Raise e => (f, Raise e)
    end.
Proof.
  unfold Out.send_string, send_string. destruct val; try reflexivity.
  rewrite out_lift_bind.
  destruct (encode s) as [b|e]; cbn [mbind result_bind]; [|reflexivity].
  rewrite out_lift_bind.
  destruct (pack _ _) as [n|e]; cbn [mbind result_bind]; [|reflexivity].
  rewrite out_bind_eq. unfold Out.write. rewrite <- app_assoc. reflexivity.
Qed.

Lemma out_send_num_ok (name : pystr) (val : value) (b f : bytes) :
  send_num name val = Ok b -> Out.send_num name val f = (f ++ b, Ok tt).
Proof.
  unfold Out.send_num, send_num. rewrite out_bind_eq, out_send_string.
  destruct (send_string (VStr name)) as [b1|e]; cbn [mbind result_bind];
    [|discriminate].
  rewrite out_lift_bind.
  destruct (type_of name) as [ty|e]; cbn [mbind result_bind];
    [|discriminate].
  rewrite out_lift_bind.
  destruct (first_char ty) as [fmt|e]; cbn [mbind result_bind];
    [|discriminate].
  rewrite out_lift_bind.
  destruct (pack fmt val) as [b2|e]; cbn [mbind result_bind];
    [|discriminate].
  intros [= <-]. unfold Out.write. rewrite app_assoc. reflexivity.
Qed.

Lemma out_send_ok (self : instance) (name : pystr) (b f : bytes) :
  send self name = Ok b -> Out.send self name f = (f ++ b, Ok tt).
Proof.
  unfold Out.send, send. destruct (negb (hasattr self name)).
  { intros [= <-]. rewrite app_nil_r. reflexivity. }
  rewrite out_lift_bind.
  destruct (getattr self name) as [v|e]; cbn [mbind result_bind];
    [|discriminate].
  assert (Hgen :
    (ty ← type_of name;
     if str_eqb ty (str "string")
     then b1 ← send_string (VStr name); b2 ← send_string v; Ok (b1 ++ b2)
     else send_num name v) = Ok b ->
    (ty ← Out.lift (type_of name);
     if str_eqb ty (str "string")
     then Out.send_string (VStr name);; Out.send_string v
     else Out.send_num name v) f = (f ++ b, Ok tt)).
  { rewrite out_lift_bind.
    destruct (type_of name) as [ty|e]; cbn [mbind result_bind];
      [|discriminate].
    destruct (str_eqb ty (str "string")).
    - rewrite out_bind_eq, out_send_string.
      destruct (send_string (VStr name)) as [b1|e];
        cbn [mbind result_bind]; [|discriminate].
      rewrite out_send_string.
      destruct (send_string v) as [b2|e]; cbn [mbind result_bind];
        [|discriminate].
      intros [= <-]. rewrite app_assoc. reflexivity.
    - apply out_send_num_ok. }
  destruct v; try exact Hgen. intros [= <-]. rewrite app_nil_r. reflexivity.
Qed.

Lemma out_send_all_ok (self : instance) (ks : list pystr) (b f : bytes) :
  send_all self ks = Ok b -> Out.send_all self ks f = (f ++ b, Ok tt).
Proof.
  revert b f. induction ks as [|k ks IH]; intros b f.
  - intros [= <-]. rewrite app_nil_r. reflexivity.
  - cbn [send_all Out.send_all]. rewrite out_bind_eq.
    destruct (send self k) as [b1|e] eqn:Hs; cbn [mbind result_bind];
      [|discriminate].
    rewrite (out_send_ok self k b1 f Hs).
    destruct (send_all self ks) as [b2|e]; cbn [mbind result_bind];
      [|discriminate].
    intros [= <-]. rewrite (IH b2 (f ++ b1) eq_refl), app_assoc.
    reflexivity.
Qed.

Lemma out_filterbank_header_ok (self : instance) (bs f : bytes) :
  filterbank_header self = Ok bs ->
  Out.filterbank_header self f = (f ++ bs, Ok tt).
Proof.
  unfold filterbank_header, Out.filterbank_header.
  rewrite out_bind_eq, out_send_string.
  destruct (send_string (VStr (str "HEADER_START"))) as [b0|e];
    cbn [mbind result_bind]; [|discriminate].
  rewrite out_bind_eq.
  destruct (send_all self keys) as [body|e] eqn:Hb; cbn [mbind result_bind];
    [|discriminate].
  rewrite (out_send_all_ok self keys body _ Hb), out_send_string.
  destruct (send_string (VStr (str "HEADER_END"))) as [b1|e];
    cbn [mbind result_bind]; [|discriminate].
  intros [= <-]. rewrite !app_assoc. reflexivity.
Qed.

(** A string field that holds bytes: the name is written, then
    [encode] is missing. *)
Lemma out_send_bytes (self : instance) (k : pystr) (b nb f : bytes) :
  (k, str "string") ∈ _type -> encode k = Ok nb ->
  attrs self !! k = Some (VBytes b) ->
  Out.send self k f = (f ++ lp nb, Raise AttributeError).
Proof.
  intros Hin He Hk.
  destruct (row_facts _ _ Hin) as ((nb' & He' & Hnb) & _ & Hty & _).
  rewrite He in He'. injection He' as <-.
  unfold Out.send, hasattr, getattr. rewrite Hk.
  rewrite bool_decide_eq_true_2 by eauto. cbn [negb].
  rewrite out_lift_bind, out_lift_bind, Hty, str_eqb_refl.
  rewrite out_bind_eq, out_send_string, (send_string_lp k nb He) by lia.
  rewrite out_send_string. reflexivity.
Qed.

Lemma out_send_all_app (self : instance) (a b : list pystr) (f : bytes) :
  Out.send_all self (a ++ b) f
  = match Out.send_all self a f with
    | (f', Ok _) => Out.send_all self b f'
    | (f', Raise e) => (f', Raise e)
    end.
Proof.
  revert f. induction a as [|k a IH]; intros f; [reflexivity|].
  cbn [app Out.send_all]. rewrite !out_bind_eq.
  destruct (Out.send self k f) as [f1 [[]|e]]; [apply IH|reflexivity].
Qed.

(** Constructing an instance on a file that starts with a header the
    encoder has written. *)
Lemma written_header_opens (h : instance) (fs : filesystem) (fname : string)
  (data : bytes) :
  valid_header h ->
  exists bs attrs',
    filterbank_header h = Ok bs
    /\ __init__ (<[fname := bs ++ data]> fs) fname
       = Ok (mk attrs' (Some (mkfile (bs ++ data) data))
                (Some (Z.of_nat (length bs))) (Some (bs ++ data)))
    /\ forall k, k ∈ keys ->
         match attrs h !! k with
         | None | Some VNone => attrs' !! k = Some VNone
         | Some v => exists v', attrs' !! k = Some v' /\ decoded_as v v'
         end.
Proof.
  intros Hvalid.
  destruct (fields_round_trip h keys Hvalid
              (fun k Hk => proj1 (keys_in_table k) Hk) keys_NoDup)
    as (body & Hbody & Hsim).
  set (bs := lp (blit "HEADER_START") ++ body ++ lp (blit "HEADER_END")).
  set (c := bs ++ data).
  set (self1 := mk (attrs blank) (Some (mkfile c c)) (Some 16) None).
  destruct (Hsim self1 16 eq_refl) as (self' & H1 & H2 & H3 & _ & H5 & H6).
  exists bs, (attrs self').
  assert (Hc : c = lp (blit "HEADER_START")
                   ++ body ++ lp (blit "HEADER_END") ++ data).
  { unfold c, bs. rewrite <- !app_assoc. reflexivity. }
  assert (Hlen : Z.of_nat (length bs) = 16 + Z.of_nat (length body) + 14).
  { unfold bs. rewrite !length_app, !length_lp. cbn. lia. }
  split; [|split].
  - unfold filterbank_header.
    rewrite (send_string_sentinel "HEADER_START")
      by (first [vm_compute; reflexivity | cbn; lia]).
    cbn [mbind result_bind]. rewrite Hbody. cbn [mbind result_bind].
    rewrite (send_string_sentinel "HEADER_END")
      by (first [vm_compute; reflexivity | cbn; lia]).
    reflexivity.
  - fold c.
    rewrite init_nonempty
      by (intros H; apply (f_equal length) in H; rewrite Hc in H;
          rewrite !length_app, length_lp in H; cbn in H; lia).
    rewrite (read_header_start c _ Hc). fold self1.
    assert (Hrun : read_fields (1 + length body) self1
                     (mkfile c (body ++ lp (blit "HEADER_END") ++ data))
                   = Ok (mk (attrs self') (Some (mkfile c data))
                            (Some (16 + Z.of_nat (length body) + 14)) None)).
    { apply H6. rewrite (read_fields_end 0 self' c data _ H1).
      rewrite H3. reflexivity. }
    rewrite (read_fields_mono _ _ _ _ _ Hrun)
      by (rewrite !length_app, length_lp; lia).
    cbn [mbind result_bind]. rewrite Hlen. reflexivity.
  - intros k Hk. specialize (H5 k Hk).
    unfold self1 in H5. cbn [attrs] in H5.
    rewrite (blank_attrs k Hk) in H5. exact H5.
Qed.

Lemma write_header_fragment (self : instance) (k0 : pystr) (b : bytes)
  (ks1 ks2 : list pystr) (body1 nb0 f : bytes) :
  keys = ks1 ++ k0 :: ks2 ->
  (k0, str "string") ∈ _type -> encode k0 = Ok nb0 ->
  attrs self !! k0 = Some (VBytes b) ->
  send_all self ks1 = Ok body1 ->
  Out.filterbank_header self f
  = (f ++ lp (blit "HEADER_START") ++ body1 ++ lp nb0, Raise AttributeError).
Proof.
  intros Hkeys Hin He Hk Hb1. unfold Out.filterbank_header.
  rewrite out_bind_eq, out_send_string.
  rewrite (send_string_sentinel "HEADER_START")
    by (first [vm_compute; reflexivity | cbn; lia]).
  rewrite out_bind_eq, Hkeys, out_send_all_app.
  rewrite (out_send_all_ok self ks1 body1 _ Hb1).
  cbn [Out.send_all]. rewrite out_bind_eq.
  rewrite (out_send_bytes self k0 b nb0 _ Hin He Hk).
  rewrite <- !app_assoc. reflexivity.
Qed.

(** X13: rewriting a header that was read from a file. A string field of
    a decoded header holds bytes, and [send_string] calls [encode] on
    its value: [write_header] writes the fields before the first such
    field and the name of that field, then raises [AttributeError]. The
    file is left with the fragment, without [HEADER_END]. *)
Theorem write_header_decoded_string (fs : filesystem) (self : instance)
  (filename : string) (k0 : pystr) (b : bytes) (ks1 ks2 : list pystr)
  (body1 nb0 : bytes) :
  keys = ks1 ++ k0 :: ks2 ->
  (k0, str "string") ∈ _type -> encode k0 = Ok nb0 ->
  attrs self !! k0 = Some (VBytes b) ->
  send_all self ks1 = Ok body1 ->
  write_header fs self filename
  = (<[filename := lp (blit "HEADER_START") ++ body1 ++ lp nb0]> fs,
     Raise AttributeError).
Proof.
  intros Hkeys Hin He Hk Hb1. unfold write_header.
  rewrite (write_header_fragment self k0 b ks1 ks2 body1 nb0 []
             Hkeys Hin He Hk Hb1).
  reflexivity.
Qed.

Lemma write_header_decoded_string_witness :
  write_header ∅ sample_decoded "copy.fil"
  = (<["copy.fil"%string :=
         lp (blit "HEADER_START") ++ [] ++ lp (blit "source_name")]> ∅,
     Raise AttributeError).
Proof.
  apply (write_header_decoded_string ∅ sample_decoded "copy.fil"
           (str "source_name") (blit "FAKE") [str "rawdatafile"]
           (drop 2 keys) [] (blit "source_name")).
  - reflexivity.
  - unfold _type. apply list_elem_of_further, list_elem_of_here.
  - vm_compute. reflexivity.
  - vm_compute. reflexivity.
  - vm_compute. reflexivity.
Defined.

End Sink.

(** ** Creating files *)

Section NewFile.
Import Py SigprocFile.

Lemma set_header_none (self : instance) (header : list (pystr * value))
  (k : pystr) (v : value) :
  (k, v) ∈ header -> k ∉ keys -> set_header self header = None.
Proof.
  revert self. induction header as [|[k' v'] header IH]; intros self Hin Hk.
  - inversion Hin.
  - cbn [set_header]. destruct (decide (k' ∈ keys)) as [Hk'|Hk'].
    + rewrite bool_decide_eq_true_2 by exact Hk'. apply IH; [|exact Hk].
      apply elem_of_cons in Hin as [Heq|Hin]; [|exact Hin].
      injection Heq as -> ->. contradiction.
    + rewrite bool_decide_eq_false_2 by exact Hk'. reflexivity.
Qed.

Lemma set_header_some (self : instance) (header : list (pystr * value)) :
  (forall k v, (k, v) ∈ header -> k ∈ keys) ->
  exists h,
    set_header self header = Some h
    /\ fp h = fp self /\ hdrbytes h = hdrbytes self
    /\ _mmdata h = _mmdata self
    /\ (forall k, k ∉ map fst header -> attrs h !! k = attrs self !! k)
    /\ (NoDup (map fst header) ->
        forall k v, (k, v) ∈ header -> attrs h !! k = Some v).
Proof.
  revert self. induction header as [|[k v] header IH]; intros self Hkeys.
  - exists self. split; [reflexivity|]. repeat (split; [reflexivity|]).
    intros _ k v Hin. inversion Hin.
  - cbn [set_header].
    rewrite bool_decide_eq_true_2
      by (apply (Hkeys k v), list_elem_of_here).
    destruct (IH (setattr self k v)
                (fun k' v' Hin => Hkeys k' v' (list_elem_of_further _ _ _ Hin)))
      as (h & Hh & H1 & H2 & H3 & H4 & H5).
    exists h. split; [exact Hh|]. split; [exact H1|]. split; [exact H2|].
    split; [exact H3|]. split.
    + intros k' Hk'. cbn [map fst] in Hk'.
      apply not_elem_of_cons in Hk' as [Hne Hk'].
      rewrite (H4 k' Hk'). unfold setattr. cbn [attrs].
      apply lookup_insert_ne. congruence.
    + intros Hnd k' v' Hin. cbn [map fst] in Hnd.
      apply NoDup_cons in Hnd as [Hnot Hnd].
      apply elem_of_cons in Hin as [Heq|Hin].
      * injection Heq as -> ->. rewrite (H4 k Hnot).
        unfold setattr. cbn [attrs]. apply lookup_insert_eq.
      * exact (H5 Hnd k' v' Hin).
Qed.

Lemma table_functional (k ty ty' : pystr) :
  (k, ty) ∈ _type -> (k, ty') ∈ _type -> ty = ty'.
Proof.
  intros H H'. apply row_facts in H as (_ & _ & Hty & _).
  apply row_facts in H' as (_ & _ & Hty' & _). congruence.
Qed.

(** X14: a new file on a path that holds nothing. For a header whose keys
    are distinct keys of the table and whose values are of the declared
    types, [new_file] writes the encoded header to the path and returns
    the instance decoded from it: [hdrbytes] is the length of the file,
    every field of the header holds its value (a string as the bytes
    that decode to it), every other field is [None]. *)
Theorem new_file_fresh (fs : filesystem) (fname : string)
  (header : list (pystr * value)) :
  fs !! fname = None \/ fs !! fname = Some [] ->
  NoDup (map fst header) ->
  (forall k v, (k, v) ∈ header ->
     exists ty, (k, ty) ∈ _type /\ valid_value ty v) ->
  exists bs obj,
    new_file fs fname header = (<[fname := bs]> fs, inr obj)
    /\ hdrbytes obj = Some (Z.of_nat (length bs))
    /\ _mmdata obj = Some bs
    /\ (forall k v, (k, v) ∈ header ->
          exists v', attrs obj !! k = Some v' /\ decoded_as v v')
    /\ (forall k, k ∈ keys -> k ∉ map fst header ->
          attrs obj !! k = Some VNone).
Proof.
  intros Hfresh Hnd Hvalid.
  assert (Hinit : __init__ fs fname = Ok blank).
  { unfold __init__. destruct Hfresh as [-> | ->]; reflexivity. }
  destruct (set_header_some blank header) as (h & Hh & _ & _ & _ & H4 & H5).
  { intros k v Hin. destruct (Hvalid k v Hin) as (ty & Hty & _).
    apply keys_in_table. eauto. }
  specialize (H5 Hnd).
  assert (Hvh : valid_header h).
  { intros k ty v Hin Hk.
    destruct (decide (k ∈ map fst header)) as [Hmem|Hnot].
    - apply list_elem_of_fmap in Hmem as ([k' v'] & Hk' & Hin').
      cbn [fst] in Hk'. subst k'.
      rewrite (H5 k v' Hin') in Hk. injection Hk as <-.
      destruct (Hvalid k v' Hin') as (ty' & Hty' & Hv).
      rewrite (table_functional k ty ty' Hin Hty'). exact Hv.
    - rewrite (H4 k Hnot), blank_attrs in Hk
        by (apply keys_in_table; eauto).
      injection Hk as <-. exact I. }
  destruct (written_header_opens h fs fname [] Hvh)
    as (bs & attrs' & Hbs & Hopen & Hattrs).
  rewrite app_nil_r in Hopen.
  exists bs, (mk attrs' (Some (mkfile bs [])) (Some (Z.of_nat (length bs)))
                (Some bs)).
  split; [|split; [reflexivity|split; [reflexivity|split]]].
  - unfold new_file. rewrite Hinit, Hh.
    rewrite (out_filterbank_header_ok h bs [] Hbs). cbn [app].
    rewrite Hopen. reflexivity.
  - intros k v Hin. cbn [attrs].
    destruct (Hvalid k v Hin) as (ty & Hty & Hv).
    assert (Hk : k ∈ keys) by (apply keys_in_table; eauto).
    specialize (Hattrs k Hk). rewrite (H5 k v Hin) in Hattrs.
    destruct v; try exact Hattrs.
    exists VNone. split; [exact Hattrs | reflexivity].
  - intros k Hk Hnot. cbn [attrs]. specialize (Hattrs k Hk).
    rewrite (H4 k Hnot), (blank_attrs k Hk) in Hattrs. exact Hattrs.
Qed.

Lemma new_file_fresh_witness :
  exists bs obj,
    new_file ∅ "beam.fil"
      [(str "source_name", VStr (str "FAKE")); (str "nchans", VInt 2)]
    = (<["beam.fil"%string := bs]> ∅, inr obj)
    /\ hdrbytes obj = Some (Z.of_nat (length bs))
    /\ _mmdata obj = Some bs
    /\ (forall k v,
          (k, v) ∈ [(str "source_name", VStr (str "FAKE"));
                    (str "nchans", VInt 2)] ->
          exists v', attrs obj !! k = Some v' /\ decoded_as v v')
    /\ (forall k, k ∈ keys ->
          k ∉ map fst [(str "source_name", VStr (str "FAKE"));
                       (str "nchans", VInt 2)] ->
          attrs obj !! k = Some VNone).
Proof.
  apply (new_file_fresh ∅ "beam.fil"
           [(str "source_name", VStr (str "FAKE")); (str "nchans", VInt 2)]).
  - left. reflexivity.
  - apply (bool_decide_eq_true_1 _). vm_compute. reflexivity.
  - intros k v Hin.
    apply elem_of_cons in Hin as [Heq|Hin];
      [|apply list_elem_of_singleton in Hin as Heq]; injection Heq as -> ->.
    + exists (str "string"). split.
      * unfold _type. apply list_elem_of_further, list_elem_of_here.
      * split; [reflexivity|]. exists (blit "FAKE").
        split; [vm_compute; reflexivity | cbn; lia].
    + exists (str "int"). split.
      * unfold _type. do 13 apply list_elem_of_further.
        apply list_elem_of_here.
      * split; [reflexivity | lia].
Defined.

(** X15: a header with a key outside the table. The [assert] fails before
    the file is opened for writing: nothing is written and no file is
    created. *)
Theorem new_file_unknown_key (fs : filesystem) (fname : string)
  (header : list (pystr * value)) (obj : instance) (k : pystr) (v : value) :
  __init__ fs fname = Ok obj ->
  (k, v) ∈ header -> k ∉ keys ->
  new_file fs fname header = (fs, inl AssertionError).
Proof.
  intros Hinit Hin Hk. unfold new_file.
  rewrite Hinit, (set_header_none obj header k v Hin Hk). reflexivity.
Qed.

Lemma new_file_unknown_key_witness :
  new_file ∅ "beam.fil" [(str "nchans", VInt 2); (str "npol", VInt 1)]
  = (∅, inl AssertionError).
Proof.
  apply (new_file_unknown_key ∅ "beam.fil"
           [(str "nchans", VInt 2); (str "npol", VInt 1)] blank
           (str "npol") (VInt 1)).
  - reflexivity.
  - apply list_elem_of_further, list_elem_of_here.
  - assert (H : bool_decide (str "npol" ∈ keys) = false)
      by (vm_compute; reflexivity).
    exact (proj1 (bool_decide_eq_false _) H).
Defined.

(** X16: a new file on a path that holds a filterbank file. The instance
    built first carries the fields of the old header, its strings as
    bytes. A string field that the new header does not replace makes the
    encoder raise [AttributeError] after the file has been emptied: the
    old content is lost and the file is left with a fragment of the new
    header. *)
Theorem new_file_over_existing (fs : filesystem) (fname : string)
  (header : list (pystr * value)) (old merged : instance) (k0 : pystr)
  (b : bytes) (ks1 ks2 : list pystr) (body1 nb0 : bytes) :
  __init__ fs fname = Ok old ->
  attrs old !! k0 = Some (VBytes b) ->
  (k0, str "string") ∈ _type -> encode k0 = Ok nb0 ->
  (forall k v, (k, v) ∈ header -> k ∈ keys) ->
  k0 ∉ map fst header ->
  keys = ks1 ++ k0 :: ks2 ->
  set_header old header = Some merged ->
  send_all merged ks1 = Ok body1 ->
  new_file fs fname header
  = (<[fname := lp (blit "HEADER_START") ++ body1 ++ lp nb0]> fs,
     inl (Exception AttributeError)).
Proof.
  intros Hinit Hold Hin He Hkeys Hnot Hsplit Hmerged Hb1.
  destruct (set_header_some old header Hkeys)
    as (h & Hh & _ & _ & _ & H4 & _).
  rewrite Hmerged in Hh. injection Hh as <-.
  assert (Hk0 : attrs merged !! k0 = Some (VBytes b))
    by (rewrite (H4 k0 Hnot); exact Hold).
  unfold new_file. rewrite Hinit, Hmerged.
  rewrite (write_header_fragment merged k0 b ks1 ks2 body1 nb0 []
             Hsplit Hin He Hk0 Hb1).
  reflexivity.
Qed.

Lemma new_file_over_existing_witness :
  new_file {[ "beam.fil"%string :=
                header_bytes sample_header ++ sample_data 6 ]} "beam.fil"
           [(str "nchans", VInt 4)]
  = (<["beam.fil"%string :=
         lp (blit "HEADER_START") ++ [] ++ lp (blit "source_name")]>
       {[ "beam.fil"%string :=
            header_bytes sample_header ++ sample_data 6 ]},
     inl (Exception AttributeError)).
Proof.
  apply (new_file_over_existing
           {[ "beam.fil"%string :=
                header_bytes sample_header ++ sample_data 6 ]} "beam.fil"
           [(str "nchans", VInt 4)] sample_decoded
           (setattr sample_decoded (str "nchans") (VInt 4))
           (str "source_name") (blit "FAKE") [str "rawdatafile"]
           (drop 2 keys) [] (blit "source_name")).
  - vm_compute. reflexivity.
  - vm_compute. reflexivity.
  - unfold _type. apply list_elem_of_further, list_elem_of_here.
  - vm_compute. reflexivity.
  - intros k v Hin. apply list_elem_of_singleton in Hin.
    injection Hin as -> ->. apply keys_in_table. exists (str "int").
    unfold _type. do 13 apply list_elem_of_further. apply list_elem_of_here.
  - intros Hin. apply list_elem_of_singleton in Hin. discriminate Hin.
  - reflexivity.
  - reflexivity.
  - vm_compute. reflexivity.
Defined.

End NewFile.

(** ** Appending records *)

Section Append.
Import Py SigprocFile.

Lemma sample_at_app_old (dt : Np.dtype) (nifs C h : Z) (m extra : bytes)
  (rec chan : nat) :
  (Z.to_nat h + (rec * Z.to_nat (nifs * C) + chan) * Np.itemsize dt
   + Np.itemsize dt <= length m)%nat ->
  sample_at dt nifs C h (m ++ extra) rec chan
  = sample_at dt nifs C h m rec chan.
Proof.
  intros Hle. unfold sample_at. f_equal.
  rewrite drop_app_le by lia. apply take_app_le.
  rewrite length_drop. lia.
Qed.

Lemma sample_at_app_new (dt : Np.dtype) (nifs C h : Z) (m ab : bytes)
  (R j chan : nat) :
  length m = (Z.to_nat h + R * (Np.itemsize dt * Z.to_nat (nifs * C)))%nat ->
  sample_at dt nifs C h (m ++ ab) (R + j) chan
  = Np.scalar_of dt
      (take (Np.itemsize dt)
         (drop ((j * Z.to_nat (nifs * C) + chan) * Np.itemsize dt) ab)).
Proof.
  intros Hlen. unfold sample_at. do 2 f_equal.
  rewrite drop_app_ge by lia. f_equal. lia.
Qed.

Lemma int_field_decoded (h : instance) (attrs' : gmap pystr value)
  (k : string) (z : Z) :
  (forall k, k ∈ keys ->
     match attrs h !! k with
     | None | Some VNone => attrs' !! k = Some VNone
     | Some v => exists v', attrs' !! k = Some v' /\ decoded_as v v'
     end) ->
  str k ∈ keys -> attrs h !! str k = Some (VInt z) ->
  attrs' !! str k = Some (VInt z).
Proof.
  intros Hattrs Hk Hz. specialize (Hattrs _ Hk). rewrite Hz in Hattrs.
  destruct Hattrs as (v' & Hv' & Hdec). cbn in Hdec. congruence.
Qed.

Lemma geometry_keys :
  str "nbits" ∈ keys /\ str "nchans" ∈ keys /\ str "nifs" ∈ keys.
Proof.
  repeat split; apply (bool_decide_eq_true_1 _); vm_compute; reflexivity.
Qed.

(** Constructing an instance on a header the encoder wrote, followed by
    [R] records: the file holds whole records. *)
Lemma written_file_whole (h : instance) (fs : filesystem) (fname : string)
  (bs data : bytes) (dt : Np.dtype) (nbits nifs C : Z) (R : nat) :
  valid_header h -> filterbank_header h = Ok bs ->
  attrs h !! str "nbits" = Some (VInt nbits) -> width_of nbits = Some dt ->
  attrs h !! str "nchans" = Some (VInt C) ->
  attrs h !! str "nifs" = Some (VInt nifs) ->
  0 < C -> 0 < nifs ->
  Z.of_nat (length data) = Z.of_nat R * record_bytes dt nifs C ->
  exists f,
    __init__ (<[fname := bs ++ data]> fs) fname = Ok f
    /\ whole_file f dt nifs C (Z.of_nat (length bs)) (bs ++ data) R.
Proof.
  intros Hvalid Hbs Hb Hw Hc Hi HC HI Hlen.
  destruct (written_header_opens h fs fname data Hvalid)
    as (bs' & attrs' & Hbs' & Hopen & Hattrs).
  rewrite Hbs in Hbs'. injection Hbs' as <-.
  destruct geometry_keys as (Kb & Kc & Ki).
  eexists. split; [exact Hopen|].
  split; [split; [|repeat split]|].
  - exists nbits. split; [|exact Hw]. cbn [attrs].
    exact (int_field_decoded h attrs' "nbits" nbits Hattrs Kb Hb).
  - cbn [attrs]. exact (int_field_decoded h attrs' "nchans" C Hattrs Kc Hc).
  - cbn [attrs]. exact (int_field_decoded h attrs' "nifs" nifs Hattrs Ki Hi).
  - exact HC.
  - exact HI.
  - lia.
  - rewrite length_app, Nat2Z.inj_add, Hlen. reflexivity.
Qed.

(** X17: appending records and reading them back. On a file made of a
    header the encoder wrote and [R] whole records, [append_spectra]
    with an array of the file's sample type that holds [n] further
    records leaves a file of [R + n] whole records: constructing an
    instance on it succeeds, the records that were there are unchanged,
    and record [R + j] holds row [j] of the array. *)
Theorem append_spectra_read_back (h : instance) (fs : filesystem)
  (fname : string) (spectra : array) (bs old : bytes) (nbits nifs C : Z)
  (R n : nat) :
  valid_header h -> filterbank_header h = Ok bs ->
  attrs h !! str "nbits" = Some (VInt nbits) ->
  width_of nbits = Some (a_dtype spectra) ->
  attrs h !! str "nchans" = Some (VInt C) ->
  attrs h !! str "nifs" = Some (VInt nifs) ->
  0 < C -> 0 < nifs ->
  fs !! fname = Some (bs ++ old) ->
  Z.of_nat (length old)
  = Z.of_nat R * record_bytes (a_dtype spectra) nifs C ->
  Z.of_nat (length (a_bytes spectra))
  = Z.of_nat n * record_bytes (a_dtype spectra) nifs C ->
  exists f0 f1,
    __init__ fs fname = Ok f0
    /\ __init__ (append_spectra fs spectra fname) fname = Ok f1
    /\ whole C f0 /\ whole C f1
    /\ nrecords f0 = R /\ nrecords f1 = (R + n)%nat
    /\ (forall r c, (r < R)%nat -> (c < Z.to_nat C)%nat ->
          sample f1 r c = sample f0 r c)
    /\ (forall j c, (j < n)%nat -> (c < Z.to_nat C)%nat ->
          sample f1 (R + j) c = element spectra (Z.to_nat (nifs * C)) j c).
Proof.
  intros Hvalid Hbs Hb Hw Hc Hi HC HI Hfs Hold Hnew.
  set (dt := a_dtype spectra) in *.
  destruct (written_file_whole h fs fname bs old dt nbits nifs C R
              Hvalid Hbs Hb Hw Hc Hi HC HI Hold) as (f0 & Hf0 & Hw0).
  rewrite (insert_id fs fname _ Hfs) in Hf0.
  assert (Hall : Z.of_nat (length (old ++ a_bytes spectra))
                 = Z.of_nat (R + n) * record_bytes dt nifs C).
  { rewrite length_app, !Nat2Z.inj_add, Hold, Hnew. ring. }
  destruct (written_file_whole h fs fname bs (old ++ a_bytes spectra) dt
              nbits nifs C (R + n)
              Hvalid Hbs Hb Hw Hc Hi HC HI Hall) as (f1 & Hf1 & Hw1).
  assert (Happ : append_spectra fs spectra fname
                 = <[fname := bs ++ old ++ a_bytes spectra]> fs).
  { unfold append_spectra, astype_same, flatten, default. rewrite Hfs.
    cbn [from_option id a_bytes]. rewrite <- app_assoc. reflexivity. }
  exists f0, f1. rewrite Happ.
  destruct (whole_file_nrecords _ _ _ _ _ _ _ Hw0) as (Hs0 & Hn0 & _).
  destruct (whole_file_nrecords _ _ _ _ _ _ _ Hw1) as (Hs1 & Hn1 & _).
  destruct (record_bytes_nat dt nifs C HC HI) as (HB & Hrec & HCrec).
  destruct (width_cases _ _ Hw) as (_ & Hisz & _).
  split; [exact Hf0|]. split; [exact Hf1|].
  split; [exists dt, nifs, (Z.of_nat (length bs)), (bs ++ old), R; exact Hw0|].
  split; [exists dt, nifs, (Z.of_nat (length bs)),
            (bs ++ old ++ a_bytes spectra), (R + n)%nat; exact Hw1|].
  split; [exact Hn0|]. split; [exact Hn1|].
  rewrite Hs0, Hs1.
  assert (Hlen0 : length (bs ++ old)
                  = (Z.to_nat (Z.of_nat (length bs))
                     + R * (Np.itemsize dt * Z.to_nat (nifs * C)))%nat).
  { rewrite length_app, Nat2Z.id. f_equal. apply Nat2Z.inj.
    rewrite Hold, HB, <- Nat2Z.inj_mul. reflexivity. }
  split.
  - intros r c Hr Hcc. rewrite app_assoc.
    apply sample_at_app_old. rewrite Hlen0.
    pose proof (item_in_block r c R (Z.to_nat (nifs * C)) (Np.itemsize dt)
                  Hr ltac:(lia)). lia.
  - intros j c Hj Hcc. rewrite app_assoc.
    rewrite (sample_at_app_new dt nifs C _ (bs ++ old) _ R j c Hlen0).
    reflexivity.
Qed.

Lemma two_channel_header_valid : valid_header two_channel_header.
Proof.
  intros k ty v Hin Hk. unfold _type in Hin.
  repeat (apply elem_of_cons in Hin as [Heq|Hin];
          [ injection Heq as -> ->; vm_compute in Hk; injection Hk as <-;
            first [ exact I | split; [reflexivity | lia] ]
          | ]).
  inversion Hin.
Defined.

Lemma append_spectra_read_back_witness :
  exists f0 f1,
    __init__ {[ "beam.fil"%string :=
                  header_bytes two_channel_header ++ sample_data 2 ]}
             "beam.fil" = Ok f0
    /\ __init__ (append_spectra
                   {[ "beam.fil"%string :=
                        header_bytes two_channel_header ++ sample_data 2 ]}
                   (mkarray Np.uint8 [2; 2]%nat [x0a; x0b; x0c; x0d])
                   "beam.fil") "beam.fil" = Ok f1
    /\ whole 2 f0 /\ whole 2 f1
    /\ nrecords f0 = 1%nat /\ nrecords f1 = (1 + 2)%nat
    /\ (forall r c, (r < 1)%nat -> (c < Z.to_nat 2)%nat ->
          sample f1 r c = sample f0 r c)
    /\ (forall j c, (j < 2)%nat -> (c < Z.to_nat 2)%nat ->
          sample f1 (1 + j) c
          = element (mkarray Np.uint8 [2; 2]%nat [x0a; x0b; x0c; x0d])
                    (Z.to_nat (1 * 2)) j c).
Proof.
  apply (append_spectra_read_back two_channel_header
           {[ "beam.fil"%string :=
                header_bytes two_channel_header ++ sample_data 2 ]}
           "beam.fil" (mkarray Np.uint8 [2; 2]%nat [x0a; x0b; x0c; x0d])
           (header_bytes two_channel_header) (sample_data 2) 8 1 2 1 2).
  - exact two_channel_header_valid.
  - vm_compute. reflexivity.
  - reflexivity.
  - reflexivity.
  - reflexivity.
  - reflexivity.
  - lia.
  - lia.
  - apply lookup_singleton_eq.
  - vm_compute. reflexivity.
  - vm_compute. reflexivity.
Defined.

End Append.

(** ** What a successful decode leaves in the attributes *)

Section DecodedLayout.
Import Py SigprocFile.

Lemma le_bytes_le_value (b : bytes) : le_bytes (length b) (le_value b) = b.
Proof.
  induction b as [|x t IH]; [reflexivity|].
  cbn [length le_bytes le_value].
  pose proof (b2z_range x) as Hx.
  assert (Hm : (b2z x + 256 * le_value t) mod 256 = b2z x)
    by (rewrite (Z.mul_comm 256), Z.mod_add by lia; apply Z.mod_small; lia).
  assert (Hd : (b2z x + 256 * le_value t) / 256 = le_value t)
    by (rewrite (Z.mul_comm 256), Z.div_add by lia;
        rewrite Z.div_small by lia; lia).
  rewrite Hm, Hd.
  rewrite z2b_b2z, IH. reflexivity.
Qed.

Lemma signed_32 (b4 : bytes) :
  length b4 = 4%nat ->
  let z := if le_value b4 <? 2 ^ 31 then le_value b4
           else le_value b4 - 2 ^ 32 in
  - 2 ^ 31 <= z < 2 ^ 31 /\ b4 = le_bytes 4 (z mod 2 ^ 32).
Proof.
  intros Hl z. pose proof (le_value_range b4) as Hr. rewrite Hl in Hr.
  change (256 ^ Z.of_nat 4) with (2 ^ 32) in Hr.
  assert (Hz : - 2 ^ 31 <= z < 2 ^ 31 /\ z mod 2 ^ 32 = le_value b4).
  { unfold z. destruct (Z.ltb_spec (le_value b4) (2 ^ 31)).
    - split; [lia|]. apply Z.mod_small. lia.
    - split; [lia|].
      rewrite <- (Z.mod_add _ 1 (2 ^ 32)) by lia.
      replace (le_value b4 - 2 ^ 32 + 1 * 2 ^ 32) with (le_value b4) by lia.
      apply Z.mod_small. lia. }
  destruct Hz as (Hz & ->). split; [exact Hz|].
  pose proof (le_bytes_le_value b4) as Hb. rewrite Hl in Hb.
  symmetry. exact Hb.
Qed.

(** What [get_string] has read when it returns: a length [z] of 32
    bits, and, when [z] is between 1 and 80, the bytes that follow, [z]
    of them unless the file ends before. *)
Lemma get_string_shape (fp fp' : file) (s : value) (n : Z) :
  get_string fp = Ok (s, n, fp') ->
  fbytes fp' = fbytes fp
  /\ exists z, - 2 ^ 31 <= z < 2 ^ 31
     /\ (((z < 1 \/ 80 < z) /\ s = VNone /\ n = 0
          /\ funread fp = le_bytes 4 (z mod 2 ^ 32) ++ funread fp')
         \/ (1 <= z <= 80
             /\ exists out,
                  s = VBytes out /\ n = z + 4
                  /\ funread fp
                     = le_bytes 4 (z mod 2 ^ 32) ++ out ++ funread fp'
                  /\ Z.of_nat (length out) <= z
                  /\ (Z.of_nat (length out) = z \/ funread fp' = []))).
Proof.
  unfold get_string. destruct (read fp 4) as [b4 fp1] eqn:Hr.
  apply read_split in Hr as (Hf1 & Hu1 & _).
  rewrite unpack_i.
  destruct (Z.eqb_spec (Z.of_nat (length b4)) 4) as [Hl|Hl];
    cbn [negb mbind result_bind as_int]; [|discriminate].
  destruct (signed_32 b4 ltac:(lia)) as (Hz & Hb4).
  set (z := if le_value b4 <? 2 ^ 31 then le_value b4
            else le_value b4 - 2 ^ 32) in *.
  destruct (Z.gtb_spec z 80) as [Hhi|Hhi];
    destruct (Z.ltb_spec z 1) as [Hlo|Hlo]; cbn [orb].
  1-3: intros [= <- <- <-]; split; [exact Hf1|]; exists z;
       (split; [exact Hz|]); left; (split; [lia|]);
       (split; [reflexivity|]); (split; [reflexivity|]);
       rewrite Hu1, Hb4 at 1; reflexivity.
  destruct (read fp1 z) as [out fp2] eqn:Hr2.
  apply read_split in Hr2 as (Hf2 & Hu2 & Hlen).
  intros [= <- <- <-]. split; [congruence|]. exists z.
  split; [exact Hz|]. right. split; [lia|]. exists out.
  split; [reflexivity|]. split; [reflexivity|]. split.
  - rewrite Hu1, Hu2, Hb4 at 1. reflexivity.
  - destruct (Hlen ltac:(lia)) as (Hle & [H|H]);
      (split; [lia|]); [left; lia | right; exact H].
Qed.

Lemma name_bytes_encode (k : pystr) (nb : bytes) :
  encode k = Ok nb -> name_bytes k = nb.
Proof. intros H. unfold name_bytes. rewrite H. reflexivity. Qed.

Lemma get_string_out (fp : file) (n : Z) (rest : bytes) :
  - 2 ^ 31 <= n < 2 ^ 31 -> n < 1 \/ 80 < n ->
  funread fp = le_bytes 4 (n mod 2 ^ 32) ++ rest ->
  get_string fp = Ok (VNone, 0, mkfile (fbytes fp) rest).
Proof.
  intros Hn Hr Hu. unfold get_string.
  rewrite (read_app fp _ _ 4 Hu) by (rewrite length_le_bytes; reflexivity).
  rewrite (unpack_pack_i n Hn). cbn [mbind result_bind as_int].
  destruct (Z.gtb_spec n 80); destruct (Z.ltb_spec n 1); cbn [orb];
    try reflexivity; lia.
Qed.

Lemma absorbed_hdrbytes (self : instance) (k : pystr) (v : value)
  (n hb : Z) :
  hdrbytes self = Some hb -> hdrbytes (absorbed self k v n) = Some (hb + n).
Proof. intros H. unfold absorbed. cbn [hdrbytes]. rewrite H. reflexivity. Qed.

(** The decoder over a sequence of entries: every attribute holds what
    the last entry of its name stands for, or what it held. *)
Lemma read_fields_entries (items : list entry) :
  Forall entry_ok items ->
  forall (self : instance) (hb : Z),
    hdrbytes self = Some hb ->
    exists self' hb',
      hdrbytes self' = Some hb' /\ _mmdata self' = _mmdata self
      /\ (forall k v0, attrs self !! k = Some v0 ->
            attrs self' !! k
            = Some (fold_left
                      (fun v e => if str_eqb (entry_name e) k
                                  then entry_value e else v)
                      items v0))
      /\ forall fuel c rest,
           read_fields (length items + fuel) self
             (mkfile c (flat_map entry_bytes items ++ rest))
           = read_fields fuel self' (mkfile c rest).
Proof.
  induction 1 as [|e items He Hall IH]; intros self hb Hh.
  - exists self, hb. split; [exact Hh|]. split; [reflexivity|].
    split; [intros k v0 Hk; exact Hk|]. intros fuel c rest. reflexivity.
  - assert (Hstep : exists n, forall fuel c rest,
              read_fields (S fuel) self (mkfile c (entry_bytes e ++ rest))
              = read_fields fuel
                  (absorbed self (entry_name e) (entry_value e) n)
                  (mkfile c rest)).
    { destruct e as [k b|k n|k z|k bits]; cbn [entry_ok] in He.
      - destruct He as (Hin & Hb).
        destruct (row_facts _ _ Hin) as ((nb & Henc & Hnb) & _).
        eexists. intros fuel c rest. unfold entry_bytes. cbn [entry_name].
        rewrite (name_bytes_encode k nb Henc).
        apply (read_fields_string fuel self c rest nb b k hb Hh Hin Henc Hb).
      - destruct He as (Hin & Hn & Hr).
        destruct (row_facts _ _ Hin) as ((nb & Henc & Hnb) & Hne & Hty & _).
        exists (Z.of_nat (length (lp nb))). intros fuel c rest.
        unfold entry_bytes. cbn [entry_name entry_value].
        rewrite (name_bytes_encode k nb Henc).
        cbn [read_fields]. rewrite <- app_assoc.
        rewrite (get_string_lp _ nb (le_bytes 4 (n mod 2 ^ 32) ++ rest))
          by (try reflexivity; exact Hnb).
        cbn [mbind result_bind fbytes]. rewrite (decode_name _ _ Henc).
        cbn [mbind result_bind]. rewrite (add_hdrbytes_some self hb _ Hh).
        cbn [mbind result_bind]. rewrite (str_eqb_false _ _ Hne), Hty.
        cbn [mbind result_bind]. rewrite str_eqb_refl.
        rewrite (get_string_out _ n rest Hn Hr) by reflexivity.
        cbn [mbind result_bind fbytes]. unfold add_hdrbytes, set_hdrbytes.
        cbn [hdrbytes mbind result_bind]. f_equal.
        unfold setattr, absorbed. cbn [attrs fp hdrbytes _mmdata].
        rewrite Hh. f_equal. f_equal. rewrite length_lp. lia.
      - destruct He as (Hin & Hz).
        destruct (row_facts _ _ Hin) as ((nb & Henc & Hnb) & _).
        eexists. intros fuel c rest. unfold entry_bytes. cbn [entry_name].
        rewrite (name_bytes_encode k nb Henc).
        apply (read_fields_int fuel self c rest nb k z hb Hh Hin Henc Hz).
      - destruct He as (Hin & Hz).
        destruct (row_facts _ _ Hin) as ((nb & Henc & Hnb) & _).
        eexists. intros fuel c rest. unfold entry_bytes. cbn [entry_name].
        rewrite (name_bytes_encode k nb Henc).
        apply (read_fields_double fuel self c rest nb k bits hb Hh Hin Henc
                 Hz). }
    destruct Hstep as (n & Hstep).
    destruct (IH (absorbed self (entry_name e) (entry_value e) n) (hb + n)
                (absorbed_hdrbytes _ _ _ _ _ Hh))
      as (self' & hb' & H1 & H2 & H3 & H4).
    exists self', hb'. split; [exact H1|]. split; [exact H2|]. split.
    + intros k v0 Hk. cbn [fold_left]. apply H3.
      unfold absorbed. cbn [attrs]. unfold str_eqb.
      destruct (decide (entry_name e = k)) as [->|Hne].
      * rewrite bool_decide_eq_true_2 by reflexivity.
        apply lookup_insert_eq.
      * rewrite bool_decide_eq_false_2 by exact Hne.
        rewrite lookup_insert_ne by exact Hne. exact Hk.
    + intros fuel c rest. cbn [length flat_map Nat.add].
      rewrite <- app_assoc, Hstep. apply H4.
Qed.

(** The decoder on the closing sentinel. *)
Lemma read_fields_closing (fuel : nat) (self : instance) (c data : bytes)
  (z hb : Z) :
  hdrbytes self = Some hb ->
  z = 10 \/ (10 < z <= 80 /\ data = []) ->
  exists x,
    read_fields (S fuel) self
      (mkfile c (le_bytes 4 z ++ blit "HEADER_END" ++ data)) = Ok x
    /\ attrs x = attrs self /\ _mmdata x = _mmdata self.
Proof.
  intros Hh Hz. cbn [read_fields]. unfold get_string.
  rewrite (read_app (mkfile c (le_bytes 4 z ++ blit "HEADER_END" ++ data))
             (le_bytes 4 z) (blit "HEADER_END" ++ data) 4 eq_refl)
    by (rewrite length_le_bytes; reflexivity).
  rewrite unpack_i_le_bytes by lia. cbn [mbind result_bind as_int].
  destruct (Z.gtb_spec z 80); [lia|]. destruct (Z.ltb_spec z 1); [lia|].
  cbn [orb fbytes].
  assert (Hread : exists fp',
            read (mkfile c (blit "HEADER_END" ++ data)) z
            = (blit "HEADER_END", fp')).
  { destruct Hz as [-> | (Hz & ->)].
    - eexists.
      apply (read_app (mkfile c (blit "HEADER_END" ++ data))
               (blit "HEADER_END") data 10); reflexivity.
    - rewrite app_nil_r. unfold read.
      destruct (Z.ltb_spec z 0); [lia|]. cbn [funread fbytes].
      rewrite take_ge by (cbn; lia). eexists. reflexivity. }
  destruct Hread as (fp' & ->). cbn [mbind result_bind].
  change (decode_value (VBytes (blit "HEADER_END")))
    with (Ok (str "HEADER_END")).
  cbn [mbind result_bind]. rewrite (add_hdrbytes_some self hb _ Hh).
  cbn [mbind result_bind]. rewrite str_eqb_refl.
  eexists. split; [reflexivity|]. split; reflexivity.
Qed.

Lemma length_entry_bytes (e : entry) : (1 <= length (entry_bytes e))%nat.
Proof.
  unfold entry_bytes. rewrite length_app, length_lp. lia.
Qed.

Lemma length_entries (items : list entry) :
  (length items <= length (flat_map entry_bytes items))%nat.
Proof.
  induction items as [|e items IH]; [reflexivity|].
  cbn [length flat_map]. rewrite length_app.
  pose proof (length_entry_bytes e). lia.
Qed.

(** Construction on a file laid out as a header: every attribute of the
    table holds what the last entry of its name stands for. *)
Lemma init_layout (fs : filesystem) (fname : string) (content : bytes)
  (items : list entry) (z : Z) (data : bytes) :
  fs !! fname = Some content ->
  header_layout content items z data ->
  exists obj,
    __init__ fs fname = Ok obj
    /\ forall k, k ∈ keys -> attrs obj !! k = Some (value_of items k).
Proof.
  intros Hfile (Hok & Hz & Hc).
  rewrite <- (insert_id fs fname content Hfile).
  rewrite init_nonempty
    by (intros H; apply (f_equal length) in H; rewrite Hc in H;
        rewrite !length_app, length_lp in H; cbn in H; lia).
  rewrite (read_header_start content _ Hc).
  set (self1 := mk (attrs blank) (Some (mkfile content content)) (Some 16)
                   None).
  destruct (read_fields_entries items Hok self1 16 eq_refl)
    as (self' & hb' & H1 & H2 & H3 & H4).
  destruct (read_fields_closing 0 self' content data z hb' H1 Hz)
    as (x & Hx & Hax & _).
  assert (Hrun : read_fields (length items + 1) self1
                   (mkfile content
                      (flat_map entry_bytes items
                       ++ le_bytes 4 z ++ blit "HEADER_END" ++ data))
                 = Ok x) by (rewrite H4; exact Hx).
  rewrite (read_fields_mono _ _ _ _ _ Hrun)
    by (pose proof (length_entries items);
        rewrite !length_app, length_le_bytes; lia).
  cbn [mbind result_bind]. eexists. split; [reflexivity|].
  intros k Hk. cbn [set_mmdata attrs]. rewrite Hax.
  apply H3. unfold self1. cbn [attrs]. apply blank_attrs, Hk.
Qed.

Lemma unpack_d_inv (b : bytes) (val : value) :
  Py.unpack (str "d") b = Ok val ->
  length b = 8%nat /\ val = VFloat (le_value b).
Proof.
  unfold Py.unpack, calcsize, str_eqb.
  rewrite (bool_decide_eq_false_2 (str "d" = str "i")) by discriminate.
  rewrite (bool_decide_eq_true_2 _ eq_refl). cbn [mbind result_bind].
  destruct (Z.eqb_spec (Z.of_nat (length b)) 8) as [Hl|Hl];
    cbn [negb]; [|discriminate].
  intros [= <-]. split; [lia | reflexivity].
Qed.

Lemma unpack_i_inv (b : bytes) (val : value) :
  Py.unpack (str "i") b = Ok val ->
  exists z, - 2 ^ 31 <= z < 2 ^ 31 /\ val = VInt z
            /\ b = le_bytes 4 (z mod 2 ^ 32).
Proof.
  rewrite unpack_i.
  destruct (Z.eqb_spec (Z.of_nat (length b)) 4) as [Hl|Hl];
    cbn [negb]; [|discriminate].
  intros [= <-]. destruct (signed_32 b ltac:(lia)) as (Hz & Hb).
  eexists. split; [exact Hz|]. split; [reflexivity | exact Hb].
Qed.

Lemma lp_whole (z : Z) (out : bytes) :
  1 <= z <= 80 -> Z.of_nat (length out) = z ->
  le_bytes 4 (z mod 2 ^ 32) ++ out = lp out.
Proof.
  intros Hz Hl. unfold lp. rewrite Hl, Z.mod_small by lia. reflexivity.
Qed.

(** Every run of the decoder that returns has read a sequence of
    entries and the closing sentinel. *)
Lemma read_fields_parses (fuel : nat) (self x : instance) (fp : file) :
  read_fields fuel self fp = Ok x ->
  exists items z data,
    Forall entry_ok items
    /\ (z = 10 \/ (10 < z <= 80 /\ data = []))
    /\ funread fp
       = flat_map entry_bytes items
         ++ le_bytes 4 z ++ blit "HEADER_END" ++ data.
Proof.
  revert self fp. induction fuel as [|fuel IH]; intros self fp H;
    [discriminate|].
  cbn [read_fields] in H.
  apply bind_Ok in H as ([[s n] fp1] & Hg & H).
  apply bind_Ok in H as (name & Hname & H).
  apply bind_Ok in H as (self1 & Hadd & H).
  apply get_string_shape in Hg as (_ & z0 & Hz0 & Hcase).
  destruct Hcase as [(_ & -> & _) | (Hr0 & nb & -> & _ & Hu & Hle & Hfull)];
    [discriminate Hname|].
  cbn [decode_value] in Hname.
  pose proof (encode_decode _ _ Hname) as Henc.
  rewrite (Z.mod_small z0) in Hu by lia.
  unfold str_eqb in H.
  destruct (bool_decide (name = str "HEADER_END")) eqn:Eend.
  { apply bool_decide_eq_true in Eend. subst name.
    assert (Hnb : nb = blit "HEADER_END").
    { assert (He : encode (str "HEADER_END") = Ok (blit "HEADER_END"))
        by (vm_compute; reflexivity).
      congruence. }
    subst nb. exists [], z0, (funread fp1). split; [constructor|].
    split; [|exact Hu].
    change (Z.of_nat (length (blit "HEADER_END"))) with 10 in *.
    destruct Hfull as [Hf|Hf]; [left; lia|].
    destruct (Z.eq_dec z0 10); [left; assumption|]. right. split; [lia|].
    exact Hf. }
  apply bind_Ok in H as (ty & Hty & H).
  pose proof (type_of_in_table _ _ Hty) as Hin.
  assert (Hnbk : name_bytes name = nb) by (apply name_bytes_encode, Henc).
  assert (Hwhole : funread fp1 <> [] ->
                   funread fp = lp nb ++ funread fp1).
  { intros Hne. destruct Hfull as [Hf|Hf]; [|contradiction].
    rewrite Hu, app_assoc. f_equal.
    rewrite <- (lp_whole z0 nb Hr0 Hf), Z.mod_small by lia. reflexivity. }
  destruct (bool_decide (ty = str "string")) eqn:Estr.
  - apply bool_decide_eq_true in Estr. subst ty.
    apply bind_Ok in H as ([[v n2] fp2] & Hg2 & H).
    apply bind_Ok in H as (self2 & Hadd2 & H).
    destruct (IH _ _ H) as (items & z & data & Hok & Hz & Hrest).
    assert (Hne2 : funread fp2 <> []).
    { rewrite Hrest. intros Hnil. apply (f_equal length) in Hnil.
      rewrite !length_app, length_le_bytes in Hnil. cbn in Hnil. lia. }
    apply get_string_shape in Hg2 as (_ & z1 & Hz1 & Hcase2).
    destruct Hcase2 as [(Hout & -> & _ & Hu2)
                       | (Hr1 & out & -> & _ & Hu2 & Hle2 & Hfull2)].
    + exists (EAbsent name z1 :: items), z, data.
      split; [constructor; [cbn; auto | exact Hok]|]. split; [exact Hz|].
      cbn [flat_map]. unfold entry_bytes at 1. cbn [entry_name].
      rewrite Hnbk, Hwhole, Hu2, Hrest, <- !app_assoc; [reflexivity|].
      rewrite Hu2. intros Hnil. apply (f_equal length) in Hnil.
      rewrite length_app, length_le_bytes in Hnil. cbn in Hnil. lia.
    + destruct Hfull2 as [Hf2|Hf2]; [|contradiction].
      exists (EString name out :: items), z, data.
      split; [constructor; [cbn; split; [exact Hin | lia] | exact Hok]|].
      split; [exact Hz|].
      cbn [flat_map]. unfold entry_bytes at 1. cbn [entry_name].
      rewrite Hnbk, Hwhole, Hu2, Hrest.
      * rewrite <- (lp_whole z1 out Hr1 Hf2), <- !app_assoc. reflexivity.
      * rewrite Hu2. intros Hnil. apply (f_equal length) in Hnil.
        rewrite length_app, length_le_bytes in Hnil. cbn in Hnil. lia.
  - apply bool_decide_eq_false in Estr.
    apply bind_Ok in H as (dt & Hdt & H).
    apply bind_Ok in H as (sz & Hsz & H).
    destruct (read fp1 sz) as [b fp2] eqn:Hr.
    apply bind_Ok in H as (val & Hval & H).
    apply bind_Ok in H as (self2 & Hadd2 & H).
    apply read_split in Hr as (_ & Hu2 & _).
    destruct (IH _ _ H) as (items & z & data & Hok & Hz & Hrest).
    destruct (type_of_kind _ _ Hty) as [->| [-> | ->]]; [contradiction | |].
    + injection Hdt as <-.
      apply unpack_i_inv in Hval as (zv & Hzv & -> & ->).
      exists (EInt name zv :: items), z, data.
      split; [constructor; [cbn; auto | exact Hok]|]. split; [exact Hz|].
      cbn [flat_map]. unfold entry_bytes at 1. cbn [entry_name].
      rewrite Hnbk, Hwhole, Hu2, Hrest, <- !app_assoc; [reflexivity|].
      rewrite Hu2. intros Hnil. apply (f_equal length) in Hnil.
      rewrite length_app, length_le_bytes in Hnil. cbn in Hnil. lia.
    + injection Hdt as <-.
      apply unpack_d_inv in Hval as (Hl8 & ->).
      pose proof (le_value_range b) as Hrange. rewrite Hl8 in Hrange.
      change (256 ^ Z.of_nat 8) with (2 ^ 64) in Hrange.
      pose proof (le_bytes_le_value b) as Hb. rewrite Hl8 in Hb.
      exists (EDouble name (le_value b) :: items), z, data.
      split; [constructor; [cbn; auto | exact Hok]|]. split; [exact Hz|].
      cbn [flat_map]. unfold entry_bytes at 1. cbn [entry_name].
      rewrite Hnbk, Hb, Hwhole, Hu2, Hrest, <- !app_assoc; [reflexivity|].
      rewrite Hu2. intros Hnil. apply (f_equal length) in Hnil.
      rewrite length_app, Hl8 in Hnil. cbn in Hnil. lia.
Qed.

Lemma value_of_missing (items : list entry) (k : pystr) :
  k ∉ map entry_name items -> value_of items k = VNone.
Proof.
  unfold value_of. generalize VNone.
  induction items as [|e items IH]; intros v Hk; [reflexivity|].
  cbn [map] in Hk. apply not_elem_of_cons in Hk as [Hne Hk].
  cbn [fold_left]. rewrite (str_eqb_false _ _ (not_eq_sym Hne)).
  apply IH. exact Hk.
Qed.

Lemma value_of_last (before after : list entry) (e : entry) :
  entry_name e ∉ map entry_name after ->
  value_of (before ++ e :: after) (entry_name e) = entry_value e.
Proof.
  intros Hk. unfold value_of. rewrite fold_left_app. cbn [fold_left].
  rewrite str_eqb_refl. generalize (entry_value e). clear before.
  induction after as [|a after IH]; intros v; [reflexivity|].
  cbn [map] in Hk. apply not_elem_of_cons in Hk as [Hne Hk].
  cbn [fold_left]. rewrite (str_eqb_false _ _ (not_eq_sym Hne)).
  apply IH. exact Hk.
Qed.

(** C10 (amended): after a construction that succeeds on a file, the
    attributes of the field table hold what the file holds, as the
    decoder reads it. A file that does not start with the opening
    sentinel leaves every field [None]. A file that starts with it is a
    sequence of entries closed by the closing sentinel, and every field
    holds what the last entry of its name stands for: the raw bytes of a
    string whose declared length is between 1 and 80, [None] for a
    string whose declared length is not, the number of a numeric entry;
    a field without an entry is [None], as it was initialized. *)
Theorem decoded_fields (fs : filesystem) (fname : string) (content : bytes)
  (obj : instance) :
  fs !! fname = Some content ->
  __init__ fs fname = Ok obj ->
  ((forall stream, content <> lp (blit "HEADER_START") ++ stream) ->
   forall k, k ∈ keys -> attrs obj !! k = Some VNone)
  /\ ((exists stream, content = lp (blit "HEADER_START") ++ stream) ->
      exists items z data, header_layout content items z data)
  /\ (forall items z data,
        header_layout content items z data ->
        forall k, k ∈ keys -> attrs obj !! k = Some (value_of items k)).
Proof.
  intros Hfile Hinit. split; [|split].
  - intros Hno k Hk. unfold __init__ in Hinit. rewrite Hfile in Hinit.
    destruct (negb _); [|injection Hinit as <-; apply blank_attrs, Hk].
    apply bind_Ok in Hinit as (self' & Hread & Hinit).
    injection Hinit as <-. cbn [set_mmdata attrs].
    unfold read_header in Hread. cbn [fp set_fp] in Hread.
    apply bind_Ok in Hread as ([[s n] fp1] & Hg & Hread).
    destruct (value_eqb s (VBytes (blit "HEADER_START"))) eqn:Es;
      cbn [negb] in Hread.
    2:{ injection Hread as <-. cbn [set_fp set_hdrbytes attrs].
        apply blank_attrs, Hk. }
    exfalso.
    apply bind_Ok in Hread as (self1 & _ & Hread).
    apply read_fields_needs_prefix in Hread.
    apply get_string_shape in Hg as (_ & z0 & Hz0 & Hcase).
    destruct Hcase as [(_ & -> & _)
                      | (Hr0 & out & -> & _ & Hu & Hle & Hfull)];
      [discriminate Es|].
    cbn [value_eqb] in Es. apply bool_decide_eq_true in Es. subst out.
    destruct Hfull as [Hf|Hf]; [|rewrite Hf in Hread; cbn in Hread; lia].
    apply (Hno (funread fp1)). cbn [open_rb funread] in Hu.
    rewrite Hu, app_assoc, (lp_whole z0 _ Hr0 Hf). reflexivity.
  - intros (stream & Hc).
    rewrite <- (insert_id fs fname content Hfile) in Hinit.
    rewrite init_nonempty in Hinit
      by (intros H; apply (f_equal length) in H; rewrite Hc in H;
          rewrite length_app, length_lp in H; cbn in H; lia).
    apply bind_Ok in Hinit as (self' & Hread & _).
    rewrite (read_header_start content stream Hc) in Hread.
    apply read_fields_parses in Hread
      as (items & z & data & Hok & Hz & Hstream).
    cbn [funread] in Hstream.
    exists items, z, data. split; [exact Hok|]. split; [exact Hz|].
    rewrite Hc, Hstream. reflexivity.
  - intros items z data Hlay k Hk.
    destruct (init_layout fs fname content items z data Hfile Hlay)
      as (obj' & Hinit' & Hattrs).
    rewrite Hinit in Hinit'. injection Hinit' as <-. exact (Hattrs k Hk).
Qed.

Lemma decoded_fields_witness :
  ((forall stream,
      header_bytes sample_header ++ sample_data 6
      <> lp (blit "HEADER_START") ++ stream) ->
   forall k, k ∈ keys -> attrs sample_decoded !! k = Some VNone)
  /\ ((exists stream,
         header_bytes sample_header ++ sample_data 6
         = lp (blit "HEADER_START") ++ stream) ->
      exists items z data,
        header_layout (header_bytes sample_header ++ sample_data 6)
                      items z data)
  /\ (forall items z data,
        header_layout (header_bytes sample_header ++ sample_data 6)
                      items z data ->
        forall k, k ∈ keys ->
          attrs sample_decoded !! k = Some (value_of items k)).
Proof.
  apply (decoded_fields
           {[ "beam.fil"%string :=
                header_bytes sample_header ++ sample_data 6 ]}
           "beam.fil"
           (header_bytes sample_header ++ sample_data 6) sample_decoded).
  - apply lookup_singleton_eq.
  - vm_compute. reflexivity.
Defined.

(** The file written from [sample_header], entry by entry. *)
Lemma sample_header_layout :
  header_layout (header_bytes sample_header ++ sample_data 6)
    [EString (str "source_name") (blit "FAKE");
     EDouble (str "fch1") 0x4097C00000000000;
     EDouble (str "foff") 0xBFF0000000000000;
     EInt (str "nchans") 2; EInt (str "nbits") 8; EInt (str "nifs") 1]
    10 (sample_data 6).
Proof.
  split; [|split; [left; reflexivity | vm_compute; reflexivity]].
  repeat constructor; cbn [entry_ok];
    first [ apply list_elem_of_In; vm_compute; tauto | cbn; lia ].
Qed.

(** C10, as stated, fails: a string field that is in the stream with a
    length of zero is held as [None] after a decode that succeeds. *)
Lemma string_entry_held_as_none :
  (__init__
     {[ "beam.fil"%string :=
          lp (blit "HEADER_START")
          ++ (lp (blit "source_name") ++ le_bytes 4 0)
          ++ (lp (blit "nchans") ++ le_bytes 4 2)
          ++ lp (blit "HEADER_END") ]} "beam.fil"
   ≫= fun obj => getattr obj (str "source_name")) = Ok VNone
  /\ (__init__
        {[ "beam.fil"%string :=
             lp (blit "HEADER_START")
             ++ (lp (blit "source_name") ++ le_bytes 4 0)
             ++ (lp (blit "nchans") ++ le_bytes 4 2)
             ++ lp (blit "HEADER_END") ]} "beam.fil"
      ≫= fun obj => getattr obj (str "nchans")) = Ok (VInt 2)
  /\ ~ (exists b,
          (__init__
             {[ "beam.fil"%string :=
                  lp (blit "HEADER_START")
                  ++ (lp (blit "source_name") ++ le_bytes 4 0)
                  ++ (lp (blit "nchans") ++ le_bytes 4 2)
                  ++ lp (blit "HEADER_END") ]} "beam.fil"
           ≫= fun obj => getattr obj (str "source_name"))
          = Ok (VBytes b)).
Proof.
  split; [vm_compute; reflexivity|]. split; [vm_compute; reflexivity|].
  intros (b & H). vm_compute in H. discriminate H.
Qed.

End DecodedLayout.
